(** * EDGAR annual-report downloader: a shallow embedding of
      [edgarhtml5yearHTML.py] and the properties of its filing-resolution
      logic.

    Python values are modelled as follows.
    - [str] is [string]; the model covers ASCII text, where [str.lower],
      [str.upper] and the regular-expression classes [\s], [\d], [\w]
      have the behaviour written out below (characters above 127 are
      carried along unchanged and belong to no class).
    - [int] is [Z], [Optional[T]] is [option T], a [list] is a [list].
    - The dictionaries decoded from JSON are records with the fields the
      program reads; a [set] of strings is a [gset string].
    - A [pathlib.Path] is the string that [str] gives for it; the
      operator [/] is [PurePosixPath]'s (an empty or [.] component is
      dropped, an absolute name replaces the folder).  The local tree is
      a [gmap] from the path of a file to its content and a [gset] of
      the paths of the directories, on a POSIX file system that
      distinguishes letter case and has no symbolic links; a [..]
      component is kept as [pathlib] keeps it and is not resolved.
    - Network access, sleeping and file operations are threaded through
      an explicit state (an event log and the file system) by a small
      state monad; the remote server is a parameter mapping the log so
      far and a URL to a reply, and the host is a parameter that says
      which file operations raise [OSError] for a reason the tree does
      not show (a name that is too long, a missing permission, a full
      disk). *)

From Stdlib Require Import ZArith Lia Ascii DecimalString DecimalZ.
From stdpp Require Import gmap strings list sorting.

(* ===================================================================== *)
(** * Python strings *)
(* ===================================================================== *)

Module Py.

(** ** Characters *)

Definition is_upper (c : ascii) : bool :=
  let n := Ascii.N_of_ascii c in (65 <=? n)%N && (n <=? 90)%N.

Definition is_lower (c : ascii) : bool :=
  let n := Ascii.N_of_ascii c in (97 <=? n)%N && (n <=? 122)%N.

Definition lower_char (c : ascii) : ascii :=
  if is_upper c then Ascii.ascii_of_N (Ascii.N_of_ascii c + 32) else c.

Definition upper_char (c : ascii) : ascii :=
  if is_lower c then Ascii.ascii_of_N (Ascii.N_of_ascii c - 32) else c.

(** [\d] *)
Definition is_digit (c : ascii) : bool :=
  let n := Ascii.N_of_ascii c in (48 <=? n)%N && (n <=? 57)%N.

(** [\w] *)
Definition is_word (c : ascii) : bool :=
  is_upper c || is_lower c || is_digit c || Ascii.eqb c "_".

(** [\s], which is also what [str.strip] and [int] remove: tab, line
    feed, vertical tab, form feed, carriage return, the four separators
    0x1c-0x1f, and the space. *)
Definition is_space (c : ascii) : bool :=
  let n := Ascii.N_of_ascii c in
  ((9 <=? n)%N && (n <=? 13)%N) || ((28 <=? n)%N && (n <=? 32)%N).

(** ** Strings *)

Fixpoint map (f : ascii → ascii) (s : string) : string :=
  match s with
  | EmptyString => EmptyString
  | String c s' => String (f c) (map f s')
  end.

(** [s.lower()], [s.upper()] *)
Definition lower : string → string := map lower_char.
Definition upper : string → string := map upper_char.

(** [s.startswith(p)] *)
Fixpoint startswith (p s : string) : bool :=
  match p, s with
  | EmptyString, _ => true
  | String a p', String b s' => Ascii.eqb a b && startswith p' s'
  | String _ _, EmptyString => false
  end.

(** [s.endswith(p)] *)
Definition endswith (p s : string) : bool :=
  startswith (String.rev p) (String.rev s).

(** [s.endswith((p1, p2, ...))] with a tuple of suffixes *)
Definition endswith_any (ps : list string) (s : string) : bool :=
  existsb (λ p, endswith p s) ps.

(** [p in s] *)
Fixpoint contains (p s : string) : bool :=
  startswith p s ||
  match s with
  | EmptyString => false
  | String _ s' => contains p s'
  end.

(** [s.replace(c, empty)] for a one-character [c] *)
Fixpoint remove_char (c : ascii) (s : string) : string :=
  match s with
  | EmptyString => EmptyString
  | String a s' =>
      if Ascii.eqb a c then remove_char c s' else String a (remove_char c s')
  end.

(** [s[:n]] for [n >= 0] *)
Fixpoint take (n : nat) (s : string) : string :=
  match n, s with
  | S n', String c s' => String c (take n' s')
  | _, _ => EmptyString
  end.

(** [s[n:]] for [n >= 0] *)
Fixpoint drop (n : nat) (s : string) : string :=
  match n, s with
  | S n', String _ s' => drop n' s'
  | _, _ => s
  end.

Fixpoint take_while (f : ascii → bool) (s : string) : string :=
  match s with
  | String c s' => if f c then String c (take_while f s') else EmptyString
  | EmptyString => EmptyString
  end.

Fixpoint drop_while (f : ascii → bool) (s : string) : string :=
  match s with
  | String c s' => if f c then drop_while f s' else s
  | EmptyString => EmptyString
  end.

Fixpoint forallb (f : ascii → bool) (s : string) : bool :=
  match s with
  | String c s' => f c && forallb f s'
  | EmptyString => true
  end.

Fixpoint repeat (c : ascii) (n : nat) : string :=
  match n with
  | O => EmptyString
  | S n' => String c (repeat c n')
  end.

(** The decimal numeral of [z]: what [str(z)] returns when it returns.
    It raises [ValueError] for an [int] of more than 4300 digits (see
    [str] below); the program prints only what [int] or the JSON decoder
    has read, and both refuse a longer number. *)
Definition str_of_int (z : Z) : string :=
  NilZero.string_of_int (Z.to_int z).

(** [s.zfill(width)]: zeros go after a leading sign. *)
Definition zfill (width : nat) (s : string) : string :=
  let pad := repeat "0" (width - String.length s) in
  match s with
  | String c s' =>
      if Ascii.eqb c "+" || Ascii.eqb c "-" then String c (pad +:+ s')
      else pad +:+ s
  | EmptyString => pad
  end.

(** The value of a string of decimal digits, most significant first. *)
Fixpoint digits_value (acc : Z) (s : string) : Z :=
  match s with
  | String c s' =>
      digits_value (10 * acc + Z.of_N (Ascii.N_of_ascii c - 48)) s'
  | EmptyString => acc
  end.

(** Digit groups separated by single underscores: [12], [1_000]. *)
Fixpoint int_body (after_digit : bool) (s : string) : option string :=
  match s with
  | EmptyString => if after_digit then Some EmptyString else None
  | String c s' =>
      if is_digit c then String c <$> int_body true s'
      else if Ascii.eqb c "_" && after_digit then
        match s' with
        | String d _ => if is_digit d then int_body false s' else None
        | EmptyString => None
        end
      else None
  end.

(** The default of [sys.get_int_max_str_digits()]: [int] and [str]
    raise [ValueError] for more decimal digits. *)
Definition MAX_STR_DIGITS : nat := 4300.

(** [str(z)]; [None] stands for [ValueError]: [z] has more than 4300
    digits. *)
Definition str (z : Z) : option string :=
  if (10 ^ Z.of_nat MAX_STR_DIGITS <=? Z.abs z)%Z then None
  else Some (str_of_int z).

(** The digits of a literal, without its underscores, as [int] reads
    them: leading zeros count towards the limit. *)
Definition limited_value (ds : string) : option Z :=
  if MAX_STR_DIGITS <? String.length ds then None
  else Some (digits_value 0 ds).

(** [int(s)] in base ten; [None] stands for [ValueError]. *)
Definition int_of_str (s : string) : option Z :=
  let t := String.rev (drop_while is_space
             (String.rev (drop_while is_space s))) in
  match t with
  | String c t' =>
      if Ascii.eqb c "-" then
        Z.opp <$> (int_body false t' ≫= limited_value)
      else if Ascii.eqb c "+" then int_body false t' ≫= limited_value
      else int_body false t ≫= limited_value
  | EmptyString => None
  end.

End Py.

(* ===================================================================== *)
(** * The regular expressions of the program *)
(* ===================================================================== *)

Module Re.

(** If [s] begins with [p] up to letter case ([re.IGNORECASE] on a
    literal), the rest of [s] after it. *)
Fixpoint strip_prefix_ci (p s : string) : option string :=
  match p, s with
  | EmptyString, _ => Some s
  | String a p', String b s' =>
      if Ascii.eqb (Py.lower_char a) (Py.lower_char b)
      then strip_prefix_ci p' s' else None
  | String _ _, EmptyString => None
  end.

(** Leftmost occurrence of the literal [p] in [s], ignoring case: the
    text before it and the text after it. *)
Fixpoint split_at_ci (p s : string) : option (string * string) :=
  match strip_prefix_ci p s with
  | Some rest => Some (EmptyString, rest)
  | None =>
      match s with
      | EmptyString => None
      | String c s' =>
          match split_at_ci p s' with
          | Some (before, after) => Some (String c before, after)
          | None => None
          end
      end
  end.

(** [re.findall(r"<DOCUMENT>(.*?)</DOCUMENT>", s, DOTALL | IGNORECASE)]:
    the bodies of the non-overlapping matches, left to right; each body
    runs lazily to the nearest closing marker.  The recursion continues
    in a strictly shorter text, [fuel] bounds it. *)
Fixpoint findall_document_fuel (fuel : nat) (s : string) : list string :=
  match fuel with
  | O => []
  | S fuel' =>
      match s with
      | EmptyString => []
      | String _ s' =>
          match strip_prefix_ci "<DOCUMENT>" s with
          | Some rest =>
              match split_at_ci "</DOCUMENT>" rest with
              | Some (body, after) =>
                  body :: findall_document_fuel fuel' after
              | None => findall_document_fuel fuel' s'
              end
          | None => findall_document_fuel fuel' s'
          end
      end
  end.

Definition findall_document (s : string) : list string :=
  findall_document_fuel (String.length s) s.

(** The class [[^\s<]]. *)
Definition is_label_char (c : ascii) : bool :=
  negb (Py.is_space c) && negb (Ascii.eqb c "<").

(** An anchored match of [tag \s* ([^\s<]+)] at the start of [s]:
    group 1.  Giving back white space cannot help the group to start,
    so the greedy [\s*] never backtracks to a match. *)
Definition match_tag_here (tag s : string) : option string :=
  match strip_prefix_ci tag s with
  | Some rest =>
      match Py.take_while is_label_char (Py.drop_while Py.is_space rest) with
      | EmptyString => None
      | g => Some g
      end
  | None => None
  end.

(** [re.search(tag + r"\s*([^\s<]+)", s, IGNORECASE)]: group 1 of the
    leftmost match. *)
Fixpoint search_tag (tag s : string) : option string :=
  match match_tag_here tag s with
  | Some g => Some g
  | None =>
      match s with
      | EmptyString => None
      | String _ s' => search_tag tag s'
      end
  end.

(** The class [[-_ ]]. *)
Definition is_ex_separator (c : ascii) : bool :=
  Ascii.eqb c "-" || Ascii.eqb c "_" || Ascii.eqb c " ".

(** An anchored match of [ex[-_ ]?\d] at the start of [s]. *)
Definition match_ex_here (s : string) : bool :=
  match s with
  | String "e" (String "x" (String c r)) =>
      Py.is_digit c ||
      (is_ex_separator c &&
       match r with String d _ => Py.is_digit d | EmptyString => false end)
  | _ => false
  end.

(** [re.search(r"\bex[-_ ]?\d", s)] as a truth value.  The letter [e]
    is a word character, so [\b] before it holds at the start of the
    text and after a non-word character; [prev_word] tells whether the
    character before [s] is a word character. *)
Fixpoint search_ex_from (prev_word : bool) (s : string) : bool :=
  (negb prev_word && match_ex_here s) ||
  match s with
  | EmptyString => false
  | String c s' => search_ex_from (Py.is_word c) s'
  end.

Definition search_ex (s : string) : bool := search_ex_from false s.

(** [re.search(r"/edgar/data/(\d+)/(\d{18})/", s, IGNORECASE)]: groups
    1 and 2 of the leftmost match.  [\d+] is followed by a slash, so
    only its longest run of digits can match. *)
Definition match_edgar_path_here (s : string) : option (string * string) :=
  match strip_prefix_ci "/edgar/data/" s with
  | Some rest =>
      let g1 := Py.take_while Py.is_digit rest in
      match g1, Py.drop_while Py.is_digit rest with
      | String _ _, String "/" rest' =>
          let g2 := Py.take 18 rest' in
          if (String.length g2 =? 18) && Py.forallb Py.is_digit g2 then
            match Py.drop 18 rest' with
            | String "/" _ => Some (g1, g2)
            | _ => None
            end
          else None
      | _, _ => None
      end
  | None => None
  end.

Fixpoint search_edgar_path (s : string) : option (string * string) :=
  match match_edgar_path_here s with
  | Some g => Some g
  | None =>
      match s with
      | EmptyString => None
      | String _ s' => search_edgar_path s'
      end
  end.

End Re.

(* ===================================================================== *)
(** * Paths: [pathlib.PurePosixPath] *)
(* ===================================================================== *)

Module Path.

(** [s.split(c)] for a one-character [c] *)
Fixpoint split (c : ascii) (s : string) : list string :=
  match s with
  | EmptyString => [EmptyString]
  | String a s' =>
      if Ascii.eqb a c then EmptyString :: split c s'
      else
        match split c s' with
        | h :: t => String a h :: t
        | [] => [String a EmptyString]
        end
  end.

(** A pure path: its root ([/], [//] or none) and its components. *)
Definition t : Type := string * list string.

Definition is_part (x : string) : bool :=
  negb (String.eqb x EmptyString) && negb (String.eqb x ".").

(** [PurePosixPath(s)]: exactly two leading slashes are kept as the
    root [//], one or more than two are the root [/]; empty components
    and [.] are dropped. *)
Definition parse (s : string) : t :=
  let rel := Py.drop_while (λ c, Ascii.eqb c "/") s in
  let root :=
    match String.length s - String.length rel with
    | 0 => EmptyString
    | 2 => "//"
    | _ => "/"
    end in
  (root, List.filter is_part (split "/" rel)).

(** [p / name] *)
Definition join (p : t) (name : string) : t :=
  let q := parse name in
  match q.1 with
  | EmptyString => (p.1, p.2 ++ q.2)
  | _ => q
  end.

(** [str(p)] *)
Definition str (p : t) : string :=
  match p with
  | (EmptyString, []) => "."
  | (root, parts) => root +:+ String.concat "/" parts
  end.

(** [p.parent] *)
Definition parent (p : t) : t := (p.1, removelast p.2).

(** The paths from the first component of [p] down to [p] itself. *)
Definition prefixes (p : t) : list t :=
  (λ k, (p.1, take k p.2)) <$> seq 1 (length p.2).

End Path.

(* ===================================================================== *)
(** * The outside world *)
(* ===================================================================== *)

(** One record of [company_tickers.json]: keys [ticker], [cik_str],
    [title].  The decoder reads no number of more than 4300 digits. *)
Record Company := {
  company_ticker : string;
  company_cik_str : Z;
  company_title : string;
}.

(** One entry of [directory.item] in a folder's [index.json]; the key
    [name] may be missing. *)
Record Item := { item_name : option string }.

(** [filings.recent] of a submissions feed: the four arrays read by the
    program.  An entry of [primaryDocument] may be [null]. *)
Record Feed := {
  feed_form : list string;
  feed_accessionNumber : list string;
  feed_filingDate : list string;
  feed_primaryDocument : list (option string);
}.

(** What [r.json()] gives: one of the three documents of the remote
    service, or a failure to decode. *)
Inductive Json :=
  | JTickers (table : list Company)
  | JFeed (recent : Feed)
  | JListing (items : list Item)
  | JInvalid.

(** What [requests.get] gives: a [RequestException] raised by the
    transport, or a response with its status code, [r.text] (also
    standing for [r.content]) and [r.json()]. *)
Inductive Reply :=
  | NetworkError
  | Response (status : Z) (text : string) (json : Json).

(** Durations are in milliseconds. *)
Inductive Event :=
  | Request (url : string)
  | Sleep (ms : Z).

Record State := {
  log : list Event;            (* oldest event first *)
  fs : gmap string string;     (* path of a file ↦ its content *)
  dirs : gset string;          (* paths of the directories *)
}.

(** The remote service: the reply to a request, given all that happened
    before it. *)
Definition Server := list Event → string → Reply.

(** The operations of the program on the local tree. *)
Inductive FileOp :=
  | Stat (path : string)
  | WriteFile (path : string)
  | MakeDir (path : string).

(** The host: whether an operation raises [OSError] for a reason that the
    tree does not show, given all that happened before it. *)
Definition Host := list Event → FileOp → bool.

(** [Path(s)] as a string, and the operations of [pathlib] on it. *)
Definition path_of (s : string) : string := Path.str (Path.parse s).

(** [dest_dir / name] *)
Definition path_join (dir name : string) : string :=
  Path.str (Path.join (Path.parse dir) name).

(** [path.parent] *)
Definition path_parent (path : string) : string :=
  Path.str (Path.parent (Path.parse path)).

(** The directories that [path.mkdir(parents=True)] needs, outermost
    first, [path] last. *)
Definition path_ancestors (path : string) : list string :=
  Path.str <$> Path.prefixes (Path.parse path).

(** A path with an embedded null character: [os.stat] and [open] raise
    [ValueError] for it. *)
Definition has_nul (path : string) : bool :=
  Py.contains (String "000" EmptyString) path.

Definition is_file (st : State) (path : string) : bool :=
  bool_decide (is_Some (fs st !! path)).

(** The working directory and the roots are directories of every
    tree. *)
Definition is_dir (st : State) (path : string) : bool :=
  bool_decide (path ∈ dirs st)
  || String.eqb path "." || String.eqb path "/" || String.eqb path "//".

Definition M (A : Type) : Type := State → A * State.

Global Instance M_ret : MRet M := λ A (a : A) st, (a, st).
Global Instance M_bind : MBind M := λ A B (f : A → M B) (m : M A) st,
  let (a, st') := m st in f a st'.

Definition requests_of (l : list Event) : list string :=
  omap (λ e, match e with Request u => Some u | Sleep _ => None end) l.

Definition sleeps_of (l : list Event) : list Z :=
  omap (λ e, match e with Sleep ms => Some ms | Request _ => None end) l.

(* ----------------------------
   USER CONFIG
   ---------------------------- *)
Definition SLEEP_BETWEEN_CALLS : Z := 300.
Definition DOWNLOAD_EXHIBITS : bool := true.
Definition EXHIBIT_EXTS : list string := [".htm"; ".html"; ".txt"; ".pdf"].

Section Program.

Variable server : Server.
Variable host : Host.

(** ** Primitive effects *)

(** [requests.get(url, ...)] *)
Definition requests_get (url : string) : M Reply := λ st,
  (server (log st) url, {| log := log st ++ [Request url]; fs := fs st; dirs := dirs st |}).

(** [time.sleep(ms / 1000)] *)
Definition time_sleep (ms : Z) : M unit := λ st,
  (tt, {| log := log st ++ [Sleep ms]; fs := fs st; dirs := dirs st |}).

(** [path.exists()]: [None] is an [OSError] that [exists] lets
    through; it answers [False] itself for a missing file, for a
    component that is no directory and for an embedded null
    character. *)
Definition stat (st : State) (path : string) : option bool :=
  if has_nul path then Some false
  else if host (log st) (Stat path) then None
  else Some (is_file st path || is_dir st path).

Definition path_exists (path : string) : M (option bool) := λ st,
  (stat st path, st).

(** [path.write_text(content)], [path.write_bytes(content)]: [false]
    is the exception raised when the file cannot be written: the host
    refuses, the path is a directory, or its parent is none. *)
Definition can_write (st : State) (path : string) : bool :=
  negb (has_nul path)
  && negb (host (log st) (WriteFile path))
  && negb (is_dir st path)
  && is_dir st (path_parent path).

Definition path_write (path content : string) : M bool := λ st,
  if can_write st path
  then (true, {| log := log st; fs := <[path := content]> (fs st);
                 dirs := dirs st |})
  else (false, st).

(** The directories of [path.mkdir(parents=True, exist_ok=True)], made
    from the outermost on: one that is there is kept, a file in its
    place or a refusal of the host raises. *)
Fixpoint mkdir_each (paths : list string) : M bool :=
  match paths with
  | [] => mret true
  | p :: rest => λ st,
      if is_dir st p then mkdir_each rest st
      else if is_file st p || host (log st) (MakeDir p) then (false, st)
      else mkdir_each rest
             {| log := log st; fs := fs st; dirs := {[ p ]} ∪ dirs st |}
  end.

(** [path.mkdir(parents=True, exist_ok=True)] and
    [os.makedirs(path, exist_ok=True)]; [false] is the exception. *)
Definition path_mkdir (path : string) : M bool :=
  if has_nul path then mret false else mkdir_each (path_ancestors path).

(* ----------------------------
   Utilities
   ---------------------------- *)

(** [r.raise_for_status()] raises [HTTPError] *)
Definition raises_for_status (status : Z) : bool :=
  (400 <=? status)%Z && (status <? 600)%Z.

Definition is_transient_status (status : Z) : bool :=
  (status =? 429)%Z || ((500 <=? status)%Z && (status <? 600)%Z).

(** The body of [for attempt in range(1, max_retries + 1)] of
    [get_json], from [attempt] on, with [todo] iterations left.  The
    [except] clause catches what [requests.get], [raise_for_status] and
    [r.json()] raise: the decoding error of [requests] is a
    [RequestException] like the others. *)
Fixpoint get_json_loop (url : string) (max_retries : nat) (backoff : Z)
    (attempt todo : nat) : M (option Json) :=
  match todo with
  | O => mret None
  | S todo' =>
      let on_exception : M (option Json) :=
        if attempt =? max_retries then mret None
        else
          time_sleep (backoff * Z.of_nat attempt);;
          get_json_loop url max_retries backoff (S attempt) todo' in
      r ← requests_get url;
      match r with
      | NetworkError => on_exception
      | Response status _ json =>
          if is_transient_status status then
            time_sleep (backoff * Z.of_nat attempt);;
            get_json_loop url max_retries backoff (S attempt) todo'
          else if raises_for_status status then on_exception
          else
            match json with
            | JInvalid => on_exception
            | _ => mret (Some json)
            end
      end
  end.

(** GET JSON with basic retry/backoff for transient errors / rate
    limiting. *)
Definition get_json_with (url : string) (max_retries : nat) (backoff : Z)
    : M (option Json) :=
  get_json_loop url max_retries backoff 1 max_retries.

(** The defaults [max_retries = 3], [backoff = 1.0]. *)
Definition get_json (url : string) : M (option Json) :=
  get_json_with url 3 1000.

(** GET text (no retries here; caller handles). *)
Definition get_text (url : string) : M (option string) :=
  r ← requests_get url;
  match r with
  | NetworkError => mret None
  | Response status text _ =>
      if (status =? 404)%Z then mret None
      else if raises_for_status status then mret None
      else mret (Some text)
  end.

(* ----------------------------
   Ticker -> CIK mapping
   ---------------------------- *)

(** [ticker.upper().replace('.', empty)] *)
Definition normalize_ticker (ticker : string) : string :=
  Py.remove_char "." (Py.upper ticker).

(** The search loop of [get_cik_from_ticker] over [data.values()]. *)
Fixpoint find_company (ticker_upper : string) (table : list Company)
    : option (string * string) :=
  match table with
  | [] => None
  | company :: rest =>
      if String.eqb (normalize_ticker (company_ticker company)) ticker_upper
      then Some (Py.zfill 10 (Py.str_of_int (company_cik_str company)),
                 company_title company)
      else find_company ticker_upper rest
  end.

(** Convert ticker to CIK using SEC's company_tickers.json.  The
    result [(None, None)] is [None]; [(cik, company_name)] is [Some]. *)
Definition get_cik_from_ticker (ticker : string)
    : M (option (string * string)) :=
  data ← get_json "https://www.sec.gov/files/company_tickers.json";
  match data with
  | Some (JTickers table) =>
      mret (find_company (normalize_ticker ticker) table)
  | _ => mret None
  end.

(* ----------------------------
   Filing selection helpers
   ---------------------------- *)

(** The f-string
    ["https://www.sec.gov/Archives/edgar/data/{cik}/{accession}/{name}"]
    without its last component. *)
Definition archive_folder (cik_no_zeros accession_nodashes : string)
    : string :=
  "https://www.sec.gov/Archives/edgar/data/" +:+ cik_no_zeros +:+ "/"
    +:+ accession_nodashes +:+ "/".

Definition archive_url (cik_no_zeros accession_nodashes name : string)
    : string :=
  archive_folder cik_no_zeros accession_nodashes +:+ name.

(** Return list of dicts from filing folder index.json (may be empty
    on failure). *)
Definition _index_json_items (cik_no_zeros accession_nodashes : string)
    : M (list Item) :=
  data ← get_json (archive_url cik_no_zeros accession_nodashes "index.json");
  match data with
  | Some (JListing items) => mret items
  | _ => mret []
  end.

(** [it.get("name", default)] with the empty string as default *)
Definition item_get_name (it : Item) : string :=
  default EmptyString (item_name it).

Definition HTML_EXTS : list string := [".htm"; ".html"].

(** The inner function [score] of [pick_html_from_index_json]. *)
Definition score (name : string) : Z :=
  let n := Py.lower name in
  let s := 0%Z in
  let s := if Py.contains "10-k" n || Py.contains "10k" n
           then (s + 10)%Z else s in
  let s := if Py.contains "20-f" n || Py.contains "20f" n
           then (s + 9)%Z else s in
  let s := if Py.contains "form" n then (s + 2)%Z else s in
  let s := if String.eqb n "index.html" then (s - 10)%Z else s in
  let s := if Re.search_ex n || Py.contains "exhibit" n
           then (s - 5)%Z else s in
  (s + Z.min (Z.of_nat (String.length n) / 10) 3)%Z.

(** [max(xs, key=key)] after the first element [best]: the first of
    the elements with the largest key. *)
Fixpoint max_by_from {A} (key : A → Z) (best : A) (xs : list A) : A :=
  match xs with
  | [] => best
  | x :: xs' =>
      if (key best <? key x)%Z then max_by_from key x xs'
      else max_by_from key best xs'
  end.

(** The names kept in [htmls]. *)
Definition html_names (items : list Item) : list string :=
  item_get_name <$>
    List.filter (λ it, Py.endswith_any HTML_EXTS (Py.lower (item_get_name it)))
      items.

(** The choice of [pick_html_from_index_json] once the listing is
    known. *)
Definition pick_html_from_items (items : list Item) : option string :=
  match html_names items with
  | [] => None
  | first :: others => Some (max_by_from score first others)
  end.

(** Prefer real 10-K/20-F html from index.json; avoid exhibits and
    index.html. *)
Definition pick_html_from_index_json (cik_no_zeros accession_nodashes : string)
    : M (option string) :=
  items ← _index_json_items cik_no_zeros accession_nodashes;
  mret (archive_url cik_no_zeros accession_nodashes
          <$> pick_html_from_items items).

Definition ANNUAL_TYPES : gset string :=
  {[ "10-K"; "10-K/A"; "20-F"; "20-F/A" ]}.

(** The loop over [doc_blocks] of [parse_submission_txt_for_annual_html]:
    the URL for the first block that qualifies. *)
Fixpoint scan_blocks_for_url (cik_no_zeros accession_nodashes : string)
    (doc_blocks : list string) : option string :=
  match doc_blocks with
  | [] => None
  | block :: rest =>
      match Re.search_tag "<TYPE>" block,
            Re.search_tag "<FILENAME>" block with
      | Some mtype, Some fname =>
          if bool_decide (Py.upper mtype ∈ ANNUAL_TYPES)
             && Py.endswith_any HTML_EXTS (Py.lower fname)
          then Some (archive_url cik_no_zeros accession_nodashes fname)
          else scan_blocks_for_url cik_no_zeros accession_nodashes rest
      | _, _ => scan_blocks_for_url cik_no_zeros accession_nodashes rest
      end
  end.

(** Parse master submission .txt for <TYPE>10-K/20-F -> <FILENAME>
    real HTML. *)
Definition parse_submission_txt_for_annual_html
    (cik_no_zeros accession_nodashes : string) : M (option string) :=
  txt ← get_text (archive_url cik_no_zeros accession_nodashes
                    (accession_nodashes +:+ ".txt"));
  match txt with
  | None | Some EmptyString => mret None
  | Some txt =>
      mret (scan_blocks_for_url cik_no_zeros accession_nodashes
              (Re.findall_document txt))
  end.

Definition FILING_TOKENS : list string := ["10-k"; "10k"; "20-f"; "20f"].

(** The test of tier 1 on a declared name. *)
Definition looks_like_annual_html (primary_doc : string) : bool :=
  let p := Py.lower primary_doc in
  Py.endswith_any HTML_EXTS p
  && existsb (λ k, Py.contains k p) FILING_TOKENS.

(** 1) Use primaryDocument if it looks like the annual HTML
    2) else pick from index.json (avoids index.html/exhibits)
    3) else parse master .txt for <TYPE>10-K/20-F <FILENAME> *)
Definition pick_best_annual_html (cik_no_zeros accession_nodashes : string)
    (primary_doc : option string) : M (option string) :=
  let tiers_2_3 : M (option string) :=
    url ← pick_html_from_index_json cik_no_zeros accession_nodashes;
    match url with
    | Some u =>
        if negb (String.eqb u EmptyString) && negb (Py.endswith "/index.html" u)
        then mret (Some u)
        else parse_submission_txt_for_annual_html
               cik_no_zeros accession_nodashes
    | None =>
        parse_submission_txt_for_annual_html cik_no_zeros accession_nodashes
    end in
  match primary_doc with
  | Some (String _ _ as pd) =>
      if looks_like_annual_html pd
      then mret (Some (archive_url cik_no_zeros accession_nodashes pd))
      else tiers_2_3
  | _ => tiers_2_3
  end.

(* ----------------------------
   Submissions API -> annual filings
   ---------------------------- *)

(** An entry of [candidates]: keys [form], [accession], [filing_date],
    [primary_doc]. *)
Record Candidate := {
  cand_form : string;
  cand_accession : string;
  cand_filing_date : string;
  cand_primary_doc : option string;
}.

(** An entry of the result: keys [date], [url], [accession], [form],
    [is_amend]. *)
Record Filing := {
  filing_date : string;
  filing_url : string;
  filing_accession : string;
  filing_form : string;
  filing_is_amend : bool;
}.

Definition wanted_forms (include_amends include_20f : bool) : gset string :=
  let wanted : gset string := {[ "10-K" ]} in
  let wanted := if include_amends then wanted ∪ {[ "10-K/A" ]} else wanted in
  if include_20f then wanted ∪ {[ "20-F"; "20-F/A" ]} else wanted.

(** [for i, form in enumerate(forms)], from index [i] on.  [None] is
    the [IndexError] of a shorter sibling array. *)
Fixpoint collect_candidates (wanted : gset string) (recent : Feed)
    (i : nat) (forms : list string) : option (list Candidate) :=
  match forms with
  | [] => Some []
  | form :: rest =>
      if bool_decide (form ∈ wanted) then
        accession ← feed_accessionNumber recent !! i;
        date ← feed_filingDate recent !! i;
        primary ← feed_primaryDocument recent !! i;
        cs ← collect_candidates wanted recent (S i) rest;
        Some ({| cand_form := form; cand_accession := accession;
                 cand_filing_date := date; cand_primary_doc := primary |}
              :: cs)
      else collect_candidates wanted recent (S i) rest
  end.

(** Stable insertion: [x], which precedes every element of [l] in the
    input, goes before the first element not below it. *)
Fixpoint insert_sorted {A} (leb : A → A → bool) (x : A) (l : list A)
    : list A :=
  match l with
  | [] => [x]
  | y :: l' => if leb x y then x :: l else y :: insert_sorted leb x l'
  end.

(** [l.sort(key=...)]: a stable ascending sort. *)
Fixpoint stable_sort {A} (leb : A → A → bool) (l : list A) : list A :=
  match l with
  | [] => []
  | x :: l' => insert_sorted leb x (stable_sort leb l')
  end.

(** [l.sort(key=..., reverse=True)]: the list is reversed, sorted
    ascending and reversed again, which keeps equal keys in their
    original order. *)
Definition sort_reverse {A} (leb : A → A → bool) (l : list A) : list A :=
  reverse (stable_sort leb (reverse l)).

Definition date_leb (a b : Candidate) : bool :=
  String.leb (cand_filing_date a) (cand_filing_date b).

(** [l[:count]] *)
Definition slice_to {A} (count : Z) (l : list A) : list A :=
  if (0 <=? count)%Z then take (Z.to_nat count) l
  else take (length l - Z.to_nat (- count)) l.

(** The value of [candidates] after filtering, sorting and truncating;
    [None] when the arrays of the feed raise [IndexError]. *)
Definition recent_candidates (recent : Feed) (count : Z)
    (include_amends include_20f : bool) : option (list Candidate) :=
  slice_to count ∘ sort_reverse date_leb <$>
    collect_candidates (wanted_forms include_amends include_20f)
      recent 0 (feed_form recent).

(** [for c in candidates] of [get_annual_filings_html]. *)
Fixpoint resolve_candidates (cik_no_zeros : string)
    (candidates : list Candidate) : M (list Filing) :=
  match candidates with
  | [] => mret []
  | c :: rest =>
      let accession_nodashes := Py.remove_char "-" (cand_accession c) in
      use_url ← pick_best_annual_html cik_no_zeros accession_nodashes
                  (cand_primary_doc c);
      out ← resolve_candidates cik_no_zeros rest;
      match use_url with
      | Some (String _ _ as u) =>
          mret ({| filing_date := cand_filing_date c;
                   filing_url := u;
                   filing_accession := cand_accession c;
                   filing_form := cand_form c;
                   filing_is_amend := Py.endswith "/A" (cand_form c) |}
                :: out)
      | _ => mret out
      end
  end.

(** Use the official Submissions API to get up to N most recent annual
    filings for a CIK.  Every exception ends in the empty list. *)
Definition get_annual_filings_html (cik : string) (count : Z)
    (include_amends include_20f : bool) : M (list Filing) :=
  data ← get_json ("https://data.sec.gov/submissions/CIK" +:+ cik +:+ ".json");
  match data with
  | Some (JFeed recent) =>
      match recent_candidates recent count include_amends include_20f,
            Py.int_of_str cik with
      | Some candidates, Some n =>
          resolve_candidates (Py.str_of_int n) candidates
      | _, _ => mret []
      end
  | _ => mret []
  end.

(* ----------------------------
   SGML-aware HTML & Exhibit downloading
   ---------------------------- *)

(** The loop over [doc_blocks] of [_extract_annual_html_from_sgml]. *)
Fixpoint scan_blocks_for_name (doc_blocks : list string) : option string :=
  match doc_blocks with
  | [] => None
  | block :: rest =>
      match Re.search_tag "<TYPE>" block,
            Re.search_tag "<FILENAME>" block with
      | Some mtype, Some fname =>
          if bool_decide (Py.upper mtype ∈ ANNUAL_TYPES)
             && Py.endswith_any HTML_EXTS (Py.lower fname)
          then Some fname
          else scan_blocks_for_name rest
      | _, _ => scan_blocks_for_name rest
      end
  end.

(** Return the annual HTML filename from SGML master submission. *)
Definition _extract_annual_html_from_sgml (sgml_text : string)
    : option string :=
  scan_blocks_for_name (Re.findall_document sgml_text).

Definition newline : string := String "010" EmptyString.

(** A row [(name, href, local_exists)] of the index page, given which
    paths exist. *)
Definition index_row (cik_no_zeros accession_nodashes dest_dir : string)
    (present : string → bool) (it : Item) : string * string * bool :=
  let name := item_get_name it in
  (name, archive_url cik_no_zeros accession_nodashes name,
   present (path_join dest_dir name)).

Definition index_row_html (row : string * string * bool) : string :=
  let '(name, href, local_exists) := row in
  let local_col :=
    if local_exists
    then "<a class='local' href='" +:+ name +:+ "' target='_blank'>open</a>"
    else EmptyString in
  "<tr><td>" +:+ name +:+ "</td><td>" +:+ local_col
    +:+ "</td><td><a href='" +:+ href +:+ "' target='_blank'>" +:+ href
    +:+ "</a></td></tr>".

(** The text of [filing_index.html] made of the rows. *)
Definition index_html (cik_no_zeros accession_nodashes : string)
    (rows : list (string * string * bool)) : string :=
  String.concat newline
    (["<!doctype html><html><head><meta charset='utf-8'><title>Filing Index</title>";
      "<style>body{font-family:system-ui,Arial,sans-serif;margin:24px} table{border-collapse:collapse;width:100%} th,td{border:1px solid #ddd;padding:8px} th{background:#f7f7f7;text-align:left} .local{color:green}</style>";
      "</head><body>";
      "<h2>EDGAR Filing Index — CIK " +:+ cik_no_zeros +:+ ", Accession "
        +:+ accession_nodashes +:+ "</h2>";
      "<p>Local links point to files downloaded into this folder. SEC links point to the live archive.</p>";
      "<table><thead><tr><th>File</th><th>Local</th><th>SEC Link</th></tr></thead><tbody>"]
     ++ (index_row_html <$> rows)
     ++ ["</tbody></table>"; "</body></html>"]).

(** The page for a listing and a folder, given which paths exist. *)
Definition index_page (cik_no_zeros accession_nodashes dest_dir : string)
    (present : string → bool) (items : list Item) : string :=
  index_html cik_no_zeros accession_nodashes
    (index_row cik_no_zeros accession_nodashes dest_dir present <$> items).

Definition INDEX_FILENAME : string := "filing_index.html".

(** [for it in items] of the index builder; [None] is the [OSError] of
    [exists]. *)
Fixpoint index_rows (cik_no_zeros accession_nodashes dest_dir : string)
    (items : list Item) : M (option (list (string * string * bool))) :=
  match items with
  | [] => mret (Some [])
  | it :: rest =>
      let name := item_get_name it in
      let href := archive_url cik_no_zeros accession_nodashes name in
      local_exists ← path_exists (path_join dest_dir name);
      match local_exists with
      | None => mret None
      | Some local_exists =>
          rows ← index_rows cik_no_zeros accession_nodashes dest_dir rest;
          mret (cons (name, href, local_exists) <$> rows)
      end
  end.

(** Create a local HTML index with LOCAL links (if file exists) and
    absolute SEC links for all items.  Whatever is raised on the way is
    passed over ([except Exception: pass]). *)
Definition _write_clickable_index_from_items
    (cik_no_zeros accession_nodashes : string) (items : list Item)
    (dest_dir : string) : M unit :=
  rows ← index_rows cik_no_zeros accession_nodashes dest_dir items;
  match rows with
  | None => mret tt
  | Some rows =>
      made ← path_mkdir dest_dir;
      if made : bool
      then
        path_write (path_join dest_dir INDEX_FILENAME)
          (index_html cik_no_zeros accession_nodashes rows);;
        mret tt
      else mret tt
  end.

(** The exception of the write is passed over. *)
Definition _save_master_submission_txt
    (cik_no_zeros accession_nodashes sgml_text dest_dir : string) : M unit :=
  path_write (path_join dest_dir (accession_nodashes +:+ ".txt")) sgml_text;;
  mret tt.

(** Download any file (binary-safe).  [None] is the exception of
    [write_bytes], which is no [RequestException] and leaves the
    function. *)
Definition _download_binary (url dest_path : string) : M (option bool) :=
  r ← requests_get url;
  match r with
  | NetworkError => mret (Some false)
  | Response status content _ =>
      if (status =? 404)%Z then mret (Some false)
      else if raises_for_status status then mret (Some false)
      else
        written ← path_write dest_path content;
        if written : bool then mret (Some true) else mret None
  end.

(** [for it in items] of [_download_exhibits], with the count so far;
    [None] is an exception of [exists] or of [_download_binary], for
    which the function has no handler. *)
Fixpoint download_items (cik_no_zeros accession_nodashes dest_dir : string)
    (include_exts : list string) (items : list Item) (downloaded : Z)
    : M (option Z) :=
  match items with
  | [] => mret (Some downloaded)
  | it :: rest =>
      let continue := download_items cik_no_zeros accession_nodashes
                        dest_dir include_exts rest in
      let name := item_get_name it in
      if String.eqb name EmptyString then continue downloaded
      else if negb (Py.endswith_any include_exts (Py.lower name))
      then continue downloaded
      else
        let url := archive_url cik_no_zeros accession_nodashes name in
        let dest_path := path_join dest_dir name in
        present ← path_exists dest_path;
        match present with
        | None => mret None
        | Some true => continue downloaded
        | Some false =>
            ok ← _download_binary url dest_path;
            match ok with
            | None => mret None
            | Some true =>
                time_sleep SLEEP_BETWEEN_CALLS;; continue (downloaded + 1)%Z
            | Some false => continue downloaded
            end
        end
  end.

(** Download all items from index.json that match include_exts.
    Returns count of files downloaded; [None] is the exception that
    ends the loop, after which no index is written. *)
Definition _download_exhibits_with
    (cik_no_zeros accession_nodashes dest_dir : string)
    (include_exts : list string) : M (option Z) :=
  items ← _index_json_items cik_no_zeros accession_nodashes;
  downloaded ← download_items cik_no_zeros accession_nodashes dest_dir
                 include_exts items 0;
  match downloaded with
  | None => mret None
  | Some downloaded =>
      (* Always write/refresh a clickable index for all items *)
      _write_clickable_index_from_items cik_no_zeros accession_nodashes
        items dest_dir;;
      mret (Some downloaded)
  end.

(** The default [include_exts = EXHIBIT_EXTS]. *)
Definition _download_exhibits
    (cik_no_zeros accession_nodashes dest_dir : string) : M (option Z) :=
  _download_exhibits_with cik_no_zeros accession_nodashes dest_dir
    EXHIBIT_EXTS.

(** The test for an SGML master submission. *)
Definition is_sgml_master (text : string) : bool :=
  (Py.contains "<SEC-HEADER>" text || Py.contains "<DOCUMENT>" text)
  && negb (Py.contains "<HTML" (Py.upper (Py.take 2000 text))).

(** Download HTML content from URL to output_path.  If the response is
    the master SGML instead of HTML, auto-extract the real HTML and
    re-download.  Every exception, those of the file operations
    included, ends in [False]. *)
Definition download_html (url output_path : string) : M bool :=
  r ← requests_get url;
  match r with
  | NetworkError => mret false
  | Response status text _ =>
      if (status =? 404)%Z then mret false
      else if raises_for_status status then mret false
      else if is_sgml_master text then
        match Re.search_edgar_path url with
        | None => mret false
        | Some (cik_no_zeros, accession_nodashes) =>
            _save_master_submission_txt cik_no_zeros accession_nodashes
              text (path_parent output_path);;
            built ←
              (if DOWNLOAD_EXHIBITS then
                 count ← _download_exhibits cik_no_zeros accession_nodashes
                           (path_parent output_path);
                 mret (bool_decide (is_Some count))
               else
                 items ← _index_json_items cik_no_zeros accession_nodashes;
                 _write_clickable_index_from_items cik_no_zeros
                   accession_nodashes items (path_parent output_path);;
                 mret true);
            if built : bool then
              match _extract_annual_html_from_sgml text with
              | Some (String _ _ as fname) =>
                  r2 ← requests_get
                         (archive_url cik_no_zeros accession_nodashes fname);
                  match r2 with
                  | NetworkError => mret false
                  | Response status2 text2 _ =>
                      if (status2 =? 404)%Z then mret false
                      else if raises_for_status status2 then mret false
                      else path_write output_path text2
                  end
              | _ => mret false
              end
            else mret false
        end
      else path_write output_path text
  end.

(* ----------------------------
   Reference definitions for the scoring rule
   ---------------------------- *)

(** The exhibit-numbering pattern as the specification words it: the
    letters [ex], an optional separator and a digit, anywhere in the
    name. *)
Definition spec_exhibit_pattern (n : string) : bool :=
  existsb (λ i, Re.match_ex_here (Py.drop i n)) (seq 0 (S (String.length n))).

(** Position [i] of [n] is the start of a word: the start of the name,
    or the place after a character that is no letter, digit or
    underscore. *)
Definition word_starts_at (n : string) (i : nat) : bool :=
  match i with
  | O => true
  | S j =>
      match String.get j n with
      | Some c => negb (Py.is_word c)
      | None => false
      end
  end.

(** The start-of-word test, with the character before the text given
    by [prev_word], as [Re.search_ex_from] keeps it. *)
Definition word_starts_after (prev_word : bool) (n : string) (i : nat) : bool :=
  match i with
  | O => negb prev_word
  | S _ => word_starts_at n i
  end.

(** The same pattern required to begin a word. *)
Definition bounded_exhibit_pattern (n : string) : bool :=
  existsb (λ i, word_starts_at n i && Re.match_ex_here (Py.drop i n))
    (seq 0 (S (String.length n))).

(** The sum of components for a given reading of the exhibit
    pattern. *)
Definition score_components (exhibit_pattern : string → bool)
    (name : string) : Z :=
  let n := Py.lower name in
  ((if Py.contains "10-k" n || Py.contains "10k" n then 10 else 0)
   + (if Py.contains "20-f" n || Py.contains "20f" n then 9 else 0)
   + (if Py.contains "form" n then 2 else 0)
   + (if String.eqb n "index.html" then -10 else 0)
   + (if exhibit_pattern n || Py.contains "exhibit" n then -5 else 0)
   + Z.min (Z.of_nat (String.length n) / 10) 3)%Z.

(** The score as the specification lists it. *)
Definition spec_score : string → Z := score_components spec_exhibit_pattern.

(** The score with the exhibit pattern anchored at a word start. *)
Definition spec_score_bounded : string → Z :=
  score_components bounded_exhibit_pattern.

(** A name carries a filing-type token. *)
Definition carries_token (name : string) : bool :=
  existsb (λ k, Py.contains k (Py.lower name)) FILING_TOKENS.

(** A name is the generic cover page. *)
Definition is_index_html (name : string) : bool :=
  String.eqb (Py.lower name) "index.html".

End Program.

(* ===================================================================== *)
(** * Notions used to state the properties *)
(* ===================================================================== *)

(** A reply that [get_json] does not accept: an exception of the
    transport, a status that is retried or raised, or a body that is not
    JSON. *)
Definition is_failure (r : Reply) : bool :=
  match r with
  | NetworkError => true
  | Response status _ json =>
      is_transient_status status || raises_for_status status
      || match json with JInvalid => true | _ => false end
  end.

(** A reply that the single-shot fetches ([get_text], [_download_binary],
    [download_html]) do not accept. *)
Definition is_error (r : Reply) : bool :=
  match r with
  | NetworkError => true
  | Response status _ _ => raises_for_status status
  end.

(** [j] failed attempts at [url], numbered from [attempt]: each request is
    followed by a pause of [backoff] times the number of the attempt. *)
Definition retry_trace (url : string) (backoff : Z) (attempt j : nat)
    : list Event :=
  i ← seq attempt j; [Request url; Sleep (backoff * Z.of_nat i)].

(** What [get_json] has done when it returns. *)
Definition get_json_outcome (server : Server) (url : string) (backoff : Z)
    (attempt todo : nat) (st : State) (res : option Json) (st' : State)
    : Prop :=
  fs st' = fs st
  ∧ ∃ j last,
      log st' = log st ++ retry_trace url backoff attempt j ++ last
      ∧ (∀ i, i < j →
           is_failure (server (log st ++ retry_trace url backoff attempt i)
                         url) = true)
      ∧ match res with
        | Some json =>
            last = [Request url] ∧ j < todo
            ∧ ∃ status text,
                server (log st ++ retry_trace url backoff attempt j) url
                  = Response status text json
                ∧ is_failure (Response status text json) = false
        | None =>
            j + length last = todo
            ∧ (last = []
               ∨ last = [Request url]
                 ∧ is_failure
                     (server (log st ++ retry_trace url backoff attempt j)
                        url) = true)
        end.

(** The text after the last slash: the final path component. *)
Fixpoint last_component (s : string) : string :=
  match s with
  | EmptyString => EmptyString
  | String c s' =>
      if Py.contains "/" s' then last_component s'
      else if Ascii.eqb c "/" then s' else s
  end.

(** ASCII punctuation. *)
Definition is_punctuation (c : ascii) : bool :=
  let n := Ascii.N_of_ascii c in
  ((33 <=? n)%N && (n <=? 47)%N) || ((58 <=? n)%N && (n <=? 64)%N)
  || ((91 <=? n)%N && (n <=? 96)%N) || ((123 <=? n)%N && (n <=? 126)%N).

Fixpoint remove_chars (f : ascii → bool) (s : string) : string :=
  match s with
  | EmptyString => EmptyString
  | String c s' =>
      if f c then remove_chars f s' else String c (remove_chars f s')
  end.

(** Two tickers differ only in letter case and punctuation. *)
Definition same_up_to_case_and_punctuation (a b : string) : Prop :=
  Py.lower (remove_chars is_punctuation a)
  = Py.lower (remove_chars is_punctuation b).

(** Two tickers differ only in letter case and in full stops. *)
Definition same_up_to_case_and_dots (a b : string) : Prop :=
  Py.lower (remove_chars (Ascii.eqb ".") a)
  = Py.lower (remove_chars (Ascii.eqb ".") b).

(** A block of a bundle qualifies with file name [fname]: its type label
    is one of the four annual types and its file name ends in an HTML
    extension. *)
Definition block_qualifies (block fname : string) : Prop :=
  ∃ mtype,
    Re.search_tag "<TYPE>" block = Some mtype
    ∧ Re.search_tag "<FILENAME>" block = Some fname
    ∧ Py.upper mtype ∈ ANNUAL_TYPES
    ∧ Py.endswith_any HTML_EXTS (Py.lower fname) = true.


(** What identifies a candidate and the filing made of it: date,
    accession id and form. *)
Definition candidate_key (c : Candidate) : string * string * string :=
  (cand_filing_date c, cand_accession c, cand_form c).

Definition filing_key (f : Filing) : string * string * string :=
  (filing_date f, filing_accession f, filing_form f).





(** A host that refuses nothing. *)
Definition quiet_host : Host := λ _ _, false.

(** The answer of [exists] to the index builder, which has no use for
    an exception. *)
Definition exists_in (host : Host) (st : State) (path : string) : bool :=
  default false (stat host st path).


(** [exists] raises for none of the entries of the listing. *)
Definition stats_answer (host : Host) (dest_dir : string) (st : State)
    (items : list Item) : bool :=
  forallb
    (λ it,
       bool_decide
         (is_Some (stat host st (path_join dest_dir (item_get_name it)))))
    items.

(** A folder that holds two of the files of [example_listing]. *)
Definition example_folder : State := {|
  log := [];
  fs := {[ "out/a10-k.htm" := "<html>annual report</html>";
           "out/ex99.pdf" := "%PDF" ]};
  dirs := {[ "out" ]};
|}.

Definition example_listing : list Item :=
  [ {| item_name := Some "a10-k.htm" |}; {| item_name := Some "ex99.pdf" |};
    {| item_name := Some "data.xml" |}; {| item_name := None |} ].

(** The identifier table with the class B shares of Berkshire Hathaway
    under the ticker the table gives them. *)
Definition example_table : list Company :=
  [ {| company_ticker := "AAPL"; company_cik_str := 320193;
       company_title := "Apple Inc." |};
    {| company_ticker := "BRK-B"; company_cik_str := 1067983;
       company_title := "BERKSHIRE HATHAWAY INC" |} ].

(** A server that always answers with the same reply. *)
Definition constant_server (r : Reply) : Server := λ _ _, r.

(** A server that fails the first [n] requests with status 503 and
    answers [r] from then on. *)
Definition flaky_server (n : nat) (r : Reply) : Server := λ events _,
  if length (requests_of events) <? n then Response 503 EmptyString JInvalid
  else r.

(** A server that answers by URL. *)
Definition routing_server (routes : list (string * Reply)) : Server :=
  λ _ url,
    match list_find (λ route, route.1 = url) routes with
    | Some (_, (_, r)) => r
    | None => Response 404 EmptyString JInvalid
    end.

(** A feed with eight annual filings among ten entries; two of them
    share the date 2021-11-01. *)
Definition example_feed : Feed := {|
  feed_form := ["10-K"; "8-K"; "10-K/A"; "10-K"; "20-F"; "10-K"; "10-Q";
                "10-K"; "10-K"; "20-F/A"];
  feed_accessionNumber := ["a-1"; "a-2"; "a-3"; "a-4"; "a-5"; "a-6"; "a-7";
                           "a-8"; "a-9"; "a-10"];
  feed_filingDate := ["2023-11-03"; "2023-08-04"; "2021-11-01"; "2022-10-28";
                      "2019-10-31"; "2021-11-01"; "2021-07-28"; "2020-10-30";
                      "2018-11-05"; "2017-11-03"];
  feed_primaryDocument := [Some "a.htm"; Some "b.htm"; Some "c.htm";
                           Some "d.htm"; Some "e.htm"; Some "f.htm"; None;
                           Some "h.htm"; Some "i.htm"; Some "j.htm"];
|}.

(** A legacy bundle with an exhibit followed by the annual report. *)
Definition example_bundle : string :=
  "<SEC-DOCUMENT>0000320193-23-000106.txt
<DOCUMENT>
<TYPE>EX-10.1
<SEQUENCE>1
<FILENAME>ex10-1.htm
<TEXT>exhibit</TEXT>
</DOCUMENT>
<DOCUMENT>
<TYPE>10-K
<SEQUENCE>2
<FILENAME>aapl-10k.htm
<TEXT>annual report</TEXT>
</DOCUMENT>
</SEC-DOCUMENT>".

(** An archive folder that lists only its cover page and an exhibit and
    serves the bundle and its two documents. *)
Definition example_archive : Server :=
  routing_server
    [ ("https://www.sec.gov/Archives/edgar/data/320193/000032019323000106/index.json",
       Response 200 EmptyString
         (JListing [ {| item_name := Some "index.html" |};
                     {| item_name := Some "ex10-1.htm" |} ]));
      ("https://www.sec.gov/Archives/edgar/data/320193/000032019323000106/000032019323000106.txt",
       Response 200 example_bundle JInvalid);
      ("https://www.sec.gov/Archives/edgar/data/320193/000032019323000106/aapl-10k.htm",
       Response 200 "<html>annual report</html>" JInvalid);
      ("https://www.sec.gov/Archives/edgar/data/320193/000032019323000106/ex10-1.htm",
       Response 200 "<html>exhibit</html>" JInvalid) ].



Definition initial_state : State := {| log := []; fs := ∅; dirs := ∅ |}.

(** An empty folder [out] in the working directory. *)
Definition empty_folder : State :=
  {| log := []; fs := ∅; dirs := {[ "out" ]} |}.

(* ===================================================================== *)
(** * Batch conversion and the download orchestrator *)
(* ===================================================================== *)

Definition SLEEP_BETWEEN_COMPANIES : Z := 1000.

(** A Python [dict] with string keys is the list of its items in
    insertion order.  [d[k] = v] replaces the value of a key that is
    present, in place, and appends a new key. *)
Fixpoint dict_set {V} (k : string) (v : V) (d : list (string * V))
    : list (string * V) :=
  match d with
  | [] => [(k, v)]
  | (k', v') :: d' =>
      if String.eqb k' k then (k, v) :: d' else (k', v') :: dict_set k v d'
  end.

(** [d.get(k)] *)
Fixpoint dict_get {V} (k : string) (d : list (string * V)) : option V :=
  match d with
  | [] => None
  | (k', v) :: d' => if String.eqb k' k then Some v else dict_get k d'
  end.

(** What [get_json(url) or {}] offers to [companies.values()]: the
    records of the table, nothing for a failed fetch, and [None] for a
    document of another shape, on whose values the subscript
    ['ticker'] raises. *)
Definition companies_of (data : option Json) : option (list Company) :=
  match data with
  | None => Some []
  | Some (JTickers table) => Some table
  | Some _ => None
  end.

Section Orchestration.

Variable server : Server.
Variable host : Host.

(** [for ticker in ticker_list] of [convert_tickers_to_ciks].  The value
    [{'cik': cik, 'name': company_name}] is the pair [(cik, name)];
    [None] is the exception that leaves the function, which has no
    handler. *)
Fixpoint convert_loop (companies : option (list Company)) (delay : Z)
    (ticker_list : list string)
    (ticker_info : list (string * (string * string)))
    (failed_tickers : list string)
    : M (option (list (string * (string * string)) * list string)) :=
  match ticker_list with
  | [] => mret (Some (ticker_info, failed_tickers))
  | ticker :: rest =>
      match companies with
      | None => mret None
      | Some table =>
          match find_company (normalize_ticker ticker) table with
          | Some info =>
              time_sleep delay;;
              convert_loop companies delay rest
                (dict_set ticker info ticker_info) failed_tickers
          | None =>
              time_sleep delay;;
              convert_loop companies delay rest ticker_info
                (failed_tickers ++ [ticker])
          end
      end
  end.

(** Convert list of tickers to CIKs. *)
Definition convert_tickers_to_ciks_with (ticker_list : list string)
    (delay : Z)
    : M (option (list (string * (string * string)) * list string)) :=
  companies ← get_json server "https://www.sec.gov/files/company_tickers.json";
  convert_loop (companies_of companies) delay ticker_list [] [].

(** The default [delay = 0.1]. *)
Definition convert_tickers_to_ciks (ticker_list : list string)
    : M (option (list (string * (string * string)) * list string)) :=
  convert_tickers_to_ciks_with ticker_list 100.

(** [f"{form.replace('/', '')}_{date}_{accession}"] *)
Definition filing_folder_name (filing : Filing) : string :=
  Py.remove_char "/" (filing_form filing) +:+ "_" +:+ filing_date filing
    +:+ "_" +:+ filing_accession filing.

(** [os.makedirs(name, exist_ok=True)]; the empty name raises. *)
Definition os_makedirs (name : string) : M bool :=
  if String.eqb name EmptyString then mret false else path_mkdir host name.

(** [for filing in filings] of [download_annual_html], with the count
    of annual reports downloaded so far; [None] is an exception, handled
    by the caller: the [OSError] of [filing_dir.mkdir], the [ValueError]
    of [int(cik)], or what [_download_exhibits] raises. *)
Fixpoint download_filings (cik ticker_folder : string)
    (filings : list Filing) (downloaded : Z) : M (option Z) :=
  match filings with
  | [] => mret (Some downloaded)
  | filing :: rest =>
      let filing_dir := path_join ticker_folder (filing_folder_name filing) in
      made ← path_mkdir host filing_dir;
      if made : bool then
        let html_filename := filing_folder_name filing +:+ ".html" in
        let html_path := path_join filing_dir html_filename in
        ok ← download_html server host (filing_url filing) html_path;
        let downloaded :=
          if ok : bool then (downloaded + 1)%Z else downloaded in
        if DOWNLOAD_EXHIBITS then
          match Py.int_of_str cik with
          | None => mret None
          | Some n =>
              count_dl ← _download_exhibits server host (Py.str_of_int n)
                           (Py.remove_char "-" (filing_accession filing))
                           filing_dir;
              match count_dl with
              | None => mret None
              | Some _ =>
                  time_sleep SLEEP_BETWEEN_CALLS;;
                  download_filings cik ticker_folder rest downloaded
              end
          end
        else
          time_sleep SLEEP_BETWEEN_CALLS;;
          download_filings cik ticker_folder rest downloaded
      else mret None
  end.

(** [for i, (ticker, info) in enumerate(ticker_info.items(), 1)] of
    [download_annual_html], with the counters [success_count],
    [error_count] and [total_files] of the closing report; [None] is the
    [OSError] of [ticker_folder.mkdir], which is outside the [try] and
    ends the function without a report. *)
Fixpoint download_companies (base_output_dir : string) (count : Z)
    (include_amends include_20f : bool)
    (items : list (string * (string * string)))
    (success_count error_count total_files : Z)
    : M (option (Z * Z * Z)) :=
  match items with
  | [] => mret (Some (success_count, error_count, total_files))
  | (ticker, (cik, company_name)) :: rest =>
      let ticker_folder := path_join base_output_dir ticker in
      let continue :=
        download_companies base_output_dir count include_amends include_20f
          rest in
      made ← path_mkdir host ticker_folder;
      if made : bool then
        filings ← get_annual_filings_html server cik count include_amends
                    include_20f;
        match filings with
        | [] =>
            time_sleep SLEEP_BETWEEN_COMPANIES;;
            continue success_count (error_count + 1)%Z total_files
        | _ =>
            downloaded ← download_filings cik ticker_folder filings 0;
            time_sleep SLEEP_BETWEEN_COMPANIES;;
            match downloaded with
            | Some n =>
                if (0 <? n)%Z
                then continue (success_count + 1)%Z error_count
                       (total_files + n)%Z
                else continue success_count (error_count + 1)%Z total_files
            | None => continue success_count (error_count + 1)%Z total_files
            end
        end
      else mret None
  end.

(** Download up to N most recent annual-report HTML filings, one folder
    per ticker.  The function prints its three counters; they are the
    result here, and [None] is the [OSError] of a [mkdir] outside the
    [try], which leaves the function before the report. *)
Definition download_annual_html
    (ticker_info : list (string * (string * string)))
    (base_output_dir : string) (count : Z)
    (include_amends include_20f : bool) : M (option (Z * Z * Z)) :=
  made ← os_makedirs base_output_dir;
  if made : bool then
    download_companies base_output_dir count include_amends include_20f
      ticker_info 0 0 0
  else mret None.

End Orchestration.

(** A reply with a status that [get_json] retries after a pause: 429 or
    5xx. *)
Definition is_transient_reply (r : Reply) : bool :=
  match r with
  | NetworkError => false
  | Response status _ _ => is_transient_status status
  end.

(** A reply that raises in [get_json]: an exception of the transport,
    another 4xx status, or a body that is not JSON. *)
Definition is_raising_reply (r : Reply) : bool :=
  is_failure r && negb (is_transient_reply r).

(** The body of the loop of [convert_tickers_to_ciks] on the
    dictionary. *)
Definition record_ticker (table : list Company)
    (ticker_info : list (string * (string * string))) (ticker : string)
    : list (string * (string * string)) :=
  match find_company (normalize_ticker ticker) table with
  | Some info => dict_set ticker info ticker_info
  | None => ticker_info
  end.

(** A name looks like an exhibit to the scoring rule. *)
Definition looks_like_exhibit (name : string) : bool :=
  Re.search_ex (Py.lower name) || Py.contains "exhibit" (Py.lower name).

(** A catalogue whose declared documents carry a filing-type token, and
    a server that serves it. *)
Definition declared_feed : Feed := {|
  feed_form := ["10-K/A"; "8-K"; "10-K"];
  feed_accessionNumber := ["0000320193-23-000107"; "0000320193-23-000090";
                           "0000320193-23-000106"];
  feed_filingDate := ["2023-11-20"; "2023-08-04"; "2023-11-03"];
  feed_primaryDocument := [Some "aapl-10ka.htm"; Some "aapl-8k.htm";
                           Some "aapl-10k.htm"];
|}.

Definition declared_feed_server : Server :=
  routing_server
    [ ("https://data.sec.gov/submissions/CIK0000320193.json",
       Response 200 EmptyString (JFeed declared_feed)) ].


(** A catalogue whose second annual filing has no accession id. *)
Definition short_feed : Feed := {|
  feed_form := ["10-K"; "10-K"];
  feed_accessionNumber := ["0000320193-23-000106"];
  feed_filingDate := ["2023-11-03"; "2022-10-28"];
  feed_primaryDocument := [Some "aapl-10k.htm"; Some "aapl-10k.htm"];
|}.

Definition short_feed_server : Server :=
  routing_server
    [ ("https://data.sec.gov/submissions/CIK0000320193.json",
       Response 200 EmptyString (JFeed short_feed)) ].

(** An entry that the exhibit fetcher tries to have in the folder: it
    has a name, and the name ends in one of the extensions. *)
Definition is_eligible (include_exts : list string) (it : Item) : Prop :=
  item_get_name it ≠ EmptyString
  ∧ Py.endswith_any include_exts (Py.lower (item_get_name it)) = true.

(** A filing folder of the archive whose listing names one exhibit, one
    file with an extension that is not fetched and one entry without a
    name, on a server that serves the exhibit. *)
Definition served_listing : list Item :=
  [ {| item_name := Some "ex10-1.htm" |}; {| item_name := Some "data.xml" |};
    {| item_name := None |}; {| item_name := Some "filing_index.html" |} ].

Definition served_archive : Server :=
  routing_server
    [ ("https://www.sec.gov/Archives/edgar/data/320193/000032019323000106/index.json",
       Response 200 EmptyString (JListing served_listing));
      ("https://www.sec.gov/Archives/edgar/data/320193/000032019323000106/ex10-1.htm",
       Response 200 "<html>exhibit</html>" JInvalid);
      ("https://www.sec.gov/Archives/edgar/data/320193/000032019323000106/filing_index.html",
       Response 200 "<html>remote index</html>" JInvalid) ].

(** The text of a bundle after its header: each document is a body
    between the two markers, followed by the text up to the next
    document. *)
Fixpoint sgml_documents (docs : list (string * string)) : string :=
  match docs with
  | [] => EmptyString
  | (body, gap) :: rest =>
      "<DOCUMENT>" +:+ body +:+ "</DOCUMENT>" +:+ gap +:+ sgml_documents rest
  end.

(** A body holds no closing marker, and the text after it no opening
    marker, in any letter case. *)
Definition well_delimited (doc : string * string) : Prop :=
  Re.split_at_ci "</DOCUMENT>" doc.1 = None
  ∧ Re.split_at_ci "<DOCUMENT>" doc.2 = None.

(** The characters of a marker after its first are not [<]. *)
Definition no_angle (p : string) : bool :=
  Py.forallb (λ c, negb (Ascii.eqb (Py.lower_char c) "<")) p.

Definition example_documents : list (string * string) :=
  [ (newline +:+ "<TYPE>EX-10.1" +:+ newline +:+ "<SEQUENCE>1" +:+ newline
       +:+ "<FILENAME>ex10-1.htm" +:+ newline +:+ "<TEXT>exhibit</TEXT>"
       +:+ newline,
     newline);
    (newline +:+ "<TYPE>10-K" +:+ newline +:+ "<SEQUENCE>2" +:+ newline
       +:+ "<FILENAME>aapl-10k.htm" +:+ newline
       +:+ "<TEXT>annual report</TEXT>" +:+ newline,
     newline +:+ "</SEC-DOCUMENT>") ].

(** The link of the index page to a file in the archive, and its link to
    the local copy. *)
Definition remote_link (href : string) : string :=
  "<a href='" +:+ href +:+ "' target='_blank'>" +:+ href +:+ "</a>".

Definition local_link (name : string) : string :=
  "<a class='local' href='" +:+ name +:+ "' target='_blank'>open</a>".




(** A bundle whose annual report is the file "index.html". *)
Definition cover_bundle : string :=
  "<SEC-DOCUMENT>0000320193-23-000106.txt
<DOCUMENT>
<TYPE>10-K
<SEQUENCE>1
<FILENAME>index.html
<TEXT>annual report</TEXT>
</DOCUMENT>
</SEC-DOCUMENT>".

(** A listing with the cover page and a name with a filing-type token
    that ends in "/index.html". *)
Definition cover_listing : list Item :=
  [ {| item_name := Some "index.html" |};
    {| item_name := Some "10-k/index.html" |} ].

(** An archive folder with that listing and that bundle. *)
Definition cover_archive : Server :=
  routing_server
    [ ("https://www.sec.gov/Archives/edgar/data/320193/000032019323000106/index.json",
       Response 200 EmptyString (JListing cover_listing));
      ("https://www.sec.gov/Archives/edgar/data/320193/000032019323000106/000032019323000106.txt",
       Response 200 cover_bundle JInvalid) ].


(** A server with the catalogue [declared_feed] and the two annual
    reports that it declares. *)
Definition declared_archive : Server :=
  routing_server
    [ ("https://data.sec.gov/submissions/CIK0000320193.json",
       Response 200 EmptyString (JFeed declared_feed));
      ("https://www.sec.gov/Archives/edgar/data/320193/000032019323000107/aapl-10ka.htm",
       Response 200 "<html>amended annual report</html>" JInvalid);
      ("https://www.sec.gov/Archives/edgar/data/320193/000032019323000106/aapl-10k.htm",
       Response 200 "<html>annual report</html>" JInvalid) ].

Example lower_example : Py.lower "Form10-K_2023.HTM" = "form10-k_2023.htm".
Proof. reflexivity. Qed.

Example score_examples :
  score "index.html" = (-9)%Z ∧ score "form10-k_2023.htm" = 13%Z
  ∧ score "ex-10_1.htm" = (-4)%Z ∧ score "annex1.htm" = 1%Z.
Proof. vm_compute. done. Qed.

Example spec_score_examples :
  spec_score "annex1.htm" = (-4)%Z ∧ spec_score_bounded "annex1.htm" = 1%Z
  ∧ spec_score "ex-10_1.htm" = (-4)%Z.
Proof. vm_compute. done. Qed.

(* ===================================================================== *)
(** * Facts about strings *)
(* ===================================================================== *)

Section StringFacts.

Implicit Types (s t p : string) (c : ascii).

Lemma str_app_cons c s t : String c s +:+ t = String c (s +:+ t).
Proof. reflexivity. Qed.

Lemma str_app_nil_l s : EmptyString +:+ s = s.
Proof. reflexivity. Qed.

Lemma str_app_nil_r s : s +:+ EmptyString = s.
Proof. induction s as [|c s IH]; [done|]. by rewrite str_app_cons, IH. Qed.

Lemma str_app_assoc s t p : (s +:+ t) +:+ p = s +:+ (t +:+ p).
Proof. induction s as [|c s IH]; [done|]. by rewrite !str_app_cons, IH. Qed.

Lemma str_length_app s t :
  String.length (s +:+ t) = String.length s + String.length t.
Proof. induction s as [|c s IH]; [done|]. rewrite str_app_cons. simpl. lia. Qed.

Lemma str_rev_app_spec s t : String.rev_app s t = String.rev s +:+ t.
Proof.
  unfold String.rev. revert t.
  induction s as [|c s IH]; intros t; [done|].
  simpl. rewrite IH, (IH (String c EmptyString)).
  by rewrite str_app_assoc.
Qed.

Lemma str_rev_cons c s : String.rev (String c s) = String.rev s +:+ String c EmptyString.
Proof. unfold String.rev at 1. simpl. apply str_rev_app_spec. Qed.

Lemma str_rev_app s t : String.rev (s +:+ t) = String.rev t +:+ String.rev s.
Proof.
  induction s as [|c s IH]; [by rewrite str_app_nil_l, str_app_nil_r|].
  by rewrite str_app_cons, !str_rev_cons, IH, str_app_assoc.
Qed.

Lemma str_rev_involutive s : String.rev (String.rev s) = s.
Proof.
  induction s as [|c s IH]; [done|].
  by rewrite str_rev_cons, str_rev_app, IH.
Qed.

Lemma str_map_app f s t : Py.map f (s +:+ t) = Py.map f s +:+ Py.map f t.
Proof. induction s as [|c s IH]; [done|]. by rewrite str_app_cons; simpl; rewrite IH. Qed.

Lemma startswith_spec p s :
  Py.startswith p s = true ↔ ∃ r, s = p +:+ r.
Proof.
  revert s. induction p as [|a p IH]; intros s; simpl.
  { split; [eauto|done]. }
  destruct s as [|b s].
  { split; [done|]. by intros [r Hr]. }
  rewrite andb_true_iff, IH. split.
  - intros [->%Ascii.eqb_eq [r ->]]. by exists r.
  - intros [r Hr]. rewrite str_app_cons in Hr. injection Hr as -> ->.
    split; [apply Ascii.eqb_refl|eauto].
Qed.

Lemma endswith_spec p s :
  Py.endswith p s = true ↔ ∃ r, s = r +:+ p.
Proof.
  unfold Py.endswith. rewrite startswith_spec. split.
  - intros [r Hr]. exists (String.rev r).
    by rewrite <-(str_rev_involutive s), Hr, str_rev_app, str_rev_involutive.
  - intros [r ->]. exists (String.rev r). by rewrite str_rev_app.
Qed.

Lemma contains_spec p s :
  Py.contains p s = true ↔ ∃ a b, s = a +:+ p +:+ b.
Proof.
  induction s as [|c s IH]; simpl.
  - rewrite orb_false_r, startswith_spec. split.
    + intros [r Hr]. by exists EmptyString, r.
    + intros ([|? a] & b & Hab); [by exists b|done].
  - rewrite orb_true_iff, startswith_spec, IH. split.
    + intros [[r Hr]|(a & b & ->)]; [by exists EmptyString, r|].
      by exists (String c a), b.
    + intros ([|c' a] & b & Hab); [left; by exists b|].
      rewrite str_app_cons in Hab. injection Hab as -> ->. right; eauto.
Qed.

Lemma endswith_app p s t : Py.endswith p t = true → Py.endswith p (s +:+ t) = true.
Proof.
  rewrite !endswith_spec. intros [r ->]. exists (s +:+ r).
  by rewrite str_app_assoc.
Qed.

End StringFacts.

(* ===================================================================== *)
(** * The scoring rule *)
(* ===================================================================== *)

Section Scoring.

Lemma existsb_pointwise {A} (f g : A → bool) (l : list A) :
  (∀ x, f x = g x) → existsb f l = existsb g l.
Proof. intros Hfg. induction l as [|x l IH]; simpl; [done|]. by rewrite Hfg, IH. Qed.

Lemma existsb_map {A B} (f : B → bool) (h : A → B) (l : list A) :
  existsb f (h <$> l) = existsb (f ∘ h) l.
Proof. induction l as [|x l IH]; csimpl; [done|]. by rewrite IH. Qed.

Lemma search_ex_from_positions (prev_word : bool) (n : string) :
  Re.search_ex_from prev_word n =
  existsb (λ i, word_starts_after prev_word n i && Re.match_ex_here (Py.drop i n))
    (seq 0 (S (String.length n))).
Proof.
  revert prev_word. induction n as [|c n IH]; intros prev_word.
  { simpl. by rewrite !andb_false_r. }
  cbn [Re.search_ex_from String.length]. rewrite IH.
  change (seq 0 (S (S (String.length n))))
    with (0 :: seq 1 (S (String.length n))).
  rewrite <-seq_shift. cbn [existsb]. f_equal.
  change (map S ?l) with (S <$> l). rewrite existsb_map.
  apply existsb_pointwise. intros [|i]; reflexivity.
Qed.

(** The search of the program finds the pattern exactly at word
    starts. *)
Lemma search_ex_bounded (n : string) :
  Re.search_ex n = bounded_exhibit_pattern n.
Proof.
  unfold Re.search_ex, bounded_exhibit_pattern.
  rewrite search_ex_from_positions. apply existsb_pointwise.
  by intros [|i].
Qed.

Lemma length_bonus_bounds (n : string) :
  (0 ≤ Z.min (Z.of_nat (String.length n) / 10) 3 ≤ 3)%Z.
Proof.
  pose proof (Z.div_pos (Z.of_nat (String.length n)) 10). lia.
Qed.

Lemma token_not_index (name : string) :
  carries_token name = true → is_index_html name = false.
Proof.
  unfold carries_token, is_index_html.
  destruct (String.eqb_spec (Py.lower name) "index.html") as [->|]; [|done].
  by vm_compute.
Qed.

Lemma score_index (name : string) :
  is_index_html name = true → score name = (-9)%Z.
Proof.
  unfold is_index_html, score. intros ->%String.eqb_eq. reflexivity.
Qed.

Lemma score_token_lower_bound (name : string) :
  carries_token name = true → (4 ≤ score name)%Z.
Proof.
  intros Htok. pose proof (token_not_index _ Htok) as Hidx.
  pose proof (length_bonus_bounds (Py.lower name)) as Hlen.
  unfold carries_token, FILING_TOKENS in Htok. cbn [existsb] in Htok.
  unfold is_index_html in Hidx. unfold score. rewrite Hidx.
  destruct (Py.contains "10-k" _), (Py.contains "10k" _),
    (Py.contains "20-f" _), (Py.contains "20f" _); try discriminate;
    cbn [orb];
    repeat match goal with
           | |- context [if ?b then _ else _] => destruct b
           end; lia.
Qed.

Lemma max_by_from_elem {A} (key : A → Z) (best : A) (xs : list A) :
  max_by_from key best xs ∈ best :: xs.
Proof.
  revert best. induction xs as [|x xs IH]; intros best; simpl.
  { apply list_elem_of_singleton. done. }
  destruct (key best <? key x)%Z.
  - apply elem_of_cons. right. apply IH.
  - destruct (elem_of_cons xs (max_by_from key best xs) best) as [[->|Hin] _];
      [apply IH|apply elem_of_cons; by left|].
    apply elem_of_cons. right. apply elem_of_cons. by right.
Qed.

Lemma max_by_from_best {A} (key : A → Z) (best : A) (xs : list A) :
  (key best ≤ key (max_by_from key best xs))%Z.
Proof.
  revert best. induction xs as [|x xs IH]; intros best; simpl; [lia|].
  destruct (Z.ltb_spec (key best) (key x)); [|done].
  specialize (IH x). lia.
Qed.

Lemma max_by_from_max {A} (key : A → Z) (best : A) (xs : list A) (y : A) :
  y ∈ best :: xs → (key y ≤ key (max_by_from key best xs))%Z.
Proof.
  revert best. induction xs as [|x xs IH]; intros best; simpl.
  { intros ->%list_elem_of_singleton. lia. }
  intros Hy. destruct (Z.ltb_spec (key best) (key x)) as [Hlt|Hge].
  - apply elem_of_cons in Hy as [->|Hy]; [|by apply IH].
    pose proof (max_by_from_best key x xs). lia.
  - apply elem_of_cons in Hy as [->|Hy]; [apply max_by_from_best|].
    apply elem_of_cons in Hy as [->|Hy].
    + pose proof (max_by_from_best key best xs). lia.
    + apply IH. set_solver.
Qed.

(** C3 (as amended): for every filename the directory-listing score is
    the sum of the reference components evaluated on the lowercased
    name: +10 for "10-k" or "10k", +9 for "20-f" or "20f", +2 for
    "form", -10 when the lowercased name is exactly "index.html", -5
    when the exhibit-numbering pattern occurs at the start of a word
    (at the start of the name or after a character that is no letter,
    digit or underscore) or the name contains "exhibit", plus the
    length bonus of length/10 capped at 3. *)
Theorem score_is_sum_of_bounded_components (name : string) :
  score name = spec_score_bounded name.
Proof.
  unfold spec_score_bounded, score_components, score.
  rewrite <-search_ex_bounded.
  repeat match goal with
         | |- context [if ?b then _ else _] => destruct b
         end; lia.
Qed.

(** C3 fails as worded: in "annex1.htm" the letters "ex" are followed
    by a digit but do not start a word, so the program takes nothing
    off while the reference sum takes 5 off. *)
Lemma score_differs_from_spec_score :
  score "annex1.htm" = 1%Z ∧ spec_score "annex1.htm" = (-4)%Z
  ∧ ¬ (∀ name, score name = spec_score name).
Proof.
  split; [by vm_compute|]. split; [by vm_compute|].
  intros H. specialize (H "annex1.htm"). by vm_compute in H.
Qed.

End Scoring.

(* ===================================================================== *)
(** * Fetching *)
(* ===================================================================== *)

Ltac unfold_M := unfold mbind, M_bind, mret, M_ret in *.

Section Fetching.

Variable server : Server.
Variable host : Host.

Lemma retry_trace_S url backoff attempt j :
  retry_trace url backoff attempt (S j)
  = [Request url; Sleep (backoff * Z.of_nat attempt)]
      ++ retry_trace url backoff (S attempt) j.
Proof. reflexivity. Qed.

Lemma log_retry_trace_S (l : list Event) url backoff attempt j :
  l ++ retry_trace url backoff attempt (S j)
  = ((l ++ [Request url]) ++ [Sleep (backoff * Z.of_nat attempt)])
      ++ retry_trace url backoff (S attempt) j.
Proof. rewrite retry_trace_S, <-!(assoc_L (++)). reflexivity. Qed.

Lemma retry_trace_0 url backoff attempt :
  retry_trace url backoff attempt 0 = [].
Proof. reflexivity. Qed.

Lemma log_retry_trace_0 (l : list Event) url backoff attempt :
  l ++ retry_trace url backoff attempt 0 = l.
Proof. apply (right_id_L [] (++)). Qed.

Lemma get_json_outcome_continue url backoff attempt todo st res st' :
  is_failure (server (log st) url) = true →
  get_json_outcome server url backoff (S attempt) todo
    {| log := (log st ++ [Request url])
                ++ [Sleep (backoff * Z.of_nat attempt)];
       fs := fs st; dirs := dirs st |} res st' →
  get_json_outcome server url backoff attempt (S todo) st res st'.
Proof.
  intros Hfail [Hfs (j & last & Hlog & Hfails & Hres)]. simpl in *.
  split; [done|]. exists (S j), last. split_and!.
  - by rewrite (assoc_L (++) (log st)), log_retry_trace_S, <-(assoc_L (++)).
  - intros [|i] Hi; [by rewrite log_retry_trace_0|].
    rewrite log_retry_trace_S. apply Hfails. lia.
  - destruct res as [json|].
    + destruct Hres as (-> & Hj & status & text & Hreply & Hok).
      split_and!; [done|lia|]. exists status, text.
      by rewrite log_retry_trace_S.
    + destruct Hres as [Hlen Hlast]. split; [lia|].
      destruct Hlast as [->|[-> Hlast]]; [by left|right].
      by rewrite log_retry_trace_S.
Qed.

Lemma get_json_outcome_give_up url backoff attempt st :
  is_failure (server (log st) url) = true →
  get_json_outcome server url backoff attempt 1 st None
    {| log := log st ++ [Request url]; fs := fs st; dirs := dirs st |}.
Proof.
  intros Hfail. split; [done|]. exists 0, [Request url].
  rewrite log_retry_trace_0.
  split_and!; [done|lia|done|]. by right.
Qed.

(** One iteration of the loop of [get_json], with the state written
    out. *)
Lemma get_json_loop_unfold url max_retries backoff attempt todo st :
  get_json_loop server url max_retries backoff attempt (S todo) st =
  let st1 := {| log := log st ++ [Request url]; fs := fs st; dirs := dirs st |} in
  let retry :=
    get_json_loop server url max_retries backoff (S attempt) todo
      {| log := (log st ++ [Request url])
                  ++ [Sleep (backoff * Z.of_nat attempt)];
         fs := fs st; dirs := dirs st |} in
  let on_exception :=
    if attempt =? max_retries then (None, st1) else retry in
  match server (log st) url with
  | NetworkError => on_exception
  | Response status _ json =>
      if is_transient_status status then retry
      else if raises_for_status status then on_exception
      else match json with
           | JInvalid => on_exception
           | _ => (Some json, st1)
           end
  end.
Proof.
  cbn [get_json_loop]. unfold_M. unfold requests_get, time_sleep.
  cbn [log fs].
  destruct (server (log st) url) as [|status text json];
    [by destruct (attempt =? max_retries)|].
  destruct (is_transient_status status); [done|].
  destruct (raises_for_status status), json, (attempt =? max_retries); done.
Qed.

Lemma get_json_loop_spec url max_retries backoff todo :
  ∀ attempt st res st',
    attempt + todo = S max_retries →
    get_json_loop server url max_retries backoff attempt todo st = (res, st') →
    get_json_outcome server url backoff attempt todo st res st'.
Proof.
  induction todo as [|todo IH]; intros attempt st res st' Hinv Hrun.
  { injection Hrun as <- <-. split; [done|]. exists 0, [].
    rewrite retry_trace_0, !(right_id_L [] (++)).
    split_and!; [done|intros; lia|done|by left]. }
  rewrite get_json_loop_unfold in Hrun. cbv zeta in Hrun.
  assert (∀ res st',
    is_failure (server (log st) url) = true →
    get_json_loop server url max_retries backoff (S attempt) todo
      {| log := (log st ++ [Request url])
                  ++ [Sleep (backoff * Z.of_nat attempt)];
         fs := fs st; dirs := dirs st |} = (res, st') →
    get_json_outcome server url backoff attempt (S todo) st res st') as Hretry.
  { intros res' st'' Hfail Hrun'.
    apply get_json_outcome_continue; [done|]. apply IH; [lia|done]. }
  assert (∀ res st',
    is_failure (server (log st) url) = true →
    (if attempt =? max_retries
     then (None, {| log := log st ++ [Request url]; fs := fs st; dirs := dirs st |})
     else get_json_loop server url max_retries backoff (S attempt) todo
            {| log := (log st ++ [Request url])
                        ++ [Sleep (backoff * Z.of_nat attempt)];
               fs := fs st; dirs := dirs st |}) = (res, st') →
    get_json_outcome server url backoff attempt (S todo) st res st') as Hexc.
  { intros res' st'' Hfail Hrun'.
    destruct (Nat.eqb_spec attempt max_retries) as [->|Hne]; [|by apply Hretry].
    injection Hrun' as <- <-. assert (todo = 0) as -> by lia.
    by apply get_json_outcome_give_up. }
  destruct (server (log st) url) as [|status text json] eqn:Hreply.
  { by apply Hexc. }
  destruct (is_transient_status status) eqn:Htrans.
  { apply Hretry; [|done]. simpl. by rewrite Htrans. }
  destruct (raises_for_status status) eqn:Hraise.
  { apply Hexc; [|done]. simpl. by rewrite Htrans, Hraise. }
  assert (is_failure (Response status text json) = false
          → (res, st') = (Some json, {| log := log st ++ [Request url];
                                        fs := fs st; dirs := dirs st |})
          → get_json_outcome server url backoff attempt (S todo) st res st')
    as Hok.
  { intros Hok [= -> ->]. split; [done|]. exists 0, [Request url].
    rewrite log_retry_trace_0, retry_trace_0.
    split_and!; [done|intros; lia|done|lia|]. exists status, text.
    by rewrite Hreply. }
  destruct json; try (apply Hok; [simpl; by rewrite Htrans, Hraise|done]).
  apply Hexc; [|done]. simpl. by rewrite Htrans, Hraise.
Qed.

Lemma get_json_with_spec url max_retries backoff st :
  get_json_outcome server url backoff 1 max_retries st
    (get_json_with server url max_retries backoff st).1
    (get_json_with server url max_retries backoff st).2.
Proof.
  apply (get_json_loop_spec url max_retries); [lia|].
  unfold get_json_with. by destruct (get_json_loop _ _ _ _ _ _ _).
Qed.

Lemma requests_of_app (l1 l2 : list Event) :
  requests_of (l1 ++ l2) = requests_of l1 ++ requests_of l2.
Proof. apply omap_app. Qed.

Lemma sleeps_of_app (l1 l2 : list Event) :
  sleeps_of (l1 ++ l2) = sleeps_of l1 ++ sleeps_of l2.
Proof. apply omap_app. Qed.

Lemma requests_of_retry_trace url backoff attempt j :
  requests_of (retry_trace url backoff attempt j) = replicate j url.
Proof.
  revert attempt. induction j as [|j IH]; intros attempt; [done|].
  rewrite retry_trace_S, requests_of_app, IH. done.
Qed.

(** The pauses grow linearly with the number of the attempt. *)
Lemma sleeps_of_retry_trace url backoff attempt j :
  sleeps_of (retry_trace url backoff attempt j)
  = (λ i, backoff * Z.of_nat i)%Z <$> seq attempt j.
Proof.
  revert attempt. induction j as [|j IH]; intros attempt; [done|].
  rewrite retry_trace_S, sleeps_of_app, IH. done.
Qed.

(** A JSON fetch sends between one and [max_retries] requests, all to
    its URL, and changes no file. *)
Lemma get_json_with_requests url max_retries backoff st :
  0 < max_retries →
  ∃ k evs,
    1 ≤ k ≤ max_retries
    ∧ log (get_json_with server url max_retries backoff st).2 = log st ++ evs
    ∧ requests_of evs = replicate k url
    ∧ fs (get_json_with server url max_retries backoff st).2 = fs st.
Proof.
  intros Hpos.
  destruct (get_json_with_spec url max_retries backoff st)
    as [Hfs (j & last & Hlog & _ & Hres)].
  exists (j + length last), (retry_trace url backoff 1 j ++ last).
  split_and!; [| |done| |done].
  - destruct (get_json_with _ _ _ _ _).1; [|lia].
    destruct Hres as (-> & ? & _). simpl. lia.
  - destruct (get_json_with _ _ _ _ _).1.
    + destruct Hres as (-> & ? & _). simpl. lia.
    + lia.
  - rewrite requests_of_app, requests_of_retry_trace, replicate_add.
    f_equal. destruct (get_json_with _ _ _ _ _).1.
    + by destruct Hres as (-> & _).
    + by destruct Hres as (_ & [->| [-> _]]).
Qed.

(** The trace of a JSON fetch: at most [max_retries] requests, all to
    its URL, and between them pauses of [backoff], twice [backoff],
    three times [backoff], and so on. *)
Lemma get_json_with_trace url max_retries backoff st :
  ∃ k j evs,
    log (get_json_with server url max_retries backoff st).2 = log st ++ evs
    ∧ requests_of evs = replicate k url
    ∧ sleeps_of evs = (λ i, backoff * Z.of_nat i)%Z <$> seq 1 j
    ∧ j ≤ k ≤ max_retries.
Proof.
  destruct (get_json_with_spec url max_retries backoff st)
    as [_ (j & last & Hlog & _ & Hres)].
  exists (j + length last), j, (retry_trace url backoff 1 j ++ last).
  assert (last = [] ∨ last = [Request url]) as Hlast.
  { destruct (get_json_with _ _ _ _ _).1.
    - right. by destruct Hres as (-> & _).
    - destruct Hres as (_ & [->| [-> _]]); auto. }
  split_and!; [done| | | |].
  - rewrite requests_of_app, requests_of_retry_trace, replicate_add.
    by destruct Hlast as [-> | ->].
  - rewrite sleeps_of_app, sleeps_of_retry_trace.
    destruct Hlast as [-> | ->]; apply (right_id_L [] (++)).
  - lia.
  - destruct (get_json_with _ _ _ _ _).1.
    + destruct Hres as (-> & ? & _). simpl. lia.
    + lia.
Qed.

Lemma get_text_run url st :
  get_text server url st
  = (match server (log st) url with
     | NetworkError => None
     | Response status text _ =>
         if raises_for_status status then None else Some text
     end,
     {| log := log st ++ [Request url]; fs := fs st; dirs := dirs st |}).
Proof.
  unfold get_text, requests_get. unfold_M.
  destruct (server (log st) url) as [|status text json]; [done|].
  destruct (Z.eqb_spec status 404) as [->|_]; [done|].
  by destruct (raises_for_status status).
Qed.

Lemma _download_binary_run url dest_path st :
  let requested :=
    {| log := log st ++ [Request url]; fs := fs st; dirs := dirs st |} in
  _download_binary server host url dest_path st
  = match server (log st) url with
    | NetworkError => (Some false, requested)
    | Response status content _ =>
        if raises_for_status status then (Some false, requested)
        else if can_write host requested dest_path
        then (Some true,
              {| log := log st ++ [Request url];
                 fs := <[dest_path := content]> (fs st);
                 dirs := dirs st |})
        else (None, requested)
    end.
Proof.
  cbv zeta. unfold _download_binary, requests_get, path_write. unfold_M.
  destruct (server (log st) url) as [|status text json]; [done|].
  destruct (Z.eqb_spec status 404) as [->|_]; [done|].
  destruct (raises_for_status status); [done|].
  by destruct (can_write _ _ _).
Qed.

Lemma download_html_error url output_path st :
  is_error (server (log st) url) = true →
  download_html server host url output_path st
  = (false, {| log := log st ++ [Request url]; fs := fs st;
               dirs := dirs st |}).
Proof.
  unfold download_html, requests_get. unfold_M. intros Herr.
  destruct (server (log st) url) as [|status text json]; [done|].
  simpl in Herr. rewrite Herr.
  by destruct (status =? 404)%Z.
Qed.

Lemma _index_json_items_run cik_no_zeros accession_nodashes st :
  _index_json_items server cik_no_zeros accession_nodashes st
  = (match (get_json server
              (archive_url cik_no_zeros accession_nodashes "index.json") st).1
     with
     | Some (JListing items) => items
     | _ => []
     end,
     (get_json server
        (archive_url cik_no_zeros accession_nodashes "index.json") st).2).
Proof.
  unfold _index_json_items. unfold_M.
  destruct (get_json _ _ _) as [[[]|] st']; done.
Qed.

Lemma get_cik_from_ticker_run ticker st :
  get_cik_from_ticker server ticker st
  = (match (get_json server
              "https://www.sec.gov/files/company_tickers.json" st).1
     with
     | Some (JTickers table) => find_company (normalize_ticker ticker) table
     | _ => None
     end,
     (get_json server "https://www.sec.gov/files/company_tickers.json" st).2).
Proof.
  unfold get_cik_from_ticker. unfold_M.
  destruct (get_json _ _ _) as [[[]|] st']; done.
Qed.

Lemma pick_html_from_index_json_run cik_no_zeros accession_nodashes st :
  pick_html_from_index_json server cik_no_zeros accession_nodashes st
  = (archive_url cik_no_zeros accession_nodashes
       <$> pick_html_from_items
             (_index_json_items server cik_no_zeros accession_nodashes st).1,
     (_index_json_items server cik_no_zeros accession_nodashes st).2).
Proof.
  unfold pick_html_from_index_json. unfold_M.
  by destruct (_index_json_items _ _ _ _).
Qed.

Lemma pick_html_from_index_json_log cik_no_zeros accession_nodashes st :
  ∃ k evs,
    1 ≤ k ≤ 3
    ∧ log (pick_html_from_index_json server cik_no_zeros accession_nodashes
             st).2 = log st ++ evs
    ∧ requests_of evs
      = replicate k (archive_url cik_no_zeros accession_nodashes "index.json")
    ∧ fs (pick_html_from_index_json server cik_no_zeros accession_nodashes
            st).2 = fs st.
Proof.
  rewrite pick_html_from_index_json_run, _index_json_items_run.
  cbn [fst snd]. apply get_json_with_requests. lia.
Qed.

Lemma parse_submission_txt_run cik_no_zeros accession_nodashes st :
  parse_submission_txt_for_annual_html server cik_no_zeros accession_nodashes
    st
  = (txt ← (get_text server
              (archive_url cik_no_zeros accession_nodashes
                 (accession_nodashes +:+ ".txt")) st).1;
     scan_blocks_for_url cik_no_zeros accession_nodashes
       (Re.findall_document txt),
     {| log := log st
                 ++ [Request (archive_url cik_no_zeros accession_nodashes
                                (accession_nodashes +:+ ".txt"))];
        fs := fs st; dirs := dirs st |}).
Proof.
  unfold parse_submission_txt_for_annual_html. unfold_M.
  rewrite get_text_run. cbn [fst].
  destruct (match server _ _ with NetworkError => _ | _ => _ end)
    as [[|c txt]|]; done.
Qed.

Lemma archive_url_nonempty cik_no_zeros accession_nodashes name :
  String.eqb (archive_url cik_no_zeros accession_nodashes name) EmptyString
  = false.
Proof. reflexivity. Qed.

(** The resolver as a choice among its three tiers. *)
Lemma pick_best_annual_html_run cik_no_zeros accession_nodashes primary_doc st :
  let tier1 :=
    pd ← primary_doc;
    if looks_like_annual_html pd
    then Some (archive_url cik_no_zeros accession_nodashes pd) else None in
  let run2 :=
    pick_html_from_index_json server cik_no_zeros accession_nodashes st in
  let tier2 :=
    u ← run2.1; if Py.endswith "/index.html" u then None else Some u in
  let run3 :=
    parse_submission_txt_for_annual_html server cik_no_zeros
      accession_nodashes run2.2 in
  pick_best_annual_html server cik_no_zeros accession_nodashes primary_doc st
  = match tier1, tier2 with
    | Some u, _ => (Some u, st)
    | None, Some u => (Some u, run2.2)
    | None, None => run3
    end.
Proof.
  intros tier1 run2 tier2 run3.
  unfold pick_best_annual_html. unfold_M. cbv beta zeta.
  subst tier1 tier2 run3. unfold run2.
  assert (looks_like_annual_html EmptyString = false) as Hempty by done.
  destruct primary_doc as [[|c pd]|]; cbn [mbind option_bind];
    [rewrite Hempty| |];
    try destruct (looks_like_annual_html (String c pd)); try done;
    (rewrite !pick_html_from_index_json_run; cbn [fst snd];
     destruct (pick_html_from_items _) as [best|];
     cbn [fmap option_fmap option_map mbind option_bind];
     [rewrite archive_url_nonempty;
      by destruct (Py.endswith "/index.html" _)|done]).
Qed.

(** C1: the resolver tries the declared name, then the directory
    listing, then the legacy bundle, and the first tier that yields a
    URL gives the result.  When the declared name passes the check the
    state is untouched: neither the listing nor the bundle is fetched.
    The listing tier sends its requests (one to three, with retries) to
    index.json before the bundle tier sends its single request. *)
Theorem tiers_in_strict_order cik_no_zeros accession_nodashes primary_doc st :
  let tier1 :=
    pd ← primary_doc;
    if looks_like_annual_html pd
    then Some (archive_url cik_no_zeros accession_nodashes pd) else None in
  let run2 :=
    pick_html_from_index_json server cik_no_zeros accession_nodashes st in
  let tier2 :=
    u ← run2.1; if Py.endswith "/index.html" u then None else Some u in
  let run3 :=
    parse_submission_txt_for_annual_html server cik_no_zeros
      accession_nodashes run2.2 in
  pick_best_annual_html server cik_no_zeros accession_nodashes primary_doc st
  = match tier1, tier2 with
    | Some u, _ => (Some u, st)
    | None, Some u => (Some u, run2.2)
    | None, None => run3
    end
  ∧ (∀ pd, primary_doc = Some pd → looks_like_annual_html pd = true →
       pick_best_annual_html server cik_no_zeros accession_nodashes
         primary_doc st
       = (Some (archive_url cik_no_zeros accession_nodashes pd), st))
  ∧ (∃ k evs,
       1 ≤ k ≤ 3
       ∧ log run2.2 = log st ++ evs
       ∧ requests_of evs
         = replicate k
             (archive_url cik_no_zeros accession_nodashes "index.json"))
  ∧ log run3.2
    = log run2.2
        ++ [Request (archive_url cik_no_zeros accession_nodashes
                       (accession_nodashes +:+ ".txt"))].
Proof.
  intros tier1 run2 tier2 run3.
  pose proof (pick_best_annual_html_run cik_no_zeros accession_nodashes
                primary_doc st) as Hrun. cbv zeta in Hrun.
  split_and!; [done| | |].
  - intros pd -> Hpd. rewrite Hrun. cbn [mbind option_bind]. by rewrite Hpd.
  - destruct (pick_html_from_index_json_log cik_no_zeros accession_nodashes st)
      as (k & evs & ? & ? & ? & _). eauto.
  - subst run3. by rewrite parse_submission_txt_run.
Qed.

Lemma pick_best_annual_html_log cik_no_zeros accession_nodashes primary_doc st :
  log st `prefix_of`
    log (pick_best_annual_html server cik_no_zeros accession_nodashes
           primary_doc st).2.
Proof.
  rewrite pick_best_annual_html_run. cbv zeta.
  destruct (pick_html_from_index_json_log cik_no_zeros accession_nodashes st)
    as (k & evs & _ & Hlog & _).
  assert (log st `prefix_of`
            log (pick_html_from_index_json server cik_no_zeros
                   accession_nodashes st).2) as H2.
  { rewrite Hlog. by apply prefix_app_r. }
  repeat case_match; cbn [snd]; try done.
  rewrite parse_submission_txt_run. cbn [snd log].
  by apply prefix_app_r.
Qed.

Lemma resolve_candidates_log cik_no_zeros candidates st :
  log st `prefix_of` log (resolve_candidates server cik_no_zeros candidates st).2.
Proof.
  revert st. induction candidates as [|c rest IH]; intros st; [done|].
  cbn [resolve_candidates]. unfold_M.
  pose proof (pick_best_annual_html_log cik_no_zeros
                (Py.remove_char "-" (cand_accession c))
                (cand_primary_doc c) st) as Hbest.
  destruct (pick_best_annual_html _ _ _ _ _) as [use_url st1].
  specialize (IH st1).
  destruct (resolve_candidates _ _ _ _) as [out st2]. cbn [snd] in *.
  assert (log st `prefix_of` log st2) by (by etrans).
  by repeat case_match.
Qed.

(** C9 (as amended): retry with linearly increasing backoff, up to the
    cap of attempts, is what every JSON fetch does, and the identifier
    table, the filing catalogue and the directory listing are JSON
    fetches; the legacy-bundle text fetch and the exhibit download send
    exactly one request, and the document download stops after one
    request when that request fails. *)
Theorem retry_for_json_fetches_only st :
  (∀ url max_retries backoff,
     get_json_outcome server url backoff 1 max_retries st
       (get_json_with server url max_retries backoff st).1
       (get_json_with server url max_retries backoff st).2
     ∧ ∃ k j evs,
         log (get_json_with server url max_retries backoff st).2
           = log st ++ evs
         ∧ requests_of evs = replicate k url
         ∧ sleeps_of evs = (λ i, backoff * Z.of_nat i)%Z <$> seq 1 j
         ∧ j ≤ k ≤ max_retries)
  ∧ (∀ ticker,
       (get_cik_from_ticker server ticker st).2
       = (get_json server "https://www.sec.gov/files/company_tickers.json"
            st).2)
  ∧ (∀ cik count include_amends include_20f,
       log (get_json server
              ("https://data.sec.gov/submissions/CIK" +:+ cik +:+ ".json")
              st).2
         `prefix_of`
       log (get_annual_filings_html server cik count include_amends
              include_20f st).2)
  ∧ (∀ cik_no_zeros accession_nodashes,
       (_index_json_items server cik_no_zeros accession_nodashes st).2
       = (get_json server
            (archive_url cik_no_zeros accession_nodashes "index.json") st).2)
  ∧ (∀ url,
       (get_text server url st).2
       = {| log := log st ++ [Request url]; fs := fs st; dirs := dirs st |})
  ∧ (∀ url dest_path,
       log (_download_binary server host url dest_path st).2
       = log st ++ [Request url])
  ∧ (∀ url output_path,
       is_error (server (log st) url) = true →
       download_html server host url output_path st
       = (false, {| log := log st ++ [Request url]; fs := fs st;
                    dirs := dirs st |})).
Proof.
  split_and!.
  - intros. split; [apply get_json_with_spec|apply get_json_with_trace].
  - intros. by rewrite get_cik_from_ticker_run.
  - intros. unfold get_annual_filings_html. unfold_M.
    destruct (get_json _ _ _) as [data st1]. cbn [snd].
    repeat case_match; try done. apply resolve_candidates_log.
  - intros. by rewrite _index_json_items_run.
  - intros. by rewrite get_text_run.
  - intros. rewrite _download_binary_run. by repeat case_match.
  - intros. by apply download_html_error.
Qed.

End Fetching.

(* ===================================================================== *)
(** * Resolved URLs *)
(* ===================================================================== *)

Section Resolution.

Variable server : Server.

Lemma lower_char_slash (c : ascii) :
  Ascii.eqb "/" (Py.lower_char c) = Ascii.eqb "/" c.
Proof. by destruct c as [[] [] [] [] [] [] [] []]. Qed.

Lemma contains_slash_lower (s : string) :
  Py.contains "/" (Py.lower s) = Py.contains "/" s.
Proof.
  induction s as [|c s IH]; [done|].
  unfold Py.lower in *. cbn [Py.map Py.contains Py.startswith].
  by rewrite IH, lower_char_slash.
Qed.

Lemma lower_last_component (s : string) :
  Py.lower (last_component s) = last_component (Py.lower s).
Proof.
  induction s as [|c s IH]; [done|].
  unfold Py.lower in *. cbn [Py.map last_component].
  fold (Py.lower s). rewrite contains_slash_lower.
  rewrite (Ascii.eqb_sym (Py.lower_char c)), lower_char_slash,
    (Ascii.eqb_sym "/").
  destruct (Py.contains "/" s); [done|]. by destruct (Ascii.eqb c "/").
Qed.

Lemma endswith_cons_inv (p : string) (c : ascii) (s : string) :
  Py.endswith p (String c s) = true →
  p = String c s ∨ Py.endswith p s = true.
Proof.
  rewrite !endswith_spec. intros [[|c' r] Hr].
  - left. by rewrite Hr.
  - right. rewrite str_app_cons in Hr. injection Hr as -> ->. eauto.
Qed.

Lemma last_component_endswith (p s : string) :
  Py.contains "/" p = false →
  Py.endswith p s = true →
  Py.endswith p (last_component s) = true.
Proof.
  intros Hp. induction s as [|c s IH]; [done|].
  intros Hend. cbn [last_component].
  destruct (endswith_cons_inv _ _ _ Hend) as [->|Hend'].
  { cbn [Py.contains Py.startswith] in Hp.
    apply orb_false_elim in Hp as [Hc Hs]. rewrite Hs.
    rewrite andb_true_r, Ascii.eqb_sym in Hc. by rewrite Hc. }
  destruct (Py.contains "/" s); [by apply IH|].
  by destruct (Ascii.eqb c "/").
Qed.

Lemma html_ext_last_component (folder name : string) :
  Py.endswith_any HTML_EXTS (Py.lower name) = true →
  Py.endswith_any HTML_EXTS (Py.lower (last_component (folder +:+ name)))
  = true.
Proof.
  unfold Py.endswith_any. rewrite !existsb_exists.
  intros (p & Hp & Hend). exists p. split; [done|].
  rewrite lower_last_component. apply last_component_endswith.
  - unfold HTML_EXTS in Hp. cbn in Hp. by destruct Hp as [<-|[<-|[]]].
  - unfold Py.lower. rewrite str_map_app. by apply endswith_app.
Qed.

Lemma html_names_ext (items : list Item) (x : string) :
  x ∈ html_names items →
  Py.endswith_any HTML_EXTS (Py.lower x) = true.
Proof.
  unfold html_names. intros (it & -> & Hit)%list_elem_of_fmap.
  apply list_elem_of_In, filter_In in Hit. by destruct Hit.
Qed.

Lemma pick_html_from_items_elem (items : list Item) (best : string) :
  pick_html_from_items items = Some best → best ∈ html_names items.
Proof.
  unfold pick_html_from_items.
  destruct (html_names items) as [|first others]; [done|].
  intros [= <-]. apply max_by_from_elem.
Qed.

(** The scan of the blocks stops at the first block that qualifies. *)
Lemma scan_blocks_for_url_spec cik_no_zeros accession_nodashes blocks :
  match scan_blocks_for_url cik_no_zeros accession_nodashes blocks with
  | Some url =>
      ∃ before block after fname,
        blocks = before ++ block :: after
        ∧ (∀ b f, b ∈ before → ¬ block_qualifies b f)
        ∧ block_qualifies block fname
        ∧ url = archive_url cik_no_zeros accession_nodashes fname
  | None => ∀ b f, b ∈ blocks → ¬ block_qualifies b f
  end.
Proof.
  induction blocks as [|block rest IH].
  { intros b f Hb. by apply elem_of_nil in Hb. }
  assert (∀ f, block_qualifies block f ↔
            ∃ mtype,
              Re.search_tag "<TYPE>" block = Some mtype
              ∧ Re.search_tag "<FILENAME>" block = Some f
              ∧ bool_decide (Py.upper mtype ∈ ANNUAL_TYPES)
                && Py.endswith_any HTML_EXTS (Py.lower f) = true) as Hq.
  { intros f. unfold block_qualifies.
    setoid_rewrite andb_true_iff. by setoid_rewrite bool_decide_eq_true. }
  assert ((∀ f, ¬ block_qualifies block f) →
          match scan_blocks_for_url cik_no_zeros accession_nodashes rest with
          | Some url =>
              ∃ before block' after fname,
                block :: rest = before ++ block' :: after
                ∧ (∀ b f, b ∈ before → ¬ block_qualifies b f)
                ∧ block_qualifies block' fname
                ∧ url = archive_url cik_no_zeros accession_nodashes fname
          | None => ∀ b f, b ∈ block :: rest → ¬ block_qualifies b f
          end) as Hskip.
  { intros Hno.
    destruct (scan_blocks_for_url cik_no_zeros accession_nodashes rest).
    - destruct IH as (before & block' & after & fname & -> & Hbefore & ? & ?).
      exists (block :: before), block', after, fname.
      split_and!; [done| |done|done].
      intros b f [->|Hb]%elem_of_cons; [apply Hno|by apply Hbefore].
    - intros b f [->|Hb]%elem_of_cons; [apply Hno|by apply IH]. }
  cbn [scan_blocks_for_url].
  destruct (Re.search_tag "<TYPE>" block) as [mtype|] eqn:Htype;
    [|apply Hskip; intros f (? & ? & _)%Hq; congruence].
  destruct (Re.search_tag "<FILENAME>" block) as [fname|] eqn:Hname;
    [|apply Hskip; intros f (? & _ & ? & _)%Hq; congruence].
  destruct (bool_decide _ && _) eqn:Hok.
  - exists [], block, rest, fname. split_and!; [done| | |done].
    + intros b f Hb. by apply elem_of_nil in Hb.
    + apply Hq. eauto.
  - apply Hskip. intros f (mtype' & [= <-] & [= <-] & Hb)%Hq.
    by rewrite Hok in Hb.
Qed.

Lemma scan_blocks_for_url_ext cik_no_zeros accession_nodashes blocks url :
  scan_blocks_for_url cik_no_zeros accession_nodashes blocks = Some url →
  ∃ fname,
    url = archive_url cik_no_zeros accession_nodashes fname
    ∧ Py.endswith_any HTML_EXTS (Py.lower fname) = true.
Proof.
  intros Hscan.
  pose proof (scan_blocks_for_url_spec cik_no_zeros accession_nodashes blocks)
    as Hspec.
  rewrite Hscan in Hspec.
  destruct Hspec as (_ & _ & _ & fname & _ & _ & (? & _ & _ & _ & ?) & ?).
  eauto.
Qed.

(** Whatever tier answers, the URL is the archive folder followed by a
    name with an HTML extension. *)
Lemma pick_best_annual_html_shape cik_no_zeros accession_nodashes
    primary_doc st url :
  (pick_best_annual_html server cik_no_zeros accession_nodashes primary_doc
     st).1 = Some url →
  ∃ name,
    url = archive_folder cik_no_zeros accession_nodashes +:+ name
    ∧ Py.endswith_any HTML_EXTS (Py.lower name) = true.
Proof.
  rewrite pick_best_annual_html_run. cbv zeta.
  destruct primary_doc as [pd|]; cbn [mbind option_bind].
  1: destruct (looks_like_annual_html pd) eqn:Hpd.
  1: { intros [= <-]. exists pd. split; [done|].
       by apply andb_true_iff in Hpd as [? _]. }
  all: rewrite pick_html_from_index_json_run; cbn [fst snd];
    destruct (pick_html_from_items _) as [best|] eqn:Hbest;
    cbn [fmap option_fmap option_map mbind option_bind];
    try destruct (Py.endswith "/index.html" _);
    try (intros [= <-]; exists best; split; [done|];
         by eapply html_names_ext, pick_html_from_items_elem);
    rewrite parse_submission_txt_run; cbn [fst];
    destruct (get_text _ _ _).1 as [txt|]; cbn [mbind option_bind];
    try done; apply scan_blocks_for_url_ext.
Qed.


Lemma resolve_candidates_shape cik_no_zeros candidates st f :
  f ∈ (resolve_candidates server cik_no_zeros candidates st).1 →
  ∃ c name,
    c ∈ candidates
    ∧ filing_key f = candidate_key c
    ∧ filing_url f
      = archive_folder cik_no_zeros (Py.remove_char "-" (cand_accession c))
          +:+ name
    ∧ Py.endswith_any HTML_EXTS (Py.lower name) = true.
Proof.
  revert st. induction candidates as [|c rest IH]; intros st.
  { intros Hf. by apply elem_of_nil in Hf. }
  cbn [resolve_candidates]. unfold_M.
  pose proof (pick_best_annual_html_shape cik_no_zeros
                (Py.remove_char "-" (cand_accession c))
                (cand_primary_doc c) st) as Hshape.
  destruct (pick_best_annual_html _ _ _ _ _) as [use_url st1].
  specialize (IH st1).
  destruct (resolve_candidates _ _ _ _) as [out st2]. cbn [fst] in *.
  assert (f ∈ out → ∃ c' name,
            c' ∈ c :: rest ∧ filing_key f = candidate_key c'
            ∧ filing_url f
              = archive_folder cik_no_zeros
                  (Py.remove_char "-" (cand_accession c')) +:+ name
            ∧ Py.endswith_any HTML_EXTS (Py.lower name) = true) as Hrest.
  { intros (c' & name & ? & ?)%IH. exists c', name.
    split; [by apply elem_of_cons; right|done]. }
  destruct use_url as [[|a u]|]; cbn [fst]; [done| |done].
  intros [->|Hf]%elem_of_cons; [|by apply Hrest].
  destruct (Hshape _ eq_refl) as (name & Hurl & Hext).
  exists c, name. split_and!; [by apply elem_of_cons; left|done|done|done].
Qed.

(** The filings returned are, in order, candidates that were
    resolved. *)
Lemma resolve_candidates_sublist cik_no_zeros candidates st :
  (filing_key <$> (resolve_candidates server cik_no_zeros candidates st).1)
    `sublist_of` (candidate_key <$> candidates).
Proof.
  revert st. induction candidates as [|c rest IH]; intros st; [done|].
  cbn [resolve_candidates]. unfold_M.
  destruct (pick_best_annual_html _ _ _ _ _) as [use_url st1].
  specialize (IH st1).
  destruct (resolve_candidates _ _ _ _) as [out st2]. cbn [fst] in *.
  destruct use_url as [[|a u]|]; csimpl;
    [by apply sublist_cons|by apply sublist_skip|by apply sublist_cons].
Qed.

(** C10 (as amended): every URL the resolver returns, from any tier,
    is the archive folder of the candidate followed by a file name, and
    its final path component ends in ".htm" or ".html" without regard
    to letter case, in all three tiers.  For the filings of the
    catalogue the folder is built from the identifier printed as a
    number and the accession id without its dashes. *)
Theorem resolved_url_in_folder_with_html_extension :
  (∀ cik_no_zeros accession_nodashes primary_doc st url,
     (pick_best_annual_html server cik_no_zeros accession_nodashes
        primary_doc st).1 = Some url →
     ∃ name,
       url = archive_folder cik_no_zeros accession_nodashes +:+ name
       ∧ Py.endswith_any HTML_EXTS (Py.lower name) = true
       ∧ Py.endswith_any HTML_EXTS (Py.lower (last_component url)) = true)
  ∧ (∀ cik count include_amends include_20f st f,
       f ∈ (get_annual_filings_html server cik count include_amends
              include_20f st).1 →
       ∃ n name,
         Py.int_of_str cik = Some n
         ∧ filing_url f
           = archive_folder (Py.str_of_int n)
               (Py.remove_char "-" (filing_accession f)) +:+ name
         ∧ Py.endswith_any HTML_EXTS (Py.lower name) = true
         ∧ Py.endswith_any HTML_EXTS (Py.lower (last_component (filing_url f)))
           = true).
Proof.
  split.
  - intros cik_no_zeros accession_nodashes primary_doc st url Hurl.
    destruct (pick_best_annual_html_shape _ _ _ _ _ Hurl)
      as (name & -> & Hext).
    exists name. split_and!; [done|done|].
    by apply html_ext_last_component.
  - intros cik count include_amends include_20f st f.
    unfold get_annual_filings_html. unfold_M.
    destruct (get_json _ _ _) as [data st1]. cbn [fst].
    assert (∀ x : Filing, x ∉ @nil Filing) as Hnil
      by (intros x Hx; by apply elem_of_nil in Hx).
    destruct data as [[| recent | |]|]; try (intros Hf; by apply Hnil in Hf).
    destruct (recent_candidates _ _ _ _) as [candidates|];
      [|intros Hf; by apply Hnil in Hf].
    destruct (Py.int_of_str cik) as [n|]; [|intros Hf; by apply Hnil in Hf].
    intros (c & name & _ & Hkey & Hurl & Hext)%resolve_candidates_shape.
    exists n, name. injection Hkey as _ Hacc _.
    rewrite Hacc, Hurl. split_and!; [done|done|done|].
    by apply html_ext_last_component.
Qed.

Lemma last_component_after_slash (a b : string) :
  Py.contains "/" b = false →
  last_component (a +:+ "/" +:+ b) = b.
Proof.
  intros Hb. induction a as [|c a IH].
  { change (EmptyString +:+ "/" +:+ b) with (String "/" b).
    cbn [last_component]. by rewrite Hb. }
  rewrite str_app_cons. cbn [last_component].
  assert (Py.contains "/" (a +:+ "/" +:+ b) = true) as ->; [|done].
  apply contains_spec. by exists a, b.
Qed.

Lemma last_component_split (s : string) :
  Py.contains "/" s = true →
  ∃ x, s = x +:+ "/" +:+ last_component s
       ∧ Py.contains "/" (last_component s) = false.
Proof.
  induction s as [|c s IH]; [done|].
  intros Hs. cbn [last_component].
  destruct (Py.contains "/" s) eqn:Hrest.
  { destruct (IH eq_refl) as (x & Hx & Hlast). exists (String c x).
    split; [|done]. rewrite str_app_cons. by rewrite <-Hx. }
  cbn [Py.contains Py.startswith] in Hs. rewrite Hrest in Hs.
  rewrite orb_false_r, andb_true_r in Hs.
  rewrite Ascii.eqb_sym, Hs. apply Ascii.eqb_eq in Hs as <-.
  by exists EmptyString.
Qed.

(** A text that ends in a slash and a name, after a slash: it is the
    name, or it ends in the slash and the name itself. *)
Lemma endswith_after_slash (a b q : string) :
  Py.contains "/" q = false →
  Py.endswith ("/" +:+ q) (a +:+ "/" +:+ b) = true →
  b = q ∨ Py.endswith ("/" +:+ q) b = true.
Proof.
  intros Hq [r Hr]%endswith_spec.
  assert (last_component (a +:+ "/" +:+ b) = q) as Hlast.
  { rewrite Hr. by apply last_component_after_slash. }
  destruct (Py.contains "/" b) eqn:Hb.
  - right. destruct (last_component_split b Hb) as (x & Hx & Hnone).
    rewrite Hx in Hlast at 1.
    assert (a +:+ "/" +:+ x +:+ "/" +:+ last_component b
            = (a +:+ "/" +:+ x) +:+ "/" +:+ last_component b) as Hassoc
      by (by rewrite !str_app_assoc).
    rewrite Hassoc, last_component_after_slash in Hlast by done.
    apply endswith_spec. exists x. by rewrite <-Hlast.
  - left. by rewrite last_component_after_slash in Hlast.
Qed.

Lemma archive_url_last_component cik_no_zeros accession_nodashes name :
  Py.contains "/" name = false →
  last_component (archive_url cik_no_zeros accession_nodashes name) = name.
Proof.
  intros Hname.
  assert (archive_url cik_no_zeros accession_nodashes name
          = ("https://www.sec.gov/Archives/edgar/data/" +:+ cik_no_zeros
               +:+ "/" +:+ accession_nodashes) +:+ "/" +:+ name) as ->.
  { unfold archive_url, archive_folder. by rewrite !str_app_assoc. }
  by apply last_component_after_slash.
Qed.

Lemma looks_like_annual_html_token (pd : string) :
  looks_like_annual_html pd = true → carries_token pd = true.
Proof. by intros [_ ?]%andb_true_iff. Qed.

(** C2 (as amended): in a listing with an HTML name [t] that carries a
    filing-type token, [t] scores strictly above every entry that is
    "index.html",
    and the name picked from the listing is an HTML name of the listing
    with the highest score that is not "index.html"; its URL is what the
    listing tier returns.  When no HTML name of the listing ends in
    "/index.html", the three-tier resolver answers from the declared
    name or from the listing, with a file that is not "index.html". *)
Theorem token_names_outrank_index_html (items : list Item) (t : string) :
  t ∈ html_names items →
  carries_token t = true →
  (∀ i, is_index_html i = true → (score i < score t)%Z)
  ∧ ∃ best,
      pick_html_from_items items = Some best
      ∧ best ∈ html_names items
      ∧ (∀ x, x ∈ html_names items → (score x ≤ score best)%Z)
      ∧ is_index_html best = false
      ∧ ∀ cik_no_zeros accession_nodashes st,
          (_index_json_items server cik_no_zeros accession_nodashes st).1
            = items →
          (pick_html_from_index_json server cik_no_zeros accession_nodashes
             st).1
            = Some (archive_url cik_no_zeros accession_nodashes best)
          ∧ ((∀ x, x ∈ html_names items →
                   Py.endswith "/index.html" x = false) →
             ∀ primary_doc,
               ∃ name,
                 (pick_best_annual_html server cik_no_zeros
                    accession_nodashes primary_doc st).1
                 = Some (archive_url cik_no_zeros accession_nodashes name)
                 ∧ is_index_html name = false).
Proof.
  intros Ht Htok. pose proof (score_token_lower_bound _ Htok) as Hlow.
  split.
  { intros i Hi. rewrite (score_index _ Hi). lia. }
  unfold pick_html_from_items.
  destruct (html_names items) as [|first others] eqn:Hnames.
  { by apply elem_of_nil in Ht. }
  exists (max_by_from score first others).
  pose proof (max_by_from_max score first others) as Hmax.
  pose proof (max_by_from_elem score first others) as Helem.
  assert (is_index_html (max_by_from score first others) = false) as Hbest.
  { destruct (is_index_html _) eqn:Hidx; [|done].
    apply score_index in Hidx. specialize (Hmax _ Ht). lia. }
  split_and!; [done|done|done|done|].
  intros cik acc st Hitems.
  assert ((pick_html_from_index_json server cik acc st).1
          = Some (archive_url cik acc (max_by_from score first others)))
    as Hpick.
  { rewrite pick_html_from_index_json_run. cbn [fst]. rewrite Hitems.
    unfold pick_html_from_items. by rewrite Hnames. }
  split; [done|]. intros Hplain primary_doc.
  rewrite pick_best_annual_html_run. cbv zeta. rewrite Hpick.
  cbn [mbind option_bind].
  assert (Py.endswith "/index.html"
            (archive_url cik acc (max_by_from score first others)) = false)
    as ->.
  { destruct (Py.endswith _ _) eqn:Hend; [|done]. exfalso.
    assert (archive_url cik acc (max_by_from score first others)
            = ("https://www.sec.gov/Archives/edgar/data/" +:+ cik
                 +:+ "/" +:+ acc)
              +:+ "/" +:+ max_by_from score first others) as Hurl.
    { unfold archive_url, archive_folder. by rewrite !str_app_assoc. }
    rewrite Hurl in Hend.
    apply (endswith_after_slash _ _ "index.html" eq_refl) in Hend
      as [Hname|Hsub].
    - unfold is_index_html in Hbest. by rewrite Hname in Hbest.
    - change ("/" +:+ "index.html") with "/index.html" in Hsub.
      by rewrite (Hplain _ Helem) in Hsub. }
  destruct primary_doc as [pd|]; cbn [mbind option_bind]; [|eauto].
  destruct (looks_like_annual_html pd) eqn:Hpd; [|eauto].
  exists pd. split; [done|].
  by apply token_not_index, looks_like_annual_html_token.
Qed.

End Resolution.

(* ===================================================================== *)
(** * Legacy bundles *)
(* ===================================================================== *)

Section Bundles.

Variable server : Server.

Lemma strip_prefix_ci_length (p s rest : string) :
  Re.strip_prefix_ci p s = Some rest →
  String.length s = String.length p + String.length rest.
Proof.
  revert s. induction p as [|a p IH]; intros [|b s]; simpl; try done.
  - by intros [= <-].
  - by intros [= <-].
  - destruct (Ascii.eqb _ _); [|done]. intros ->%IH. lia.
Qed.

Lemma split_at_ci_length (p s before after : string) :
  Re.split_at_ci p s = Some (before, after) →
  String.length s
  = String.length before + String.length p + String.length after.
Proof.
  revert before. induction s as [|c s IH]; intros before; simpl.
  - destruct (Re.strip_prefix_ci p EmptyString) eqn:Hp; [|done].
    intros [= <- <-]. by apply strip_prefix_ci_length in Hp.
  - destruct (Re.strip_prefix_ci p (String c s)) eqn:Hp.
    { intros [= <- <-]. by apply strip_prefix_ci_length in Hp. }
    destruct (Re.split_at_ci p s) as [[before' after']|]; [|done].
    intros [= <- <-]. rewrite (IH before' eq_refl). simpl. lia.
Qed.

(** The scan for blocks never runs out of fuel: any amount not below
    the length of the text gives the same blocks. *)
Lemma findall_document_fuel_enough (fuel1 fuel2 : nat) (s : string) :
  String.length s ≤ fuel1 → String.length s ≤ fuel2 →
  Re.findall_document_fuel fuel1 s = Re.findall_document_fuel fuel2 s.
Proof.
  revert fuel2 s. induction fuel1 as [|fuel1 IH]; intros fuel2 s H1 H2.
  { destruct s; [|simpl in H1; lia]. by destruct fuel2. }
  destruct s as [|c s]; [by destruct fuel2|].
  destruct fuel2 as [|fuel2]; [simpl in H2; lia|].
  simpl in H1, H2. cbn [Re.findall_document_fuel].
  destruct (Re.strip_prefix_ci "<DOCUMENT>" (String c s)) as [rest|] eqn:Hopen;
    [|apply IH; lia].
  destruct (Re.split_at_ci "</DOCUMENT>" rest) as [[body after]|] eqn:Hclose;
    [|apply IH; lia].
  apply strip_prefix_ci_length in Hopen.
  apply split_at_ci_length in Hclose. simpl in Hopen, Hclose.
  f_equal. apply IH; lia.
Qed.

Lemma findall_document_fuel_total (fuel : nat) (s : string) :
  String.length s ≤ fuel →
  Re.findall_document_fuel fuel s = Re.findall_document s.
Proof. intros. by apply findall_document_fuel_enough. Qed.

Lemma scan_blocks_agree cik_no_zeros accession_nodashes blocks :
  scan_blocks_for_url cik_no_zeros accession_nodashes blocks
  = archive_url cik_no_zeros accession_nodashes
      <$> scan_blocks_for_name blocks.
Proof.
  induction blocks as [|block rest IH]; [done|].
  cbn [scan_blocks_for_url scan_blocks_for_name].
  destruct (Re.search_tag "<TYPE>" block) as [mtype|]; [|done].
  destruct (Re.search_tag "<FILENAME>" block) as [fname|]; [|done].
  by destruct (bool_decide _ && _).
Qed.

(** C6: on every bundle text the scan used by the auto-recovery and the
    scan of tier 3 agree: tier 3 returns the archive folder followed by
    the file name that the auto-recovery extracts, and one finds
    nothing exactly when the other finds nothing; the same holds for
    the text that tier 3 fetches. *)
Theorem tag_scanners_agree cik_no_zeros accession_nodashes :
  (∀ txt,
     scan_blocks_for_url cik_no_zeros accession_nodashes
       (Re.findall_document txt)
     = (λ fname, archive_folder cik_no_zeros accession_nodashes +:+ fname)
         <$> _extract_annual_html_from_sgml txt)
  ∧ (∀ txt,
       scan_blocks_for_url cik_no_zeros accession_nodashes
         (Re.findall_document txt) = None
       ↔ _extract_annual_html_from_sgml txt = None)
  ∧ (∀ st,
       (parse_submission_txt_for_annual_html server cik_no_zeros
          accession_nodashes st).1
       = (λ fname, archive_folder cik_no_zeros accession_nodashes +:+ fname)
           <$> ((get_text server
                   (archive_url cik_no_zeros accession_nodashes
                      (accession_nodashes +:+ ".txt")) st).1
                  ≫= _extract_annual_html_from_sgml)).
Proof.
  split_and!.
  - intros txt. apply scan_blocks_agree.
  - intros txt. rewrite scan_blocks_agree.
    unfold _extract_annual_html_from_sgml.
    by destruct (scan_blocks_for_name _).
  - intros st. rewrite parse_submission_txt_run. cbn [fst].
    destruct (get_text _ _ _).1 as [txt|]; [|done].
    cbn [mbind option_bind]. apply scan_blocks_agree.
Qed.

(** C4: tier 3 scans the <DOCUMENT> blocks of the fetched bundle in
    order and returns the URL of the first block whose type label is
    one of 10-K, 10-K/A, 20-F, 20-F/A and whose file name ends in an
    HTML extension; it returns nothing when no block qualifies.  With
    a first block labelled EX-10.1 and a second labelled 10-K with an
    HTML file name, the file name of the second block is returned. *)
Theorem bundle_parse_returns_first_qualifying_block
    cik_no_zeros accession_nodashes st :
  let txt :=
    (get_text server
       (archive_url cik_no_zeros accession_nodashes
          (accession_nodashes +:+ ".txt")) st).1 in
  let blocks := default [] (Re.findall_document <$> txt) in
  let result :=
    (parse_submission_txt_for_annual_html server cik_no_zeros
       accession_nodashes st).1 in
  match result with
  | Some url =>
      ∃ before block after fname,
        blocks = before ++ block :: after
        ∧ (∀ b f, b ∈ before → ¬ block_qualifies b f)
        ∧ block_qualifies block fname
        ∧ url = archive_url cik_no_zeros accession_nodashes fname
  | None => ∀ b f, b ∈ blocks → ¬ block_qualifies b f
  end
  ∧ (∀ block1 block2 fname2,
       blocks = [block1; block2] →
       Re.search_tag "<TYPE>" block1 = Some "EX-10.1" →
       Re.search_tag "<TYPE>" block2 = Some "10-K" →
       Re.search_tag "<FILENAME>" block2 = Some fname2 →
       Py.endswith_any HTML_EXTS (Py.lower fname2) = true →
       result = Some (archive_url cik_no_zeros accession_nodashes fname2)).
Proof.
  intros txt blocks result.
  assert (result
          = scan_blocks_for_url cik_no_zeros accession_nodashes blocks)
    as ->.
  { subst result blocks txt. rewrite parse_submission_txt_run. cbn [fst].
    by destruct (get_text _ _ _).1. }
  split; [apply scan_blocks_for_url_spec|].
  intros block1 block2 fname2 -> Htype1 Htype2 Hname2 Hext.
  assert (bool_decide (Py.upper "EX-10.1" ∈ ANNUAL_TYPES) = false) as Hex
    by by vm_compute.
  assert (bool_decide (Py.upper "10-K" ∈ ANNUAL_TYPES) = true) as Hannual
    by by vm_compute.
  cbn [scan_blocks_for_url]. rewrite Htype1, Htype2, Hname2.
  destruct (Re.search_tag "<FILENAME>" block1);
    cbv beta iota; by rewrite ?Hex, ?Hannual, ?Hext.
Qed.

End Bundles.

(* ===================================================================== *)
(** * The filing catalogue *)
(* ===================================================================== *)

Section StableSort.

Context {A : Type} (leb : A → A → bool).

Lemma insert_sorted_perm (x : A) (l : list A) :
  insert_sorted leb x l ≡ₚ x :: l.
Proof.
  induction l as [|y l IH]; simpl; [done|].
  destruct (leb x y); [done|]. by rewrite IH, Permutation_swap.
Qed.

Lemma stable_sort_perm (l : list A) : stable_sort leb l ≡ₚ l.
Proof.
  induction l as [|x l IH]; simpl; [done|].
  by rewrite insert_sorted_perm, IH.
Qed.

Section Order.

Hypothesis leb_total : ∀ a b, leb a b = true ∨ leb b a = true.
Hypothesis leb_trans :
  ∀ a b c, leb a b = true → leb b c = true → leb a c = true.

Lemma insert_sorted_sorted (x : A) (l : list A) :
  StronglySorted (λ a b, leb a b = true) l →
  StronglySorted (λ a b, leb a b = true) (insert_sorted leb x l).
Proof.
  induction l as [|y l IH]; simpl; intros Hl.
  { repeat constructor. }
  apply StronglySorted_cons in Hl as [Hy Hl].
  destruct (leb x y) eqn:Hxy.
  - apply StronglySorted_cons. split.
    + constructor; [done|].
      eapply Forall_impl; [exact Hy|]. intros z. by apply leb_trans.
    + by apply StronglySorted_cons.
  - apply StronglySorted_cons. split; [|by apply IH].
    rewrite insert_sorted_perm. constructor; [|done].
    destruct (leb_total x y); congruence.
Qed.

Lemma stable_sort_sorted (l : list A) :
  StronglySorted (λ a b, leb a b = true) (stable_sort leb l).
Proof.
  induction l as [|x l IH]; simpl; [constructor|].
  by apply insert_sorted_sorted.
Qed.

End Order.

Lemma StronglySorted_reverse (R : relation A) (l : list A) :
  StronglySorted R l → StronglySorted (flip R) (reverse l).
Proof.
  induction l as [|x l IH]; [intros _; constructor|].
  intros [Hx Hl]%StronglySorted_cons. rewrite reverse_cons.
  apply StronglySorted_app. split_and!.
  - intros y z Hy Hz. apply list_elem_of_singleton in Hz as ->.
    apply (elem_of_reverse y l) in Hy. unfold flip.
    rewrite Forall_forall in Hx. by apply Hx.
  - by apply IH.
  - repeat constructor.
Qed.

Section Stability.

Context (P : A → Prop) `{!∀ x, Decision (P x)}.
Hypothesis leb_within : ∀ x y, P x → P y → leb x y = true.




End Stability.

Lemma sort_reverse_perm (l : list A) : sort_reverse leb l ≡ₚ l.
Proof.
  unfold sort_reverse.
  by rewrite reverse_Permutation, stable_sort_perm, reverse_Permutation.
Qed.

End StableSort.

Section Catalogue.

Lemma date_leb_total (a b : Candidate) :
  date_leb a b = true ∨ date_leb b a = true.
Proof. apply String.leb_total. Qed.

Lemma date_leb_trans (a b c : Candidate) :
  date_leb a b = true → date_leb b c = true → date_leb a c = true.
Proof.
  unfold date_leb. intros Hab%Is_true_true Hbc%Is_true_true.
  apply Is_true_true. by trans (cand_filing_date b).
Qed.




End Catalogue.

(* ===================================================================== *)
(** * Ticker matching *)
(* ===================================================================== *)

Section Tickers.

Variable server : Server.

Lemma lower_upper_char (c : ascii) :
  Py.lower_char (Py.upper_char c) = Py.lower_char c.
Proof. by destruct c as [[] [] [] [] [] [] [] []]. Qed.

Lemma upper_lower_char (c : ascii) :
  Py.upper_char (Py.lower_char c) = Py.upper_char c.
Proof. by destruct c as [[] [] [] [] [] [] [] []]. Qed.

Lemma upper_char_dot (c : ascii) :
  Ascii.eqb (Py.upper_char c) "." = Ascii.eqb "." c.
Proof. by destruct c as [[] [] [] [] [] [] [] []]. Qed.

Lemma lower_upper (s : string) : Py.lower (Py.upper s) = Py.lower s.
Proof.
  unfold Py.lower, Py.upper.
  induction s as [|c s IH]; simpl; [done|]. by rewrite lower_upper_char, IH.
Qed.

Lemma upper_lower (s : string) : Py.upper (Py.lower s) = Py.upper s.
Proof.
  unfold Py.lower, Py.upper.
  induction s as [|c s IH]; simpl; [done|]. by rewrite upper_lower_char, IH.
Qed.

Lemma upper_eq_iff_lower_eq (a b : string) :
  Py.upper a = Py.upper b ↔ Py.lower a = Py.lower b.
Proof.
  split; intros H.
  - by rewrite <-(lower_upper a), H, lower_upper.
  - by rewrite <-(upper_lower a), H, upper_lower.
Qed.

Lemma normalize_ticker_alt (t : string) :
  normalize_ticker t = Py.upper (remove_chars (Ascii.eqb ".") t).
Proof.
  unfold normalize_ticker, Py.upper.
  induction t as [|c t IH]; [done|].
  cbn [Py.map Py.remove_char remove_chars].
  rewrite upper_char_dot, IH. by destruct (Ascii.eqb "." c).
Qed.

(** The program compares tickers up to letter case and full stops. *)
Lemma normalize_ticker_eq (a b : string) :
  normalize_ticker a = normalize_ticker b ↔ same_up_to_case_and_dots a b.
Proof.
  rewrite !normalize_ticker_alt. apply upper_eq_iff_lower_eq.
Qed.

Lemma find_company_spec (ticker : string) (table : list Company) :
  match find_company (normalize_ticker ticker) table with
  | Some (cik, name) =>
      ∃ before company after,
        table = before ++ company :: after
        ∧ (∀ c, c ∈ before →
             ¬ same_up_to_case_and_dots (company_ticker c) ticker)
        ∧ same_up_to_case_and_dots (company_ticker company) ticker
        ∧ cik = Py.zfill 10 (Py.str_of_int (company_cik_str company))
        ∧ name = company_title company
  | None =>
      ∀ c, c ∈ table → ¬ same_up_to_case_and_dots (company_ticker c) ticker
  end.
Proof.
  induction table as [|company rest IH]; cbn [find_company].
  { intros c Hc. by apply elem_of_nil in Hc. }
  destruct (String.eqb_spec (normalize_ticker (company_ticker company))
              (normalize_ticker ticker)) as [Heq|Hne].
  - exists [], company, rest. split_and!; try done.
    + intros c Hc. by apply elem_of_nil in Hc.
    + by apply normalize_ticker_eq.
  - rewrite normalize_ticker_eq in Hne.
    destruct (find_company (normalize_ticker ticker) rest) as [[cik name]|].
    + destruct IH as (before & company' & after & -> & Hbefore & ? & ? & ?).
      exists (company :: before), company', after.
      split_and!; try done.
      intros c [->|Hc]%elem_of_cons; [done|by apply Hbefore].
    + intros c [->|Hc]%elem_of_cons; [done|by apply IH].
Qed.

(** C8 (as amended): ticker matching is an exact match up to letter
    case and full stops: two tickers that differ only in letter case
    and in "." characters resolve to the same result, and a result is
    the identifier (zero-filled to ten digits) and name of the first
    entry of the table whose ticker equals the given one up to letter
    case and full stops; "BRK.B" and "brkb" are such a pair. *)
Theorem ticker_match_ignores_case_and_dots (st : State) :
  (∀ t1 t2,
     same_up_to_case_and_dots t1 t2 →
     get_cik_from_ticker server t1 st = get_cik_from_ticker server t2 st)
  ∧ (∀ ticker cik name,
       (get_cik_from_ticker server ticker st).1 = Some (cik, name) →
       ∃ table before company after,
         (get_json server "https://www.sec.gov/files/company_tickers.json"
            st).1 = Some (JTickers table)
         ∧ table = before ++ company :: after
         ∧ (∀ c, c ∈ before →
              ¬ same_up_to_case_and_dots (company_ticker c) ticker)
         ∧ same_up_to_case_and_dots (company_ticker company) ticker
         ∧ cik = Py.zfill 10 (Py.str_of_int (company_cik_str company))
         ∧ name = company_title company)
  ∧ same_up_to_case_and_dots "BRK.B" "brkb".
Proof.
  split_and!; [| |done].
  - intros t1 t2 Hsame%normalize_ticker_eq.
    by rewrite !get_cik_from_ticker_run, Hsame.
  - intros ticker cik name. rewrite get_cik_from_ticker_run. cbn [fst].
    destruct (get_json _ _ _).1 as [[table| | |]|]; try done.
    intros Hfind. pose proof (find_company_spec ticker table) as Hspec.
    rewrite Hfind in Hspec.
    destruct Hspec as (before & company & after & ?). by exists table, before, company, after.
Qed.

End Tickers.

(* ===================================================================== *)
(** * The exhibit fetcher *)
(* ===================================================================== *)

Section Exhibits.

Variable server : Server.
Variable host : Host.

(** Making directories leaves the log and the files alone and removes
    no directory. *)
Lemma mkdir_each_frame paths :
  ∀ st,
    log (mkdir_each host paths st).2 = log st
    ∧ fs (mkdir_each host paths st).2 = fs st
    ∧ dirs st ⊆ dirs (mkdir_each host paths st).2.
Proof.
  induction paths as [|p rest IH]; intros st; [done|].
  cbn [mkdir_each].
  destruct (is_dir st p); [apply IH|].
  destruct (is_file st p || host (log st) (MakeDir p)); [done|].
  destruct (IH {| log := log st; fs := fs st; dirs := {[p]} ∪ dirs st |})
    as (Hlog & Hfs & Hdirs).
  split_and!; [done|done|]. cbn [dirs] in Hdirs.
  etrans; [|exact Hdirs]. apply union_subseteq_r.
Qed.

Lemma path_mkdir_frame path st :
  log (path_mkdir host path st).2 = log st
  ∧ fs (path_mkdir host path st).2 = fs st
  ∧ dirs st ⊆ dirs (path_mkdir host path st).2.
Proof.
  unfold path_mkdir. destruct (has_nul path); [done|]. apply mkdir_each_frame.
Qed.

Lemma index_rows_run cik_no_zeros accession_nodashes dest_dir items st :
  index_rows host cik_no_zeros accession_nodashes dest_dir items st
  = (if stats_answer host dest_dir st items
     then Some (index_row cik_no_zeros accession_nodashes dest_dir
                  (exists_in host st) <$> items)
     else None,
     st).
Proof.
  induction items as [|it rest IH]; [done|].
  cbn [index_rows stats_answer forallb]. unfold_M. unfold path_exists.
  fold (stats_answer host dest_dir st rest).
  destruct (stat host st (path_join dest_dir (item_get_name it)))
    as [local_exists|] eqn:Hstat; [|done].
  rewrite bool_decide_eq_true_2 by (by eexists). cbn [andb].
  rewrite IH. destruct (stats_answer host dest_dir st rest); [|done].
  rewrite fmap_cons. cbn [fmap option_fmap option_map].
  unfold index_row at 2, exists_in at 2. by rewrite Hstat.
Qed.

(** What the index builder leaves: the page, when none of its file
    operations raises, and otherwise the folder as it was, but for the
    directories that were made. *)
Lemma _write_clickable_index_run cik_no_zeros accession_nodashes items
    dest_dir st :
  _write_clickable_index_from_items host cik_no_zeros accession_nodashes
    items dest_dir st
  = (tt,
     if stats_answer host dest_dir st items then
       let made := path_mkdir host dest_dir st in
       if made.1 then
         (path_write host (path_join dest_dir INDEX_FILENAME)
            (index_page cik_no_zeros accession_nodashes dest_dir
               (exists_in host st) items) made.2).2
       else made.2
     else st).
Proof.
  unfold _write_clickable_index_from_items. unfold_M.
  rewrite index_rows_run.
  destruct (stats_answer host dest_dir st items); [|done].
  cbv zeta. destruct (path_mkdir host dest_dir st) as [[] st1]; [|done].
  cbn [fst snd]. unfold index_page.
  by destruct (path_write _ _ _ _).
Qed.

Lemma _write_clickable_index_frame cik_no_zeros accession_nodashes items
    dest_dir st :
  let st' :=
    (_write_clickable_index_from_items host cik_no_zeros accession_nodashes
       items dest_dir st).2 in
  log st' = log st
  ∧ (∀ path, path ≠ path_join dest_dir INDEX_FILENAME →
       fs st' !! path = fs st !! path)
  ∧ dirs st ⊆ dirs st'.
Proof.
  cbv zeta. rewrite _write_clickable_index_run. cbn [snd].
  destruct (stats_answer host dest_dir st items); [|done].
  cbv zeta. destruct (path_mkdir_frame dest_dir st) as (Hlog & Hfs & Hdirs).
  destruct (path_mkdir host dest_dir st) as [[] st1]; cbn [fst snd] in *;
    [|by rewrite Hfs].
  unfold path_write. destruct (can_write host st1 _); cbn [snd log fs dirs].
  - split_and!; [done| |done]. intros path Hpath.
    by rewrite lookup_insert_ne, Hfs.
  - by rewrite Hfs.
Qed.


Lemma _download_exhibits_with_run cik_no_zeros accession_nodashes dest_dir
    include_exts st :
  let listing := _index_json_items server cik_no_zeros accession_nodashes st in
  let downloads :=
    download_items server host cik_no_zeros accession_nodashes dest_dir
      include_exts listing.1 0 listing.2 in
  _download_exhibits_with server host cik_no_zeros accession_nodashes dest_dir
    include_exts st
  = match downloads.1 with
    | Some n =>
        (Some n,
         (_write_clickable_index_from_items host cik_no_zeros
            accession_nodashes listing.1 dest_dir downloads.2).2)
    | None => (None, downloads.2)
    end.
Proof.
  intros listing downloads. subst downloads listing.
  unfold _download_exhibits_with. unfold_M.
  destruct (_index_json_items _ _ _ _) as [items st1]. cbn [fst snd].
  destruct (download_items _ _ _ _ _ _ _ _ _) as [[n|] st2]; [|done].
  cbn [fst snd].
  by destruct (_write_clickable_index_from_items _ _ _ _ _ _) as [[] st3].
Qed.

Lemma _index_json_items_fs cik_no_zeros accession_nodashes st :
  fs (_index_json_items server cik_no_zeros accession_nodashes st).2 = fs st.
Proof.
  rewrite _index_json_items_run. cbn [snd].
  destruct (get_json_with_requests server
              (archive_url cik_no_zeros accession_nodashes "index.json")
              3 1000 st) as (_ & _ & _ & _ & _ & Hfs); [lia|done].
Qed.


End Exhibits.

Lemma tiers_in_strict_order_witness :
  looks_like_annual_html "aapl-20230930_10-K.htm" = true
  ∧ pick_best_annual_html (constant_server NetworkError) "320193"
      "000032019323000106" (Some "aapl-20230930_10-K.htm") initial_state
    = (Some "https://www.sec.gov/Archives/edgar/data/320193/000032019323000106/aapl-20230930_10-K.htm",
       initial_state).
Proof.
  split; [reflexivity|].
  apply (proj1 (proj2 (tiers_in_strict_order (constant_server NetworkError)
                         "320193" "000032019323000106"
                         (Some "aapl-20230930_10-K.htm") initial_state)));
    reflexivity.
Defined.

(** C9 fails as worded: the directory-listing fetch is retried.  Against
    a server that answers 503 once, the listing fetch sends a second
    request after a pause of one second and returns the listing. *)
Lemma listing_fetch_is_retried :
  let url :=
    "https://www.sec.gov/Archives/edgar/data/320193/000032019323000106/index.json" in
  let items := [ {| item_name := Some "aapl-20230930_10-K.htm" |} ] in
  let server :=
    flaky_server 1 (Response 200 EmptyString (JListing items)) in
  is_transient_status 503 = true
  ∧ _index_json_items server "320193" "000032019323000106" initial_state
    = (items,
       {| log := [Request url; Sleep 1000; Request url]; fs := ∅; dirs := ∅ |}).
Proof. split; reflexivity. Qed.

Lemma retry_for_json_fetches_only_witness :
  is_error (constant_server (Response 503 EmptyString JInvalid) []
              "https://www.sec.gov/Archives/edgar/data/320193/000032019323000106/a.htm")
  = true
  ∧ download_html (constant_server (Response 503 EmptyString JInvalid))
      quiet_host
      "https://www.sec.gov/Archives/edgar/data/320193/000032019323000106/a.htm"
      "out/a.html" initial_state
    = (false,
       {| log := [Request "https://www.sec.gov/Archives/edgar/data/320193/000032019323000106/a.htm"];
          fs := ∅; dirs := ∅ |}).
Proof.
  split; [reflexivity|].
  apply (retry_for_json_fetches_only
           (constant_server (Response 503 EmptyString JInvalid)) quiet_host
           initial_state).
  reflexivity.
Defined.

(** C10 fails as worded for the declared-name tier: the extension is
    tested on the lowercased name and the URL keeps the name as given,
    so the URL need not end in ".htm" or ".html" as written. *)
Lemma declared_name_keeps_its_case :
  let url :=
    "https://www.sec.gov/Archives/edgar/data/320193/000032019323000106/FORM10-K.HTM" in
  pick_best_annual_html (constant_server NetworkError) "320193"
    "000032019323000106" (Some "FORM10-K.HTM") initial_state
  = (Some url, initial_state)
  ∧ last_component url = "FORM10-K.HTM"
  ∧ Py.endswith_any HTML_EXTS (last_component url) = false.
Proof. split_and!; reflexivity. Qed.

Lemma resolved_url_in_folder_with_html_extension_witness :
  let server :=
    constant_server
      (Response 200 EmptyString
         (JListing [ {| item_name := Some "index.html" |};
                     {| item_name := Some "Form10-K_2023.HTM" |} ])) in
  let url :=
    "https://www.sec.gov/Archives/edgar/data/320193/000032019323000106/Form10-K_2023.HTM" in
  (pick_best_annual_html server "320193" "000032019323000106" None
     initial_state).1 = Some url
  ∧ Py.endswith_any HTML_EXTS (Py.lower (last_component url)) = true.
Proof.
  intros server url.
  assert ((pick_best_annual_html server "320193" "000032019323000106" None
             initial_state).1 = Some url) as Hurl by reflexivity.
  split; [done|].
  destruct (proj1 (resolved_url_in_folder_with_html_extension server)
              _ _ _ _ _ Hurl) as (name & _ & _ & Hext).
  exact Hext.
Defined.

Example search_tag_examples :
  Re.search_tag "<TYPE>" "<type>10-K/A
<SEQUENCE>1" = Some "10-K/A"
  ∧ Re.search_tag "<TYPE>" "<TYPE>  <TEXT><TYPE>	20-F<" = Some "20-F"
  ∧ Re.search_tag "<FILENAME>" "<TYPE>10-K <FILENAME>" = None.
Proof. split_and!; reflexivity. Qed.

Example search_ex_examples :
  Re.search_ex "ex-10_1.htm" = true
  ∧ Re.search_ex "a10k-ex 3.htm" = true
  ∧ Re.search_ex "annex1.htm" = false
  ∧ Re.search_ex "form10-k_ex1.htm" = false
  ∧ Re.search_ex "index.html" = false.
Proof. split_and!; reflexivity. Qed.

Example search_edgar_path_examples :
  Re.search_edgar_path
    "https://www.sec.gov/Archives/edgar/data/320193/000032019323000106/a.htm"
  = Some ("320193", "000032019323000106")
  ∧ Re.search_edgar_path
      "https://www.sec.gov/Archives/edgar/data/320193/0000320193-23-000106/a.htm"
    = None.
Proof. split_and!; reflexivity. Qed.

Example findall_document_example :
  Re.findall_document
    "<SEC-DOCUMENT>x.txt <document><TYPE>EX-10.1 </DOCUMENT> between <DOCUMENT><type> 10-K<FILENAME>a.htm</Document><DOCUMENT>open"
  = ["<TYPE>EX-10.1 "; "<type> 10-K<FILENAME>a.htm"].
Proof. reflexivity. Qed.

Lemma bundle_parse_returns_first_qualifying_block_witness :
  let server := constant_server (Response 200 example_bundle JInvalid) in
  length (Re.findall_document example_bundle) = 2
  ∧ (parse_submission_txt_for_annual_html server "320193"
       "000032019323000106" initial_state).1
    = Some "https://www.sec.gov/Archives/edgar/data/320193/000032019323000106/aapl-10k.htm".
Proof.
  intros server. split; [reflexivity|].
  destruct (Re.findall_document example_bundle)
    as [|block1 [|block2 [|]]] eqn:Hblocks; try discriminate.
  apply (proj2 (bundle_parse_returns_first_qualifying_block server "320193"
                  "000032019323000106" initial_state)
           block1 block2 "aapl-10k.htm").
  - exact Hblocks.
  - vm_compute in Hblocks. by injection Hblocks as <- _.
  - vm_compute in Hblocks. by injection Hblocks as _ <-.
  - vm_compute in Hblocks. by injection Hblocks as _ <-.
  - reflexivity.
Defined.

(** The listing offers the cover page and an exhibit: the exhibit wins
    the listing tier. *)
Example resolver_takes_best_of_listing :
  pick_best_annual_html example_archive "320193" "000032019323000106"
    (Some "report.htm") initial_state
  = (Some "https://www.sec.gov/Archives/edgar/data/320193/000032019323000106/ex10-1.htm",
     {| log := [Request "https://www.sec.gov/Archives/edgar/data/320193/000032019323000106/index.json"];
        fs := ∅; dirs := ∅ |}).
Proof. reflexivity. Qed.

(** Without a listing the bundle is parsed. *)
Example resolver_falls_back_to_bundle :
  let server :=
    routing_server
      [ ("https://www.sec.gov/Archives/edgar/data/320193/000032019323000106/000032019323000106.txt",
         Response 200 example_bundle JInvalid) ] in
  let run := pick_best_annual_html server "320193" "000032019323000106"
               (Some "report.htm") initial_state in
  run.1
  = Some "https://www.sec.gov/Archives/edgar/data/320193/000032019323000106/aapl-10k.htm"
  ∧ requests_of (log run.2)
    = [ "https://www.sec.gov/Archives/edgar/data/320193/000032019323000106/index.json";
        "https://www.sec.gov/Archives/edgar/data/320193/000032019323000106/index.json";
        "https://www.sec.gov/Archives/edgar/data/320193/000032019323000106/index.json";
        "https://www.sec.gov/Archives/edgar/data/320193/000032019323000106/000032019323000106.txt" ]
  ∧ sleeps_of (log run.2) = [1000; 2000]%Z.
Proof. split_and!; reflexivity. Qed.

(** A document fetch that meets the bundle saves it, fetches the
    exhibits, and fetches the report named in the bundle. *)
Example download_html_recovers_from_bundle :
  let run :=
    download_html example_archive quiet_host
      "https://www.sec.gov/Archives/edgar/data/320193/000032019323000106/000032019323000106.txt"
      "out/10-K.html" empty_folder in
  run.1 = true
  ∧ requests_of (log run.2)
    = [ "https://www.sec.gov/Archives/edgar/data/320193/000032019323000106/000032019323000106.txt";
        "https://www.sec.gov/Archives/edgar/data/320193/000032019323000106/index.json";
        "https://www.sec.gov/Archives/edgar/data/320193/000032019323000106/index.html";
        "https://www.sec.gov/Archives/edgar/data/320193/000032019323000106/ex10-1.htm";
        "https://www.sec.gov/Archives/edgar/data/320193/000032019323000106/aapl-10k.htm" ]
  ∧ fs run.2 !! "out/10-K.html" = Some "<html>annual report</html>"
  ∧ fs run.2 !! "out/000032019323000106.txt" = Some example_bundle
  ∧ fs run.2 !! "out/ex10-1.htm" = Some "<html>exhibit</html>"
  ∧ is_Some (fs run.2 !! "out/filing_index.html").
Proof. split_and!; try by vm_compute. vm_compute. by eexists. Qed.

Example python_builtins :
  Py.int_of_str " 0000320193 " = Some 320193%Z
  ∧ Py.int_of_str "1_000" = Some 1000%Z
  ∧ Py.int_of_str "1__0" = None
  ∧ Py.int_of_str EmptyString = None
  ∧ Py.str_of_int 320193 = "320193"
  ∧ Py.zfill 10 "320193" = "0000320193"
  ∧ Py.zfill 3 "-5" = "-05".
Proof. split_and!; reflexivity. Qed.


Example example_feed_candidates :
  (λ cs : list Candidate, cand_accession <$> cs)
    <$> recent_candidates example_feed 5 true true
  = Some ["a-1"; "a-4"; "a-3"; "a-6"; "a-8"].
Proof. by vm_compute. Qed.


(** C8 fails as worded: only full stops are removed before comparing.
    "BRK-B" and "brkb" differ only in letter case and punctuation, yet
    against a table that lists "BRK-B" the first resolves and the second
    does not. *)
Lemma hyphenated_ticker_not_matched :
  let server :=
    constant_server (Response 200 EmptyString (JTickers example_table)) in
  same_up_to_case_and_punctuation "BRK-B" "brkb"
  ∧ (get_cik_from_ticker server "BRK-B" initial_state).1
    = Some ("0001067983", "BERKSHIRE HATHAWAY INC")
  ∧ (get_cik_from_ticker server "brkb" initial_state).1 = None.
Proof. split_and!; reflexivity. Qed.

Lemma ticker_match_ignores_case_and_dots_witness :
  let server :=
    constant_server
      (Response 200 EmptyString
         (JTickers [ {| company_ticker := "BRK.B"; company_cik_str := 1067983;
                        company_title := "BERKSHIRE HATHAWAY INC" |} ])) in
  same_up_to_case_and_dots "BRK.B" "brkb"
  ∧ (get_cik_from_ticker server "BRK.B" initial_state).1
    = Some ("0001067983", "BERKSHIRE HATHAWAY INC")
  ∧ (get_cik_from_ticker server "brkb" initial_state).1
    = Some ("0001067983", "BERKSHIRE HATHAWAY INC").
Proof.
  intros server. split_and!; [reflexivity|reflexivity|].
  rewrite <-(proj1 (ticker_match_ignores_case_and_dots server initial_state)
               "BRK.B" "brkb"); reflexivity.
Defined.



Lemma token_names_outrank_index_html_witness :
  let items := [ {| item_name := Some "index.html" |};
                 {| item_name := Some "form10-k_2023.htm" |};
                 {| item_name := Some "ex-10_1.htm" |} ] in
  (score "index.html" < score "form10-k_2023.htm")%Z
  ∧ pick_html_from_items items = Some "form10-k_2023.htm".
Proof.
  intros items.
  destruct (token_names_outrank_index_html (constant_server NetworkError)
              items "form10-k_2023.htm")
    as [Hrank (best & Hpick & _)].
  - vm_compute. set_solver.
  - reflexivity.
  - split; [by apply Hrank|]. reflexivity.
Defined.

(* ===================================================================== *)
(** * More on the retrying fetch *)
(* ===================================================================== *)

Section Retrying.

Variable server : Server.

Lemma get_json_loop_all_transient url max_retries backoff todo :
  (∀ l, is_transient_reply (server l url) = true) →
  ∀ attempt st,
    get_json_loop server url max_retries backoff attempt todo st
    = (None, {| log := log st ++ retry_trace url backoff attempt todo;
                fs := fs st; dirs := dirs st |}).
Proof.
  intros Hall. induction todo as [|todo IH]; intros attempt st.
  { cbn [get_json_loop]. unfold mret, M_ret.
    rewrite retry_trace_0, (right_id_L [] (++)). by destruct st. }
  rewrite get_json_loop_unfold. cbv zeta.
  specialize (Hall (log st)).
  destruct (server (log st) url) as [|status text json]; [done|].
  simpl in Hall. rewrite Hall, IH. cbn [log fs].
  by rewrite log_retry_trace_S.
Qed.

Lemma log_retry_trace_S_app (l tail : list Event) url backoff attempt j :
  ((l ++ [Request url]) ++ [Sleep (backoff * Z.of_nat attempt)])
    ++ retry_trace url backoff (S attempt) j ++ tail
  = l ++ retry_trace url backoff attempt (S j) ++ tail.
Proof.
  by rewrite (assoc_L (++) _ (retry_trace _ _ _ _) tail),
    <-log_retry_trace_S, <-(assoc_L (++)).
Qed.

Lemma get_json_loop_all_raising url max_retries backoff todo :
  (∀ l, is_raising_reply (server l url) = true) →
  ∀ attempt st,
    attempt + S todo = S max_retries →
    get_json_loop server url max_retries backoff attempt (S todo) st
    = (None, {| log := log st ++ retry_trace url backoff attempt todo
                         ++ [Request url];
                fs := fs st; dirs := dirs st |}).
Proof.
  intros Hall. induction todo as [|todo IH]; intros attempt st Hinv.
  - rewrite get_json_loop_unfold. cbv zeta.
    assert ((attempt =? max_retries) = true) as Hlast
      by (apply Nat.eqb_eq; lia).
    rewrite Hlast, retry_trace_0. specialize (Hall (log st)).
    unfold is_raising_reply in Hall.
    destruct (server (log st) url) as [|status text json]; [done|].
    simpl in Hall. destruct (is_transient_status status); [done|].
    destruct (raises_for_status status); [done|]. by destruct json.
  - rewrite get_json_loop_unfold. cbv zeta.
    assert ((attempt =? max_retries) = false) as Hmore
      by (apply Nat.eqb_neq; lia).
    rewrite Hmore, IH by lia. cbn [log fs].
    rewrite log_retry_trace_S_app.
    specialize (Hall (log st)). unfold is_raising_reply in Hall.
    destruct (server (log st) url) as [|status text json]; [done|].
    simpl in Hall. destruct (is_transient_status status); [done|].
    destruct (raises_for_status status); [done|]. by destruct json.
Qed.

(** The pause after the last attempt: there is one when the last reply
    has status 429 or 5xx, none when it raises. *)
Lemma get_json_loop_all_failing url max_retries backoff todo :
  ∀ attempt st,
    attempt + S todo = S max_retries →
    (∀ i, i ≤ todo →
       is_failure (server (log st ++ retry_trace url backoff attempt i) url)
       = true) →
    get_json_loop server url max_retries backoff attempt (S todo) st
    = (None,
       {| log := log st ++ retry_trace url backoff attempt todo
                   ++ [Request url]
                   ++ (if is_transient_reply
                            (server (log st
                                       ++ retry_trace url backoff attempt todo)
                               url)
                       then [Sleep (backoff * Z.of_nat max_retries)]
                       else []);
          fs := fs st; dirs := dirs st |}).
Proof.
  induction todo as [|todo IH]; intros attempt st Hinv Hfail.
  - rewrite get_json_loop_unfold. cbv zeta.
    assert (attempt = max_retries) as -> by lia.
    pose proof (Hfail 0 ltac:(lia)) as Hfirst.
    rewrite Nat.eqb_refl, !retry_trace_0, (right_id_L [] (++)).
    rewrite retry_trace_0, (right_id_L [] (++)) in Hfirst.
    destruct (server (log st) url) as [|status text json]; [done|].
    cbn [is_failure is_transient_reply] in *.
    destruct (is_transient_status status).
    { cbn [get_json_loop]. unfold mret, M_ret.
      by rewrite <-(assoc_L (++)). }
    destruct (raises_for_status status); [done|]. by destruct json.
  - rewrite get_json_loop_unfold. cbv zeta.
    assert ((attempt =? max_retries) = false) as Hmore
      by (apply Nat.eqb_neq; lia).
    rewrite Hmore.
    rewrite (IH (S attempt)
               {| log := (log st ++ [Request url])
                           ++ [Sleep (backoff * Z.of_nat attempt)];
                  fs := fs st; dirs := dirs st |}); [|lia|].
    + cbn [log fs dirs]. rewrite <-log_retry_trace_S.
      rewrite log_retry_trace_S_app.
      pose proof (Hfail 0 ltac:(lia)) as Hfirst.
      rewrite log_retry_trace_0 in Hfirst.
      destruct (server (log st) url) as [|status' text' json']; [done|].
      simpl in Hfirst. destruct (is_transient_status status'); [done|].
      destruct (raises_for_status status'); [done|]. by destruct json'.
    + intros i Hi. cbn [log]. rewrite <-log_retry_trace_S. apply Hfail. lia.
Qed.

(** X1: a JSON fetch that gets no acceptable reply returns nothing
    after exactly [max_retries] requests and changes no file, whatever
    mix of failures it meets: it pauses [backoff] times the number of
    the attempt after each request but the last, and after the last one
    only when its reply has status 429 or 5xx.  So when every reply has
    status 429 or 5xx it pauses after each request, the last one
    included, and when every reply raises (transport error, another
    4xx, undecodable body) it pauses between the requests only. *)
Theorem get_json_exhausts_its_attempts url max_retries backoff st :
  (∀ n,
     max_retries = S n →
     (∀ i, i ≤ n →
        is_failure (server (log st ++ retry_trace url backoff 1 i) url)
        = true) →
     get_json_with server url max_retries backoff st
     = (None,
        {| log := log st ++ retry_trace url backoff 1 n ++ [Request url]
                    ++ (if is_transient_reply
                             (server (log st ++ retry_trace url backoff 1 n)
                                url)
                        then [Sleep (backoff * Z.of_nat max_retries)]
                        else []);
           fs := fs st; dirs := dirs st |}))
  ∧ ((∀ l, is_transient_reply (server l url) = true) →
     get_json_with server url max_retries backoff st
     = (None, {| log := log st ++ retry_trace url backoff 1 max_retries;
                 fs := fs st; dirs := dirs st |}))
  ∧ ((∀ l, is_raising_reply (server l url) = true) →
     0 < max_retries →
     get_json_with server url max_retries backoff st
     = (None, {| log := log st
                          ++ retry_trace url backoff 1 (max_retries - 1)
                          ++ [Request url];
                 fs := fs st; dirs := dirs st |})).
Proof.
  split_and!.
  - intros n -> Hfail. unfold get_json_with.
    by apply get_json_loop_all_failing.
  - intros Hall. by apply get_json_loop_all_transient.
  - intros Hall Hpos. unfold get_json_with.
    destruct max_retries as [|n]; [lia|].
    rewrite get_json_loop_all_raising by (done || lia).
    by rewrite Nat.sub_1_r.
Qed.

Lemma get_json_loop_first_good url max_retries backoff status text json k :
  is_failure (Response status text json) = false →
  ∀ attempt todo st,
    attempt + todo = S max_retries →
    k < todo →
    (∀ i, i < k →
       is_failure (server (log st ++ retry_trace url backoff attempt i) url)
       = true) →
    server (log st ++ retry_trace url backoff attempt k) url
    = Response status text json →
    get_json_loop server url max_retries backoff attempt todo st
    = (Some json,
       {| log := log st ++ retry_trace url backoff attempt k ++ [Request url];
          fs := fs st; dirs := dirs st |}).
Proof.
  intros Hgood. simpl in Hgood.
  apply orb_false_elim in Hgood as [Hgood Hjson].
  apply orb_false_elim in Hgood as [Htrans Hraise].
  induction k as [|k IH]; intros attempt todo st Hinv Hk Hfail Hreply.
  - destruct todo as [|todo]; [lia|].
    rewrite get_json_loop_unfold. cbv zeta.
    rewrite retry_trace_0, (right_id_L [] (++)) in Hreply.
    rewrite Hreply, Htrans, Hraise, retry_trace_0. by destruct json.
  - destruct todo as [|todo]; [lia|].
    rewrite get_json_loop_unfold. cbv zeta.
    assert ((attempt =? max_retries) = false) as Hmore
      by (apply Nat.eqb_neq; lia).
    rewrite Hmore.
    rewrite (IH (S attempt) todo
               {| log := (log st ++ [Request url])
                           ++ [Sleep (backoff * Z.of_nat attempt)];
                  fs := fs st; dirs := dirs st |}); [|lia|lia| |].
    + cbn [log fs]. rewrite log_retry_trace_S_app.
      pose proof (Hfail 0 ltac:(lia)) as Hfirst.
      rewrite retry_trace_0, (right_id_L [] (++)) in Hfirst.
      destruct (server (log st) url) as [|status' text' json']; [done|].
      simpl in Hfirst. destruct (is_transient_status status'); [done|].
      destruct (raises_for_status status'); [done|]. by destruct json'.
    + intros i Hi. cbn [log]. rewrite <-log_retry_trace_S. apply Hfail. lia.
    + cbn [log]. by rewrite <-log_retry_trace_S.
Qed.

(** X2: a JSON fetch returns the first acceptable reply.  If the first
    [k] replies fail, with [k] below the cap, and the next one is
    acceptable, the fetch returns its JSON after exactly [k + 1]
    requests, having paused [backoff], twice [backoff], ... between
    them; it changes no file. *)
Theorem get_json_returns_first_good_reply
    url max_retries backoff st k status text json :
  k < max_retries →
  (∀ i, i < k →
     is_failure (server (log st ++ retry_trace url backoff 1 i) url) = true) →
  server (log st ++ retry_trace url backoff 1 k) url
  = Response status text json →
  is_failure (Response status text json) = false →
  get_json_with server url max_retries backoff st
  = (Some json,
     {| log := log st ++ retry_trace url backoff 1 k ++ [Request url];
        fs := fs st; dirs := dirs st |}).
Proof.
  intros Hk Hfail Hreply Hgood.
  by apply (get_json_loop_first_good url max_retries backoff status text).
Qed.

End Retrying.

Lemma get_json_exhausts_its_attempts_witness :
  get_json_with
    (flaky_server 1 (Response 404 EmptyString JInvalid))
    "https://www.sec.gov/files/company_tickers.json" 3 1000 initial_state
  = (None,
     {| log := [Request "https://www.sec.gov/files/company_tickers.json";
                Sleep 1000;
                Request "https://www.sec.gov/files/company_tickers.json";
                Sleep 2000;
                Request "https://www.sec.gov/files/company_tickers.json"];
        fs := ∅; dirs := ∅ |})
  ∧ get_json_with (constant_server (Response 503 EmptyString JInvalid))
      "https://www.sec.gov/files/company_tickers.json" 3 1000 initial_state
    = (None,
       {| log := [Request "https://www.sec.gov/files/company_tickers.json";
                  Sleep 1000;
                  Request "https://www.sec.gov/files/company_tickers.json";
                  Sleep 2000;
                  Request "https://www.sec.gov/files/company_tickers.json";
                  Sleep 3000];
          fs := ∅; dirs := ∅ |})
  ∧ get_json_with (constant_server (Response 404 EmptyString JInvalid))
      "https://www.sec.gov/files/company_tickers.json" 3 1000 initial_state
    = (None,
       {| log := [Request "https://www.sec.gov/files/company_tickers.json";
                  Sleep 1000;
                  Request "https://www.sec.gov/files/company_tickers.json";
                  Sleep 2000;
                  Request "https://www.sec.gov/files/company_tickers.json"];
          fs := ∅; dirs := ∅ |}).
Proof.
  split_and!.
  - apply (proj1 (get_json_exhausts_its_attempts
                    (flaky_server 1 (Response 404 EmptyString JInvalid))
                    "https://www.sec.gov/files/company_tickers.json"
                    3 1000 initial_state) 2 eq_refl).
    intros [|[|[|i]]] Hi; [reflexivity..|lia].
  - apply (proj1 (proj2 (get_json_exhausts_its_attempts
                    (constant_server (Response 503 EmptyString JInvalid))
                    "https://www.sec.gov/files/company_tickers.json"
                    3 1000 initial_state))).
    intros l. reflexivity.
  - apply (proj2 (proj2 (get_json_exhausts_its_attempts
                    (constant_server (Response 404 EmptyString JInvalid))
                    "https://www.sec.gov/files/company_tickers.json"
                    3 1000 initial_state))).
    + intros l. reflexivity.
    + lia.
Defined.

Lemma get_json_returns_first_good_reply_witness :
  get_json_with
    (flaky_server 2 (Response 200 EmptyString (JTickers example_table)))
    "https://www.sec.gov/files/company_tickers.json" 3 1000 initial_state
  = (Some (JTickers example_table),
     {| log := [Request "https://www.sec.gov/files/company_tickers.json";
                Sleep 1000;
                Request "https://www.sec.gov/files/company_tickers.json";
                Sleep 2000;
                Request "https://www.sec.gov/files/company_tickers.json"];
        fs := ∅; dirs := ∅ |}).
Proof.
  apply (get_json_returns_first_good_reply
           (flaky_server 2 (Response 200 EmptyString (JTickers example_table)))
           "https://www.sec.gov/files/company_tickers.json" 3 1000
           initial_state 2 200 EmptyString (JTickers example_table)).
  - lia.
  - intros [|[|i]] Hi; [reflexivity|reflexivity|lia].
  - reflexivity.
  - reflexivity.
Defined.

(* ===================================================================== *)
(** * Batch conversion of tickers *)
(* ===================================================================== *)

Section Dict.

Context {V : Type}.
Implicit Types (d : list (string * V)) (k : string) (v : V).

Lemma dict_get_set k v d : dict_get k (dict_set k v d) = Some v.
Proof.
  induction d as [|[k' v'] d IH]; simpl.
  - by rewrite String.eqb_refl.
  - destruct (String.eqb_spec k' k) as [->|Hne]; simpl.
    + by rewrite String.eqb_refl.
    + by destruct (String.eqb_spec k' k).
Qed.

Lemma dict_get_set_ne k k' v d :
  k' ≠ k → dict_get k' (dict_set k v d) = dict_get k' d.
Proof.
  intros Hne. induction d as [|[k0 v0] d IH]; simpl.
  - by destruct (String.eqb_spec k k').
  - destruct (String.eqb_spec k0 k) as [->|Hne0]; simpl.
    + destruct (String.eqb_spec k k'); [congruence|done].
    + by rewrite IH.
Qed.

Lemma dict_get_is_Some k d : is_Some (dict_get k d) ↔ k ∈ d.*1.
Proof.
  induction d as [|[k0 v0] d IH]; csimpl.
  - split; [by intros [? ?]|by intros ?%elem_of_nil].
  - rewrite elem_of_cons. destruct (String.eqb_spec k0 k) as [->|Hne].
    + split; [by left|by eexists].
    + rewrite IH. split; [by right|]. by intros [?|?].
Qed.

Lemma dict_set_keys k v d :
  (dict_set k v d).*1 = if bool_decide (k ∈ d.*1) then d.*1 else d.*1 ++ [k].
Proof.
  induction d as [|[k0 v0] d IH]; csimpl; [done|].
  destruct (String.eqb_spec k0 k) as [->|Hne]; csimpl.
  - rewrite bool_decide_eq_true_2; [done|by left].
  - rewrite IH. case_bool_decide as Hin.
    + rewrite bool_decide_eq_true_2; [done|by right].
    + rewrite bool_decide_eq_false_2; [done|].
      intros [?|?]%elem_of_cons; congruence.
Qed.

Lemma dict_set_NoDup k v d : NoDup d.*1 → NoDup (dict_set k v d).*1.
Proof.
  intros Hd. rewrite dict_set_keys. case_bool_decide as Hin; [done|].
  apply NoDup_app. split_and!; [done| |apply NoDup_singleton].
  intros x Hx ->%list_elem_of_singleton. done.
Qed.

Lemma dict_set_length k v d :
  length (dict_set k v d)
  = if bool_decide (k ∈ d.*1) then length d else S (length d).
Proof.
  rewrite <-(length_fmap fst (dict_set k v d)), dict_set_keys.
  case_bool_decide; rewrite ?length_app, length_fmap; simpl; lia.
Qed.

End Dict.

Section Batch.

Variable server : Server.

Lemma convert_loop_run table delay ticker_list :
  ∀ ticker_info failed_tickers st,
    convert_loop (Some table) delay ticker_list ticker_info
      failed_tickers st
    = (Some (foldl (record_ticker table) ticker_info ticker_list,
             failed_tickers
               ++ filter (λ t, find_company (normalize_ticker t) table = None)
                    ticker_list),
       {| log := log st ++ replicate (length ticker_list) (Sleep delay);
          fs := fs st; dirs := dirs st |}).
Proof.
  induction ticker_list as [|ticker rest IH];
    intros ticker_info failed_tickers st.
  { cbn. rewrite !(right_id_L [] (++)). by destruct st. }
  cbn [convert_loop foldl length replicate]. rewrite filter_cons.
  unfold record_ticker at 2.
  destruct (find_company (normalize_ticker ticker) table) as [info|] eqn:Hfind;
    unfold_M; unfold time_sleep; rewrite IH; cbn [log fs].
  - rewrite decide_False by done.
    by rewrite <-(assoc_L (++)).
  - rewrite decide_True by done.
    by rewrite <-!(assoc_L (++)).
Qed.

Lemma record_tickers_get table ticker_list :
  ∀ ticker_info t,
    dict_get t (foldl (record_ticker table) ticker_info ticker_list)
    = if bool_decide (t ∈ ticker_list)
      then match find_company (normalize_ticker t) table with
           | Some info => Some info
           | None => dict_get t ticker_info
           end
      else dict_get t ticker_info.
Proof.
  induction ticker_list as [|ticker rest IH]; intros ticker_info t.
  { cbn [foldl]. rewrite bool_decide_eq_false_2; [done|]. apply not_elem_of_nil. }
  cbn [foldl]. rewrite IH. unfold record_ticker.
  destruct (decide (t = ticker)) as [->|Hne].
  - rewrite (bool_decide_eq_true_2 (ticker ∈ ticker :: rest)) by (by left).
    destruct (find_company (normalize_ticker ticker) table) as [info|];
      [|by case_bool_decide].
    rewrite dict_get_set. by case_bool_decide.
  - assert (bool_decide (t ∈ ticker :: rest) = bool_decide (t ∈ rest)) as ->.
    { apply bool_decide_ext. rewrite elem_of_cons.
      split; [by intros [?|?]|by right]. }
    destruct (find_company (normalize_ticker ticker) table) as [info|];
      [|done].
    by rewrite dict_get_set_ne.
Qed.

Lemma record_tickers_NoDup table ticker_list :
  ∀ ticker_info,
    NoDup ticker_info.*1 →
    NoDup (foldl (record_ticker table) ticker_info ticker_list).*1.
Proof.
  induction ticker_list as [|ticker rest IH]; intros ticker_info Hd; [done|].
  cbn [foldl]. apply IH. unfold record_ticker.
  destruct (find_company _ _); [by apply dict_set_NoDup|done].
Qed.

Lemma record_tickers_length table ticker_list :
  ∀ ticker_info,
    length (foldl (record_ticker table) ticker_info ticker_list)
    + length (filter (λ t, find_company (normalize_ticker t) table = None)
                ticker_list)
    ≤ length ticker_info + length ticker_list.
Proof.
  induction ticker_list as [|ticker rest IH]; intros ticker_info;
    [simpl; lia|].
  cbn [foldl length]. rewrite filter_cons. specialize (IH (record_ticker table ticker_info ticker)).
  unfold record_ticker in *.
  destruct (find_company (normalize_ticker ticker) table) as [info|].
  - rewrite decide_False by done. rewrite dict_set_length in IH.
    case_bool_decide; lia.
  - rewrite decide_True by done. simpl. lia.
Qed.

Lemma convert_tickers_to_ciks_with_run ticker_list delay st table :
  companies_of
    (get_json server "https://www.sec.gov/files/company_tickers.json" st).1
  = Some table →
  convert_tickers_to_ciks_with server ticker_list delay st
  = (Some (foldl (record_ticker table) [] ticker_list,
           filter (λ t, find_company (normalize_ticker t) table = None)
             ticker_list),
     {| log := log (get_json server
                      "https://www.sec.gov/files/company_tickers.json" st).2
                 ++ replicate (length ticker_list) (Sleep delay);
        fs := fs (get_json server
                    "https://www.sec.gov/files/company_tickers.json" st).2;
        dirs := dirs (get_json server
                        "https://www.sec.gov/files/company_tickers.json"
                        st).2 |}).
Proof.
  intros Htable. unfold convert_tickers_to_ciks_with. unfold_M.
  destruct (get_json _ _ _) as [data st1]. cbn [fst snd] in *.
  by rewrite Htable, convert_loop_run.
Qed.

(** X3: the batch conversion fetches the table once and then pauses
    once per ticker.  With the records of the fetched table (none when
    the fetch fails), the tickers without a matching record are
    reported as failed, in input order, and the dictionary holds, under
    each other ticker of the input exactly as it was typed, the record
    found for it; a ticker is never in both, and the two together never
    count more than the input. *)
Theorem convert_tickers_partitions_its_input ticker_list delay st table :
  let fetch :=
    get_json server "https://www.sec.gov/files/company_tickers.json" st in
  companies_of fetch.1 = Some table →
  ∃ ticker_info failed_tickers,
    convert_tickers_to_ciks_with server ticker_list delay st
    = (Some (ticker_info, failed_tickers),
       {| log := log fetch.2 ++ replicate (length ticker_list) (Sleep delay);
          fs := fs fetch.2; dirs := dirs fetch.2 |})
    ∧ failed_tickers
      = filter (λ t, find_company (normalize_ticker t) table = None)
          ticker_list
    ∧ (∀ t, dict_get t ticker_info
            = if bool_decide (t ∈ ticker_list)
              then find_company (normalize_ticker t) table else None)
    ∧ NoDup ticker_info.*1
    ∧ (∀ t, t ∈ ticker_list ↔ t ∈ ticker_info.*1 ∨ t ∈ failed_tickers)
    ∧ (∀ t, t ∈ ticker_info.*1 → t ∉ failed_tickers)
    ∧ length ticker_info + length failed_tickers ≤ length ticker_list.
Proof.
  intros fetch Htable.
  exists (foldl (record_ticker table) [] ticker_list),
    (filter (λ t, find_company (normalize_ticker t) table = None) ticker_list).
  assert (∀ t, dict_get t (foldl (record_ticker table) [] ticker_list)
               = if bool_decide (t ∈ ticker_list)
                 then find_company (normalize_ticker t) table else None)
    as Hget.
  { intros t. rewrite record_tickers_get. cbn [dict_get].
    case_bool_decide; [|done]. by destruct (find_company _ _). }
  split_and!.
  - by apply convert_tickers_to_ciks_with_run.
  - done.
  - done.
  - apply record_tickers_NoDup. constructor.
  - intros t. rewrite <-dict_get_is_Some, Hget, list_elem_of_filter.
    case_bool_decide as Hin.
    + destruct (find_company (normalize_ticker t) table) as [info|].
      * split; [left; by eexists|done].
      * split; [by right|done].
    + split; [done|]. intros [[? ?]|[_ ?]]; done.
  - intros t. rewrite <-dict_get_is_Some, Hget, list_elem_of_filter.
    case_bool_decide; [|by intros [? ?]].
    intros [info Hinfo] [Hnone _]. congruence.
  - pose proof (record_tickers_length table ticker_list []) as Hlen.
    simpl in Hlen. lia.
Qed.

(** X4: the batch conversion agrees with the conversion of one ticker:
    whenever it returns, every ticker of its input is bound in the
    dictionary to what [get_cik_from_ticker] gives for it from the same
    state, and is reported as failed exactly when that gives nothing. *)
Theorem convert_tickers_agrees_with_single
    ticker_list delay st ticker_info failed_tickers st' t :
  convert_tickers_to_ciks_with server ticker_list delay st
  = (Some (ticker_info, failed_tickers), st') →
  t ∈ ticker_list →
  dict_get t ticker_info = (get_cik_from_ticker server t st).1
  ∧ (t ∈ failed_tickers ↔ (get_cik_from_ticker server t st).1 = None).
Proof.
  intros Hrun Ht. rewrite get_cik_from_ticker_run. cbn [fst].
  destruct (companies_of
              (get_json server
                 "https://www.sec.gov/files/company_tickers.json" st).1)
    as [table|] eqn:Htable.
  - rewrite (convert_tickers_to_ciks_with_run _ _ _ _ Htable) in Hrun.
    injection Hrun as <- <- _.
    assert ((match (get_json server
                      "https://www.sec.gov/files/company_tickers.json" st).1
             with
             | Some (JTickers table0) =>
                 find_company (normalize_ticker t) table0
             | _ => None
             end) = find_company (normalize_ticker t) table) as ->.
    { destruct (get_json _ _ _).1 as [[]|]; simplify_eq/=; done. }
    rewrite record_tickers_get, bool_decide_eq_true_2 by done.
    cbn [dict_get]. rewrite list_elem_of_filter.
    destruct (find_company _ _); (split; [done|]);
      (split; [by intros [? _]|by intros ?; split]).
  - unfold convert_tickers_to_ciks_with in Hrun. unfold_M.
    destruct (get_json _ _ _) as [data st1]. cbn [fst] in Htable.
    rewrite Htable in Hrun. destruct ticker_list as [|t0 rest].
    + by apply elem_of_nil in Ht.
    + cbn in Hrun. done.
Qed.

End Batch.

Lemma convert_tickers_partitions_its_input_witness :
  convert_tickers_to_ciks
    (constant_server (Response 200 EmptyString (JTickers example_table)))
    ["aapl"; "BRK.B"; "AAPL"; "aapl"] initial_state
  = (Some ([("aapl", ("0000320193", "Apple Inc."));
            ("AAPL", ("0000320193", "Apple Inc."))],
           ["BRK.B"]),
     {| log := [Request "https://www.sec.gov/files/company_tickers.json";
                Sleep 100; Sleep 100; Sleep 100; Sleep 100];
        fs := ∅; dirs := ∅ |}).
Proof.
  destruct (convert_tickers_partitions_its_input
              (constant_server
                 (Response 200 EmptyString (JTickers example_table)))
              ["aapl"; "BRK.B"; "AAPL"; "aapl"] 100 initial_state
              example_table eq_refl)
    as (ticker_info & failed_tickers & Hrun & _).
  unfold convert_tickers_to_ciks. rewrite Hrun. by vm_compute.
Defined.

Lemma convert_tickers_agrees_with_single_witness :
  dict_get "aapl"
    [("aapl", ("0000320193", "Apple Inc."));
     ("AAPL", ("0000320193", "Apple Inc."))]
  = (get_cik_from_ticker
       (constant_server (Response 200 EmptyString (JTickers example_table)))
       "aapl" initial_state).1.
Proof.
  eapply (convert_tickers_agrees_with_single
            (constant_server
               (Response 200 EmptyString (JTickers example_table)))
            ["aapl"; "BRK.B"; "AAPL"; "aapl"] 100 initial_state).
  - by vm_compute.
  - by left.
Defined.

(* ===================================================================== *)
(** * More on the choice from a listing *)
(* ===================================================================== *)

Section Choice.

Lemma max_by_from_first {A} (key : A → Z) (xs : list A) :
  ∀ best,
    let m := max_by_from key best xs in
    (m = best ∧ ∀ x, x ∈ xs → (key x ≤ key best)%Z)
    ∨ ∃ before after,
        xs = before ++ m :: after
        ∧ (key best < key m)%Z
        ∧ (∀ x, x ∈ before → (key x < key m)%Z)
        ∧ (∀ x, x ∈ after → (key x ≤ key m)%Z).
Proof.
  induction xs as [|x xs IH]; intros best; cbn [max_by_from] in *.
  { left. split; [done|]. by intros x ?%elem_of_nil. }
  destruct (Z.ltb_spec (key best) (key x)) as [Hlt|Hge].
  - right. destruct (IH x) as [[Hm Hall]|(before & after & Hxs & ? & ? & ?)].
    + exists [], xs. rewrite Hm. split_and!; [done|done| |done].
      by intros y ?%elem_of_nil.
    + exists (x :: before), after. split_and!; [by rewrite Hxs at 1|lia| |done].
      intros y [->|Hy]%elem_of_cons; [lia|auto].
  - destruct (IH best) as [[Hm Hall]|(before & after & Hxs & ? & ? & ?)].
    + left. split; [done|].
      intros y [->|Hy]%elem_of_cons; [lia|auto].
    + right. exists (x :: before), after.
      split_and!; [by rewrite Hxs at 1|done| |done].
      intros y [->|Hy]%elem_of_cons; [lia|auto].
Qed.

(** X5: the listing tier picks nothing exactly when the listing has no
    name with an HTML extension; otherwise it picks the first of the
    names with the highest score: every HTML name listed before the
    pick scores strictly less, every one listed after it scores no
    more. *)
Theorem pick_html_takes_first_best (items : list Item) :
  match pick_html_from_items items with
  | None => html_names items = []
  | Some best =>
      ∃ before after,
        html_names items = before ++ best :: after
        ∧ (∀ x, x ∈ before → (score x < score best)%Z)
        ∧ (∀ x, x ∈ after → (score x ≤ score best)%Z)
  end.
Proof.
  unfold pick_html_from_items.
  destruct (html_names items) as [|first others]; [done|].
  destruct (max_by_from_first score others first)
    as [[Hm Hall]|(before & after & Hxs & ? & ? & ?)].
  - exists [], others. rewrite Hm. split_and!; [done| |done].
    by intros x ?%elem_of_nil.
  - exists (first :: before), after. split_and!; [by rewrite Hxs at 1| |done].
    intros y [->|Hy]%elem_of_cons; [lia|auto].
Qed.

Lemma score_bounds (name : string) : (-9 ≤ score name ≤ 24)%Z.
Proof.
  pose proof (length_bonus_bounds (Py.lower name)) as Hlen.
  unfold score.
  destruct (String.eqb_spec (Py.lower name) "index.html") as [->|_].
  { by vm_compute. }
  repeat match goal with
         | |- context [if ?b then _ else _] => destruct b
         end; lia.
Qed.

Lemma score_exhibit_without_token (name : string) :
  looks_like_exhibit name = true → carries_token name = false →
  (score name ≤ 0)%Z.
Proof.
  unfold looks_like_exhibit, carries_token, FILING_TOKENS.
  cbn [existsb]. intros Hex Htok.
  pose proof (length_bonus_bounds (Py.lower name)) as Hlen.
  unfold score. rewrite Hex.
  destruct (Py.contains "10-k" _), (Py.contains "10k" _),
    (Py.contains "20-f" _), (Py.contains "20f" _); try discriminate;
    cbn [orb];
    repeat match goal with
           | |- context [if ?b then _ else _] => destruct b
           end; lia.
Qed.

(** X6: every score lies between -9 and 24.  A name that looks like an
    exhibit and carries no filing-type token scores at most 0, so when
    the listing has an HTML name with a token, whose score is at least
    4, the listing tier does not pick such an exhibit. *)
Theorem listing_tier_avoids_plain_exhibits (items : list Item) (t best : string) :
  t ∈ html_names items →
  carries_token t = true →
  pick_html_from_items items = Some best →
  (∀ name, (-9 ≤ score name ≤ 24)%Z)
  ∧ (4 ≤ score best)%Z
  ∧ (looks_like_exhibit best = true → carries_token best = true).
Proof.
  intros Ht Htok Hpick. split; [apply score_bounds|].
  assert (4 ≤ score best)%Z as Hbest.
  { pose proof (score_token_lower_bound _ Htok).
    unfold pick_html_from_items in Hpick.
    destruct (html_names items) as [|first others]; [done|].
    injection Hpick as <-.
    pose proof (max_by_from_max score first others t Ht). lia. }
  split; [done|]. intros Hex.
  destruct (carries_token best) eqn:Hno; [done|].
  pose proof (score_exhibit_without_token _ Hex Hno). lia.
Qed.

End Choice.

Lemma listing_tier_avoids_plain_exhibits_witness :
  pick_html_from_items
    [ {| item_name := Some "exhibit_list_of_subsidiaries.htm" |};
      {| item_name := Some "R2.htm" |};
      {| item_name := Some "a10k.htm" |} ]
  = Some "a10k.htm"
  ∧ (4 ≤ score "a10k.htm")%Z.
Proof.
  split; [reflexivity|].
  apply (listing_tier_avoids_plain_exhibits
           [ {| item_name := Some "exhibit_list_of_subsidiaries.htm" |};
             {| item_name := Some "R2.htm" |};
             {| item_name := Some "a10k.htm" |} ] "a10k.htm" "a10k.htm").
  - vm_compute. set_solver.
  - reflexivity.
  - reflexivity.
Defined.

(* ===================================================================== *)
(** * More on the filing catalogue *)
(* ===================================================================== *)

Section CatalogueCost.

Variable server : Server.

Lemma pick_best_annual_html_cost cik_no_zeros accession_nodashes primary_doc st :
  let run :=
    pick_best_annual_html server cik_no_zeros accession_nodashes primary_doc
      st in
  fs run.2 = fs st
  ∧ ∃ evs, log run.2 = log st ++ evs ∧ length (requests_of evs) ≤ 4.
Proof.
  cbv zeta. rewrite pick_best_annual_html_run. cbv zeta.
  destruct (pick_html_from_index_json_log server cik_no_zeros
              accession_nodashes st) as (k & evs & Hk & Hlog & Hreq & Hfs).
  assert (length (requests_of evs) ≤ 3) as Hlen
    by (rewrite Hreq, length_replicate; lia).
  destruct (primary_doc ≫= _) as [u1|]; cbn [snd].
  { split; [done|]. exists [].
    split; [by rewrite (right_id_L [] (++))|simpl; lia]. }
  destruct ((pick_html_from_index_json server cik_no_zeros
               accession_nodashes st).1 ≫= _) as [u2|]; cbn [snd].
  { split; [done|]. exists evs. split; [done|lia]. }
  rewrite parse_submission_txt_run. cbn [snd log fs]. split; [done|].
  exists (evs ++ [Request (archive_url cik_no_zeros accession_nodashes
                             (accession_nodashes +:+ ".txt"))]).
  rewrite Hlog, <-(assoc_L (++)). split; [done|].
  rewrite requests_of_app, length_app. simpl. lia.
Qed.

Lemma resolve_candidates_cost cik_no_zeros candidates :
  ∀ st,
    let run := resolve_candidates server cik_no_zeros candidates st in
    fs run.2 = fs st
    ∧ ∃ evs,
        log run.2 = log st ++ evs
        ∧ length (requests_of evs) ≤ 4 * length candidates.
Proof.
  induction candidates as [|c rest IH]; intros st; cbv zeta.
  { split; [done|]. exists [].
    split; [by rewrite (right_id_L [] (++))|simpl; lia]. }
  cbn [resolve_candidates]. unfold_M.
  pose proof (pick_best_annual_html_cost cik_no_zeros
                (Py.remove_char "-" (cand_accession c))
                (cand_primary_doc c) st) as Hbest. cbv zeta in Hbest.
  destruct (pick_best_annual_html _ _ _ _ _) as [use_url st1].
  specialize (IH st1). cbv zeta in IH.
  destruct (resolve_candidates _ _ _ _) as [out st2]. cbn [snd] in *.
  destruct Hbest as [Hfs1 (evs1 & Hlog1 & Hlen1)].
  destruct IH as [Hfs2 (evs2 & Hlog2 & Hlen2)].
  assert (fs st2 = fs st
          ∧ ∃ evs, log st2 = log st ++ evs
                   ∧ length (requests_of evs) ≤ 4 * S (length rest)) as Hgoal.
  { split; [congruence|]. exists (evs1 ++ evs2).
    rewrite Hlog2, Hlog1, <-(assoc_L (++)). split; [done|].
    rewrite requests_of_app, length_app. lia. }
  by repeat case_match.
Qed.

Lemma recent_candidates_length recent count include_amends include_20f cs :
  (0 ≤ count)%Z →
  recent_candidates recent count include_amends include_20f = Some cs →
  length cs ≤ Z.to_nat count.
Proof.
  intros Hcount. unfold recent_candidates.
  destruct (collect_candidates _ _ _ _) as [collected|]; [|done].
  intros [= <-]. unfold compose, slice_to.
  destruct (Z.leb_spec 0 count); [|lia]. rewrite length_take. lia.
Qed.

(** X7: resolving and listing never write a file.  Resolving one
    candidate sends at most four requests (three tries for the listing
    and one for the bundle); listing the filings of a company for a
    count N that is not negative sends at most 3 + 4 N requests and
    returns at most N filings. *)
Theorem catalogue_is_read_only_and_bounded :
  (∀ cik_no_zeros accession_nodashes primary_doc st,
     let run :=
       pick_best_annual_html server cik_no_zeros accession_nodashes
         primary_doc st in
     fs run.2 = fs st
     ∧ ∃ evs, log run.2 = log st ++ evs ∧ length (requests_of evs) ≤ 4)
  ∧ (∀ cik count include_amends include_20f st,
       (0 ≤ count)%Z →
       let run :=
         get_annual_filings_html server cik count include_amends include_20f
           st in
       fs run.2 = fs st
       ∧ length run.1 ≤ Z.to_nat count
       ∧ ∃ evs,
           log run.2 = log st ++ evs
           ∧ length (requests_of evs) ≤ 3 + 4 * Z.to_nat count).
Proof.
  split; [apply pick_best_annual_html_cost|].
  intros cik count include_amends include_20f st Hcount. cbv zeta.
  unfold get_annual_filings_html. unfold_M.
  destruct (get_json_with_requests server
              ("https://data.sec.gov/submissions/CIK" +:+ cik +:+ ".json")
              3 1000 st) as (k & evs & Hk & Hlog & Hreq & Hfs); [lia|].
  fold (get_json server
          ("https://data.sec.gov/submissions/CIK" +:+ cik +:+ ".json") st)
    in Hlog, Hfs.
  destruct (get_json _ _ _) as [data st1]. cbn [snd] in *.
  assert (length (requests_of evs) ≤ 3) as Hlen
    by (rewrite Hreq, length_replicate; lia).
  assert (fs st1 = fs st ∧ @length Filing [] ≤ Z.to_nat count
          ∧ ∃ evs, log st1 = log st ++ evs
                   ∧ length (requests_of evs) ≤ 3 + 4 * Z.to_nat count)
    as Hempty.
  { split_and!; [done|simpl; lia|]. exists evs. split; [done|lia]. }
  destruct data as [[| recent | |]|]; try done.
  destruct (recent_candidates _ _ _ _) as [cs|] eqn:Hcs; [|done].
  destruct (Py.int_of_str cik) as [n|]; [|done].
  apply recent_candidates_length in Hcs; [|done].
  pose proof (resolve_candidates_cost (Py.str_of_int n) cs st1) as Hcost.
  pose proof (resolve_candidates_sublist server (Py.str_of_int n) cs st1)
    as Hsub.
  apply sublist_length in Hsub. rewrite !length_fmap in Hsub.
  cbv zeta in Hcost. destruct Hcost as [Hfs2 (evs2 & Hlog2 & Hlen2)].
  split_and!; [congruence|lia|].
  exists (evs ++ evs2). rewrite Hlog2, Hlog, <-(assoc_L (++)).
  split; [done|]. rewrite requests_of_app, length_app. nia.
Qed.

End CatalogueCost.

Section CatalogueOrder.

Variable server : Server.

Lemma sublist_StronglySorted {A} (R : relation A) (l1 l2 : list A) :
  l1 `sublist_of` l2 → StronglySorted R l2 → StronglySorted R l1.
Proof.
  induction 1 as [|x l1 l2 Hsub IH|x l1 l2 Hsub IH]; [done| |].
  - intros [Hx Hl]%StronglySorted_cons. apply StronglySorted_cons.
    split; [|by apply IH].
    apply Forall_forall. intros y Hy. rewrite Forall_forall in Hx.
    apply Hx. by eapply elem_of_sublist.
  - intros [_ Hl]%StronglySorted_cons. by apply IH.
Qed.

Lemma StronglySorted_fmap_inv {A B} (f : A → B) (R : relation B) (l : list A) :
  StronglySorted R (f <$> l) → StronglySorted (λ a b, R (f a) (f b)) l.
Proof.
  induction l as [|x l IH]; csimpl; [constructor|].
  intros [Hx Hl]%StronglySorted_cons. apply StronglySorted_cons.
  split; [|by apply IH].
  rewrite Forall_fmap in Hx. eapply Forall_impl; [exact Hx|done].
Qed.

Lemma resolve_candidates_dates cik_no_zeros candidates st :
  (filing_date <$> (resolve_candidates server cik_no_zeros candidates st).1)
    `sublist_of` (cand_filing_date <$> candidates).
Proof.
  revert st. induction candidates as [|c rest IH]; intros st; [done|].
  cbn [resolve_candidates]. unfold_M.
  destruct (pick_best_annual_html _ _ _ _ _) as [use_url st1].
  specialize (IH st1).
  destruct (resolve_candidates _ _ _ _) as [out st2]. cbn [fst] in *.
  destruct use_url as [[|a u]|]; csimpl;
    [by apply sublist_cons|by apply sublist_skip|by apply sublist_cons].
Qed.

Lemma resolve_candidates_is_amend cik_no_zeros candidates st f :
  f ∈ (resolve_candidates server cik_no_zeros candidates st).1 →
  filing_is_amend f = Py.endswith "/A" (filing_form f).
Proof.
  revert st. induction candidates as [|c rest IH]; intros st.
  { by intros ?%elem_of_nil. }
  cbn [resolve_candidates]. unfold_M.
  destruct (pick_best_annual_html _ _ _ _ _) as [use_url st1].
  specialize (IH st1).
  destruct (resolve_candidates _ _ _ _) as [out st2]. cbn [fst] in *.
  destruct use_url as [[|a u]|]; cbn [fst]; [done| |done].
  by intros [->|Hf]%elem_of_cons; [|apply IH].
Qed.

Lemma collect_candidates_forms wanted recent forms :
  ∀ i cs,
    collect_candidates wanted recent i forms = Some cs →
    Forall (λ c, cand_form c ∈ wanted) cs.
Proof.
  induction forms as [|form rest IH]; intros i cs; cbn [collect_candidates].
  { by intros [= <-]. }
  case_bool_decide as Hform; [|apply IH].
  destruct (feed_accessionNumber recent !! i); [|done].
  destruct (feed_filingDate recent !! i); [|done].
  destruct (feed_primaryDocument recent !! i); [|done].
  cbn [mbind option_bind].
  destruct (collect_candidates wanted recent (S i) rest) as [cs'|] eqn:Hrest;
    [|done].
  cbn [mbind option_bind]. intros [= <-]. constructor; [done|by eapply IH].
Qed.

Lemma wanted_forms_spec include_amends include_20f form :
  form ∈ wanted_forms include_amends include_20f
  ↔ form = "10-K"
    ∨ include_amends = true ∧ form = "10-K/A"
    ∨ include_20f = true ∧ (form = "20-F" ∨ form = "20-F/A").
Proof.
  unfold wanted_forms. destruct include_amends, include_20f;
    rewrite ?elem_of_union, ?elem_of_singleton; intuition congruence.
Qed.

(** X8: the filings returned for a company come in descending order of
    filing date.  Each has form 10-K, or 10-K/A when amendments are
    included, or 20-F or 20-F/A when foreign forms are included (the
    amendments switch does not govern 20-F/A), and is flagged as an
    amendment exactly when its form is 10-K/A or 20-F/A. *)
Theorem returned_filings_are_ordered_and_wanted
    cik count include_amends include_20f st :
  let out :=
    (get_annual_filings_html server cik count include_amends include_20f st).1
  in
  StronglySorted
    (λ f g, String.leb (filing_date g) (filing_date f) = true) out
  ∧ ∀ f, f ∈ out →
      (filing_form f = "10-K"
       ∨ include_amends = true ∧ filing_form f = "10-K/A"
       ∨ include_20f = true
         ∧ (filing_form f = "20-F" ∨ filing_form f = "20-F/A"))
      ∧ (filing_is_amend f = true
         ↔ filing_form f = "10-K/A" ∨ filing_form f = "20-F/A").
Proof.
  cbv zeta. unfold get_annual_filings_html. unfold_M.
  destruct (get_json _ _ _) as [data st1]. cbn [fst].
  assert (StronglySorted
            (λ f g, String.leb (filing_date g) (filing_date f) = true)
            (@nil Filing)
          ∧ ∀ f, f ∈ @nil Filing →
              (filing_form f = "10-K"
               ∨ include_amends = true ∧ filing_form f = "10-K/A"
               ∨ include_20f = true
                 ∧ (filing_form f = "20-F" ∨ filing_form f = "20-F/A"))
              ∧ (filing_is_amend f = true
                 ↔ filing_form f = "10-K/A" ∨ filing_form f = "20-F/A"))
    as Hempty.
  { split; [constructor|]. by intros f ?%elem_of_nil. }
  destruct data as [[| recent | |]|]; try done.
  unfold recent_candidates.
  destruct (collect_candidates _ _ _ _) as [collected|] eqn:Hcollect; [|done].
  cbn [fmap option_fmap option_map]. unfold compose.
  destruct (Py.int_of_str cik) as [n|]; [|done].
  apply collect_candidates_forms in Hcollect.
  set (cs := slice_to count (sort_reverse date_leb collected)).
  assert (cs `sublist_of` sort_reverse date_leb collected) as Hcs.
  { unfold cs, slice_to. destruct (0 <=? count)%Z; apply sublist_take. }
  assert (StronglySorted (λ a b, date_leb b a = true)
            (sort_reverse date_leb collected)) as Hsorted.
  { apply (StronglySorted_reverse (λ a b, date_leb a b = true)).
    apply stable_sort_sorted; [apply date_leb_total|apply date_leb_trans]. }
  split.
  - apply (StronglySorted_fmap_inv filing_date
             (λ d e, String.leb e d = true)).
    eapply sublist_StronglySorted; [apply resolve_candidates_dates|].
    apply (StronglySorted_fmap cand_filing_date
             (λ a b, date_leb b a = true)); [done|].
    by eapply sublist_StronglySorted.
  - intros f Hf.
    pose proof (resolve_candidates_is_amend _ _ _ _ Hf) as Hamend.
    apply resolve_candidates_shape in Hf
      as (c & name & Hc & Hkey & _). injection Hkey as _ _ Hform.
    assert (cand_form c ∈ wanted_forms include_amends include_20f) as Hwanted.
    { rewrite Forall_forall in Hcollect. apply Hcollect.
      eapply elem_of_sublist in Hc; [|exact Hcs].
      by rewrite (sort_reverse_perm date_leb collected) in Hc. }
    rewrite <-Hform in Hwanted. apply wanted_forms_spec in Hwanted.
    split; [done|]. rewrite Hamend.
    destruct Hwanted as [->|[[_ ->]|[_ [->| ->]]]];
      (split;
       [intros H;
        first [by vm_compute in H|left; reflexivity|right; reflexivity]
       |intros [H|H]; first [discriminate H|reflexivity]]).
Qed.

Lemma collect_candidates_short wanted recent forms :
  ∀ i k form,
    forms !! k = Some form →
    form ∈ wanted →
    feed_accessionNumber recent !! (i + k) = None
    ∨ feed_filingDate recent !! (i + k) = None
    ∨ feed_primaryDocument recent !! (i + k) = None →
    collect_candidates wanted recent i forms = None.
Proof.
  induction forms as [|form0 rest IH]; intros i k form Hk Hform Hshort;
    [done|].
  cbn [collect_candidates]. destruct k as [|k].
  - injection Hk as ->. rewrite Nat.add_0_r in Hshort.
    rewrite bool_decide_eq_true_2 by done.
    destruct Hshort as [->|[->| ->]]; [done| |].
    + by destruct (feed_accessionNumber recent !! i).
    + by destruct (feed_accessionNumber recent !! i),
        (feed_filingDate recent !! i).
  - assert (collect_candidates wanted recent (S i) rest = None) as Hrest.
    { apply (IH (S i) k form); [done|done|].
      by replace (S i + k) with (i + S k) by lia. }
    rewrite Hrest. case_bool_decide; [|done].
    by destruct (feed_accessionNumber recent !! i),
      (feed_filingDate recent !! i), (feed_primaryDocument recent !! i).
Qed.

(** X9: one incomplete entry empties the whole result.  When the feed
    lists a wanted form at a position where the array of accession ids,
    of filing dates or of primary documents has no entry, the function
    returns no filing at all and stops right after fetching the feed,
    whatever complete entries the feed holds. *)
Theorem incomplete_feed_yields_nothing
    cik count include_amends include_20f st recent i form :
  (get_json server
     ("https://data.sec.gov/submissions/CIK" +:+ cik +:+ ".json") st).1
  = Some (JFeed recent) →
  feed_form recent !! i = Some form →
  form ∈ wanted_forms include_amends include_20f →
  feed_accessionNumber recent !! i = None
  ∨ feed_filingDate recent !! i = None
  ∨ feed_primaryDocument recent !! i = None →
  get_annual_filings_html server cik count include_amends include_20f st
  = ([],
     (get_json server
        ("https://data.sec.gov/submissions/CIK" +:+ cik +:+ ".json") st).2).
Proof.
  intros Hfeed Hi Hform Hshort.
  unfold get_annual_filings_html. unfold_M.
  destruct (get_json _ _ _) as [data st1]. cbn [fst snd] in *. subst data.
  unfold recent_candidates.
  by rewrite (collect_candidates_short _ recent (feed_form recent) 0 i form).
Qed.

End CatalogueOrder.

Lemma catalogue_is_read_only_and_bounded_witness :
  let run :=
    get_annual_filings_html declared_feed_server "0000320193" 1 true true
      initial_state in
  length run.1 ≤ 1
  ∧ ∃ evs, log run.2 = [] ++ evs ∧ length (requests_of evs) ≤ 3 + 4 * 1.
Proof.
  destruct (proj2 (catalogue_is_read_only_and_bounded declared_feed_server)
              "0000320193" 1%Z true true initial_state)
    as (_ & Hlen & Hreq); [lia|].
  split; [exact Hlen|exact Hreq].
Defined.

Lemma returned_filings_are_ordered_and_wanted_witness :
  let out :=
    (get_annual_filings_html declared_feed_server "0000320193" 5 true true
       initial_state).1 in
  filing_form <$> out = ["10-K/A"; "10-K"]
  ∧ ∀ f, f ∈ out →
      filing_is_amend f = true
      ↔ filing_form f = "10-K/A" ∨ filing_form f = "20-F/A".
Proof.
  split; [by vm_compute|]. intros f Hf.
  by apply (proj2 (returned_filings_are_ordered_and_wanted
                     declared_feed_server "0000320193" 5 true true
                     initial_state) f).
Defined.

Lemma incomplete_feed_yields_nothing_witness :
  (get_annual_filings_html short_feed_server "0000320193" 5 true true
     initial_state).1 = [].
Proof.
  rewrite (incomplete_feed_yields_nothing short_feed_server "0000320193" 5
             true true initial_state short_feed 1 "10-K").
  - reflexivity.
  - reflexivity.
  - reflexivity.
  - apply wanted_forms_spec. by left.
  - by left.
Defined.

(* ===================================================================== *)
(** * More on the exhibit fetcher *)
(* ===================================================================== *)

Section ExhibitFiles.

Variable server : Server.
Variable host : Host.

(** One iteration of the loop over the listing, with the state written
    out. *)
Lemma download_items_cons cik_no_zeros accession_nodashes dest_dir
    include_exts it rest downloaded st :
  download_items server host cik_no_zeros accession_nodashes dest_dir
    include_exts (it :: rest) downloaded st
  = let name := item_get_name it in
    let url := archive_url cik_no_zeros accession_nodashes name in
    let dest_path := path_join dest_dir name in
    let continue :=
      download_items server host cik_no_zeros accession_nodashes dest_dir
        include_exts rest in
    let requested :=
      {| log := log st ++ [Request url]; fs := fs st; dirs := dirs st |} in
    if String.eqb name EmptyString then continue downloaded st
    else if negb (Py.endswith_any include_exts (Py.lower name))
    then continue downloaded st
    else match stat host st dest_path with
         | None => (None, st)
         | Some true => continue downloaded st
         | Some false =>
             match server (log st) url with
             | NetworkError => continue downloaded requested
             | Response status content _ =>
                 if raises_for_status status then continue downloaded requested
                 else if can_write host requested dest_path
                 then continue (downloaded + 1)%Z
                        {| log := (log st ++ [Request url])
                                    ++ [Sleep SLEEP_BETWEEN_CALLS];
                           fs := <[dest_path := content]> (fs st);
                           dirs := dirs st |}
                 else (None, requested)
             end
         end.
Proof.
  cbn [download_items]. cbv zeta.
  destruct (String.eqb _ _); [done|].
  destruct (negb _); [done|].
  unfold_M. unfold path_exists.
  destruct (stat host st _) as [[]|]; [done| |done].
  rewrite _download_binary_run. cbv zeta.
  destruct (server (log st) _) as [|status content json]; [done|].
  destruct (raises_for_status status); [done|].
  by destruct (can_write host _ _).
Qed.

(** A path for which [exists] answers [False] and that can be written
    is the path of no file. *)
Lemma stat_false_absent st st' path :
  stat host st path = Some false →
  can_write host st' path = true →
  fs st !! path = None.
Proof.
  unfold stat, can_write. destruct (has_nul path); [done|].
  destruct (host (log st) (Stat path)); [done|].
  intros [= Hnone] _. apply orb_false_elim in Hnone as [Hfile _].
  unfold is_file in Hfile. apply bool_decide_eq_false in Hfile.
  destruct (fs st !! path) eqn:Hlook; [|done]. destruct Hfile. by eexists.
Qed.

Lemma size_new_insert (m m' : gmap string string) (p c : string) :
  m !! p = None →
  dom (<[p := c]> m) ⊆ dom m' →
  size (dom m' ∖ dom m) = S (size (dom m' ∖ dom (<[p := c]> m))).
Proof.
  intros Hp Hsub. rewrite dom_insert_L in *.
  assert (p ∉ dom m) as Hnot by (by apply not_elem_of_dom).
  assert (dom m' ∖ dom m = {[p]} ∪ dom m' ∖ ({[p]} ∪ dom m)) as ->.
  { apply set_eq. intros x.
    rewrite !elem_of_union, !elem_of_difference, elem_of_union,
      elem_of_singleton.
    split.
    - intros [Hx Hm]. destruct (decide (x = p)) as [->|]; [by left|].
      right. split; [done|]. by intros [?|?].
    - intros [->|[Hx Hn]].
      + split; [|done]. apply Hsub, elem_of_union. left.
        by apply elem_of_singleton.
      + split; [done|]. intros ?. apply Hn. by right. }
  rewrite size_union, size_singleton; [done|].
  intros x Hx%elem_of_singleton Hx2%elem_of_difference. subst x.
  destruct Hx2 as [_ Hx2]. apply Hx2, elem_of_union. left.
  by apply elem_of_singleton.
Qed.

(** What the loop over the listing does to the folder, whether it ends
    or raises. *)
Lemma download_items_files cik_no_zeros accession_nodashes dest_dir
    include_exts items :
  ∀ downloaded st,
    let run :=
      download_items server host cik_no_zeros accession_nodashes dest_dir
        include_exts items downloaded st in
    (∀ path c, fs st !! path = Some c → fs run.2 !! path = Some c)
    ∧ (∀ n, run.1 = Some n →
         n = (downloaded
              + Z.of_nat (size (dom (fs run.2) ∖ dom (fs st))))%Z)
    ∧ size (dom (fs run.2) ∖ dom (fs st)) ≤ length items
    ∧ (∀ path, path ∈ dom (fs run.2) →
         path ∈ dom (fs st)
         ∨ ∃ it, it ∈ items ∧ is_eligible include_exts it
                 ∧ path = path_join dest_dir (item_get_name it))
    ∧ dirs run.2 = dirs st.
Proof.
  induction items as [|it rest IH]; intros downloaded st; cbv zeta.
  { cbn [download_items]. unfold mret, M_ret. cbn [fst snd].
    rewrite difference_diag_L, size_empty.
    split_and!; [done|intros n [= <-]; lia|done|by left|done]. }
  rewrite download_items_cons. cbv zeta.
  assert (∀ st1, fs st1 = fs st → dirs st1 = dirs st →
    let run : option Z * State := (None, st1) in
    (∀ path c, fs st !! path = Some c → fs run.2 !! path = Some c)
    ∧ (∀ n, run.1 = Some n →
         n = (downloaded
              + Z.of_nat (size (dom (fs run.2) ∖ dom (fs st))))%Z)
    ∧ size (dom (fs run.2) ∖ dom (fs st)) ≤ length (it :: rest)
    ∧ (∀ path, path ∈ dom (fs run.2) →
         path ∈ dom (fs st)
         ∨ ∃ it', it' ∈ it :: rest ∧ is_eligible include_exts it'
                  ∧ path = path_join dest_dir (item_get_name it'))
    ∧ dirs run.2 = dirs st) as Hstop.
  { intros st1 Hfs Hdirs. cbv zeta. cbn [fst snd]. rewrite Hfs.
    rewrite difference_diag_L, size_empty.
    split_and!; [done|by intros n [=]|cbn [length]; lia|by left|done]. }
  assert (∀ d st1, fs st1 = fs st → dirs st1 = dirs st → d = downloaded →
    let run :=
      download_items server host cik_no_zeros accession_nodashes dest_dir
        include_exts rest d st1 in
    (∀ path c, fs st !! path = Some c → fs run.2 !! path = Some c)
    ∧ (∀ n, run.1 = Some n →
         n = (downloaded
              + Z.of_nat (size (dom (fs run.2) ∖ dom (fs st))))%Z)
    ∧ size (dom (fs run.2) ∖ dom (fs st)) ≤ length (it :: rest)
    ∧ (∀ path, path ∈ dom (fs run.2) →
         path ∈ dom (fs st)
         ∨ ∃ it', it' ∈ it :: rest ∧ is_eligible include_exts it'
                  ∧ path = path_join dest_dir (item_get_name it'))
    ∧ dirs run.2 = dirs st) as Hskip.
  { intros d st1 Hfs Hdirs ->.
    destruct (IH downloaded st1) as (Hkeep & Hcount & Hsize & Hnew & Hd).
    rewrite Hfs, Hdirs in *.
    split_and!; [done|done|cbn [length]; lia| |done].
    intros path [?|(it' & ? & ? & ?)]%Hnew; [by left|right].
    exists it'. split_and!; [by right|done|done]. }
  destruct (String.eqb_spec (item_get_name it) EmptyString) as [|Hname];
    [by apply Hskip|].
  destruct (Py.endswith_any include_exts (Py.lower (item_get_name it)))
    eqn:Hext; cbn [negb]; [|by apply Hskip].
  destruct (stat host st (path_join dest_dir (item_get_name it)))
    as [[]|] eqn:Hstat; [by apply Hskip| |by apply Hstop].
  destruct (server (log st) _) as [|status content json];
    [by apply Hskip|].
  destruct (raises_for_status status); [by apply Hskip|].
  destruct (can_write host _ _) eqn:Hwrite; [|by apply Hstop].
  set (st1 := {| log := (log st ++ _) ++ _; fs := <[_ := content]> (fs st);
                 dirs := dirs st |}).
  destruct (IH (downloaded + 1)%Z st1) as (Hkeep & Hcount & Hsize & Hnew & Hd).
  assert (fs st !! path_join dest_dir (item_get_name it) = None) as Hnone
    by (by eapply stat_false_absent).
  assert (dom (fs st1) ⊆ dom (fs (download_items server host cik_no_zeros
            accession_nodashes dest_dir include_exts rest
            (downloaded + 1)%Z st1).2)) as Hsub.
  { intros x [c Hc]%elem_of_dom. apply elem_of_dom. eexists. by apply Hkeep. }
  assert (fs st1 = <[path_join dest_dir (item_get_name it) := content]>
                     (fs st)) as Hfs1 by done.
  rewrite Hfs1 in Hsub, Hkeep, Hsize, Hnew, Hcount.
  rewrite (size_new_insert (fs st) _ _ content Hnone Hsub).
  split_and!.
  - intros path c Hc. apply Hkeep.
    rewrite lookup_insert_ne; [done|]. intros <-. congruence.
  - intros n Hn. rewrite (Hcount n Hn). lia.
  - cbn [length]. lia.
  - intros path [Hin|(it' & ? & ? & ?)]%Hnew.
    + rewrite dom_insert_L in Hin.
      apply elem_of_union in Hin as [->%elem_of_singleton|?]; [|by left].
      right. exists it. split_and!; [by left|done|done].
    + right. exists it'. split_and!; [by right|done|done].
  - done.
Qed.

(** X10: the exhibit fetcher never overwrites a file of the folder other
    than the index page, and every file it adds besides the index page
    is the copy of a listed entry that has a name with an allowed
    extension, stored under that name in the folder; this holds of every
    run, also of one that an exception ends. *)
Theorem exhibit_fetcher_keeps_existing_files
    cik_no_zeros accession_nodashes dest_dir st :
  let listing := _index_json_items server cik_no_zeros accession_nodashes st in
  let run :=
    _download_exhibits server host cik_no_zeros accession_nodashes dest_dir
      st in
  (∀ path c,
     fs st !! path = Some c →
     path ≠ path_join dest_dir INDEX_FILENAME →
     fs run.2 !! path = Some c)
  ∧ (∀ path,
       path ∈ dom (fs run.2) →
       path ∈ dom (fs st)
       ∨ path = path_join dest_dir INDEX_FILENAME
       ∨ ∃ it, it ∈ listing.1 ∧ is_eligible EXHIBIT_EXTS it
               ∧ path = path_join dest_dir (item_get_name it)).
Proof.
  intros listing run. subst run. unfold _download_exhibits.
  rewrite _download_exhibits_with_run. cbv zeta. fold listing.
  destruct (download_items_files cik_no_zeros accession_nodashes dest_dir
              EXHIBIT_EXTS listing.1 0 listing.2)
    as (Hkeep & _ & _ & Hnew & _).
  assert (fs listing.2 = fs st) as Hfs by apply _index_json_items_fs.
  rewrite Hfs in *.
  destruct (download_items _ _ _ _ _ _ _ _ _) as [[n|] st2];
    cbn [fst snd] in *; [|by split; [auto|intros path [?|?]%Hnew; auto]].
  destruct (_write_clickable_index_frame host cik_no_zeros accession_nodashes
              listing.1 dest_dir st2) as (_ & Hsame & _).
  cbv zeta in Hsame. split.
  - intros path c Hc Hne. rewrite (Hsame path Hne). by apply Hkeep.
  - intros path Hin.
    destruct (decide (path = path_join dest_dir INDEX_FILENAME)) as [|Hne];
      [by auto|].
    apply elem_of_dom in Hin. rewrite (Hsame path Hne) in Hin.
    apply elem_of_dom in Hin. destruct (Hnew path Hin); auto.
Qed.

(** X11: when the exhibit fetcher returns a number, it is the number of
    files that its downloads added to the folder, never more than the
    number of listed entries; the index builder, which runs after the
    downloads, changes no other file than the index page. *)
Theorem exhibit_count_is_number_of_new_files
    cik_no_zeros accession_nodashes dest_dir st n :
  let listing := _index_json_items server cik_no_zeros accession_nodashes st in
  let downloads :=
    download_items server host cik_no_zeros accession_nodashes dest_dir
      EXHIBIT_EXTS listing.1 0 listing.2 in
  let run :=
    _download_exhibits server host cik_no_zeros accession_nodashes dest_dir
      st in
  run.1 = Some n →
  downloads.1 = Some n
  ∧ n = Z.of_nat (size (dom (fs downloads.2) ∖ dom (fs st)))
  ∧ (0 ≤ n ≤ Z.of_nat (length listing.1))%Z
  ∧ ∀ path, path ≠ path_join dest_dir INDEX_FILENAME →
      fs run.2 !! path = fs downloads.2 !! path.
Proof.
  intros listing downloads run. subst run. unfold _download_exhibits.
  rewrite _download_exhibits_with_run. cbv zeta. fold listing downloads.
  destruct (download_items_files cik_no_zeros accession_nodashes dest_dir
              EXHIBIT_EXTS listing.1 0 listing.2)
    as (_ & Hcount & Hsize & _).
  fold downloads in Hcount, Hsize.
  assert (fs listing.2 = fs st) as Hfs by apply _index_json_items_fs.
  rewrite Hfs in *.
  destruct downloads as [[m|] st2]; cbn [fst snd] in *; [|done].
  intros [= <-]. specialize (Hcount m eq_refl).
  destruct (_write_clickable_index_frame host cik_no_zeros accession_nodashes
              listing.1 dest_dir st2) as (_ & Hsame & _).
  split_and!; [done|lia|lia|lia|exact Hsame].
Qed.

End ExhibitFiles.


Section ExhibitRuns.

Variable server : Server.
Variable host : Host.

Hypothesis host_quiet : ∀ events op, host events op = false.










End ExhibitRuns.

Lemma exhibit_count_is_number_of_new_files_witness :
  let run := _download_exhibits served_archive quiet_host "320193"
               "000032019323000106" "out" empty_folder in
  let downloads :=
    download_items served_archive quiet_host "320193" "000032019323000106"
      "out" EXHIBIT_EXTS served_listing 0
      (_index_json_items served_archive "320193" "000032019323000106"
         empty_folder).2 in
  run.1 = Some 2%Z
  ∧ downloads.1 = Some 2%Z
  ∧ 2%Z = Z.of_nat (size (dom (fs downloads.2) ∖ dom (fs empty_folder)))
  ∧ fs run.2 !! "out/ex10-1.htm" = fs downloads.2 !! "out/ex10-1.htm".
Proof.
  cbv zeta.
  assert ((_download_exhibits served_archive quiet_host "320193"
             "000032019323000106" "out" empty_folder).1 = Some 2%Z) as Hrun
    by (by vm_compute).
  destruct (exhibit_count_is_number_of_new_files served_archive quiet_host
              "320193" "000032019323000106" "out" empty_folder 2 Hrun)
    as (Hdownloads & Hsize & _ & Hsame).
  split_and!; [exact Hrun|exact Hdownloads|exact Hsize|].
  apply Hsame. by vm_compute.
Defined.



(* ===================================================================== *)
(** * Identifiers: padding and reading back *)
(* ===================================================================== *)

Section Identifiers.

Lemma forallb_app f s t :
  Py.forallb f (s +:+ t) = Py.forallb f s && Py.forallb f t.
Proof.
  induction s as [|c s IH]; [done|].
  rewrite str_app_cons. simpl. by rewrite IH, andb_assoc.
Qed.

Lemma forallb_rev f s : Py.forallb f (String.rev s) = Py.forallb f s.
Proof.
  induction s as [|c s IH]; [done|].
  rewrite str_rev_cons, forallb_app, IH. simpl.
  by rewrite andb_true_r, andb_comm.
Qed.

Lemma drop_while_none f s :
  Py.forallb (λ c, negb (f c)) s = true → Py.drop_while f s = s.
Proof.
  destruct s as [|c s]; [done|]. simpl.
  intros [Hc _]%andb_true_iff. by destruct (f c).
Qed.

Lemma strip_none s :
  Py.forallb (λ c, negb (Py.is_space c)) s = true →
  String.rev (Py.drop_while Py.is_space
                (String.rev (Py.drop_while Py.is_space s))) = s.
Proof.
  intros Hs. rewrite (drop_while_none _ s Hs).
  rewrite drop_while_none by (by rewrite forallb_rev).
  apply str_rev_involutive.
Qed.

Lemma forallb_impl (f g : ascii → bool) s :
  (∀ c, f c = true → g c = true) →
  Py.forallb f s = true → Py.forallb g s = true.
Proof.
  intros Hfg. induction s as [|c s IH]; [done|]. simpl.
  intros [Hc Hs]%andb_true_iff. by rewrite (Hfg c Hc), IH.
Qed.

Lemma is_digit_not_space c : Py.is_digit c = true → Py.is_space c = false.
Proof.
  unfold Py.is_digit, Py.is_space. cbv zeta.
  intros [H1 H2]%andb_true_iff.
  apply N.leb_le in H1. apply N.leb_le in H2.
  apply orb_false_iff. split; apply andb_false_iff.
  - right. apply N.leb_gt. lia.
  - right. apply N.leb_gt. lia.
Qed.

Lemma is_digit_not_sign c :
  Py.is_digit c = true →
  Ascii.eqb c "-" = false ∧ Ascii.eqb c "+" = false ∧ Ascii.eqb c "_" = false.
Proof.
  intros Hc.
  split_and!; apply Ascii.eqb_neq; intros ->; vm_compute in Hc; discriminate.
Qed.

Lemma int_body_digits s after_digit :
  Py.forallb Py.is_digit s = true →
  s ≠ EmptyString ∨ after_digit = true →
  Py.int_body after_digit s = Some s.
Proof.
  revert after_digit. induction s as [|c s IH]; intros after_digit Hs Hne.
  { destruct Hne as [?| ->]; done. }
  simpl in Hs. apply andb_true_iff in Hs as [Hc Hs].
  cbn [Py.int_body]. rewrite Hc.
  rewrite (IH true Hs) by (by right). done.
Qed.

Lemma digits_value_zeros k s :
  Py.digits_value 0 (Py.repeat "0" k +:+ s) = Py.digits_value 0 s.
Proof. induction k as [|k IH]; [done|]. exact IH. Qed.

Lemma string_of_uint_digits d :
  Py.forallb Py.is_digit (NilEmpty.string_of_uint d) = true.
Proof. induction d; [done|exact IHd..]. Qed.

Lemma digits_value_of_uint_acc d :
  ∀ acc, Py.digits_value (Z.pos acc) (NilEmpty.string_of_uint d)
         = Z.pos (Pos.of_uint_acc d acc).
Proof.
  induction d; intros acc; cbn [NilEmpty.string_of_uint Py.digits_value Pos.of_uint_acc];
    [done|rewrite <- IHd; f_equal..].
  all: vm_compute (Z.of_N _); lia.
Qed.

Lemma digits_value_of_uint d :
  Py.digits_value 0 (NilEmpty.string_of_uint d) = Z.of_N (Pos.of_uint d).
Proof.
  induction d; cbn [NilEmpty.string_of_uint Py.digits_value Pos.of_uint];
    [done|exact IHd|..].
  all: vm_compute (10 * 0 + Z.of_N _)%Z; apply digits_value_of_uint_acc.
Qed.

Lemma nilzero_string_of_uint_spec d :
  let s := NilZero.string_of_uint d in
  Py.forallb Py.is_digit s = true
  ∧ s ≠ EmptyString
  ∧ Py.digits_value 0 s = Z.of_N (Pos.of_uint d).
Proof.
  destruct d; cbv zeta; unfold NilZero.string_of_uint;
    (split_and!; [apply string_of_uint_digits || done
                 |done
                 |apply digits_value_of_uint || done]).
Qed.

Lemma repeat_digits k : Py.forallb Py.is_digit (Py.repeat "0" k) = true.
Proof. induction k as [|k IH]; [done|exact IH]. Qed.

Lemma length_repeat c k : String.length (Py.repeat c k) = k.
Proof. induction k as [|k IH]; [done|]. simpl. by rewrite IH. Qed.

Lemma int_body_only_digits s :
  ∀ after_digit ds,
    Py.int_body after_digit s = Some ds → Py.forallb Py.is_digit ds = true.
Proof.
  induction s as [|c s IH]; intros after_digit ds; cbn [Py.int_body].
  { destruct after_digit; [|done]. by intros [= <-]. }
  destruct (Py.is_digit c) eqn:Hc.
  { destruct (Py.int_body true s) as [ds'|] eqn:Hbody; [|done].
    intros [= <-]. cbn [Py.forallb]. rewrite Hc. by eapply IH. }
  destruct (Ascii.eqb c "_" && after_digit); [|done].
  destruct s as [|d s']; [done|].
  destruct (Py.is_digit d); [|done]. apply IH.
Qed.

Lemma digits_value_bound s :
  Py.forallb Py.is_digit s = true →
  ∀ acc,
    (0 ≤ acc)%Z →
    (0 ≤ Py.digits_value acc s
     < (acc + 1) * 10 ^ Z.of_nat (String.length s))%Z.
Proof.
  induction s as [|c s IH]; intros Hs acc Hacc.
  { cbn [Py.digits_value String.length]. change (10 ^ Z.of_nat 0)%Z with 1%Z.
    lia. }
  cbn [Py.forallb] in Hs. apply andb_true_iff in Hs as [Hc Hs].
  cbn [Py.digits_value String.length].
  unfold Py.is_digit in Hc. cbv zeta in Hc.
  apply andb_true_iff in Hc as [Hlow Hhigh].
  apply N.leb_le in Hlow, Hhigh.
  set (d := Z.of_N (Ascii.N_of_ascii c - 48)).
  assert (0 ≤ d ≤ 9)%Z as Hd by (subst d; lia).
  specialize (IH Hs (10 * acc + d)%Z ltac:(lia)).
  rewrite Nat2Z.inj_succ, Z.pow_succ_r by lia.
  assert (0 < 10 ^ Z.of_nat (String.length s))%Z as Hpow
    by (apply Z.pow_pos_nonneg; lia).
  nia.
Qed.

(** What [int] has read, [str] prints. *)
Lemma int_of_str_str s n :
  Py.int_of_str s = Some n → Py.str n = Some (Py.str_of_int n).
Proof.
  assert (∀ ds v, Py.forallb Py.is_digit ds = true →
                  Py.limited_value ds = Some v →
                  (0 ≤ v < 10 ^ Z.of_nat Py.MAX_STR_DIGITS)%Z) as Hbound.
  { intros ds v Hds. unfold Py.limited_value.
    destruct (Nat.ltb_spec Py.MAX_STR_DIGITS (String.length ds)) as [|Hlen];
      [done|].
    intros [= <-]. pose proof (digits_value_bound ds Hds 0 ltac:(lia)) as Hv.
    assert (10 ^ Z.of_nat (String.length ds)
            ≤ 10 ^ Z.of_nat Py.MAX_STR_DIGITS)%Z as Hpow
      by (apply Z.pow_le_mono_r; lia).
    lia. }
  assert (∀ t v, (Py.int_body false t ≫= Py.limited_value) = Some v →
                 (0 ≤ v < 10 ^ Z.of_nat Py.MAX_STR_DIGITS)%Z) as Hbody.
  { intros t v. destruct (Py.int_body false t) as [ds|] eqn:Ht; [|done].
    cbn [mbind option_bind]. apply Hbound. by eapply int_body_only_digits. }
  assert ((Z.abs n < 10 ^ Z.of_nat Py.MAX_STR_DIGITS)%Z → 
          Py.str n = Some (Py.str_of_int n)) as Hstr.
  { intros Hn. unfold Py.str.
    by destruct (Z.leb_spec (10 ^ Z.of_nat Py.MAX_STR_DIGITS) (Z.abs n));
      [lia|]. }
  unfold Py.int_of_str. cbv zeta.
  destruct (String.rev _) as [|c t']; [done|].
  destruct (Ascii.eqb c "-").
  { destruct (Py.int_body false t' ≫= Py.limited_value) as [v|] eqn:Hv;
      [|done].
    intros [= <-]. apply Hstr. specialize (Hbody _ _ Hv). lia. }
  destruct (Ascii.eqb c "+").
  { intros Hv. apply Hstr. specialize (Hbody _ _ Hv). lia. }
  intros Hv. apply Hstr. specialize (Hbody _ _ Hv). lia.
Qed.

(** [int] reads a run of at most 4300 digits as its value. *)
Lemma int_of_str_digits s :
  Py.forallb Py.is_digit s = true → s ≠ EmptyString →
  Py.int_of_str s = Py.limited_value s.
Proof.
  intros Hs Hne. unfold Py.int_of_str. cbv zeta.
  rewrite strip_none
    by (eapply forallb_impl; [|exact Hs];
        intros c Hc; by rewrite (is_digit_not_space c Hc)).
  destruct s as [|c s]; [done|].
  pose proof Hs as Hc. simpl in Hc. apply andb_true_iff in Hc as [Hc _].
  destruct (is_digit_not_sign c Hc) as (-> & -> & _).
  by rewrite int_body_digits by (done || by left).
Qed.

Lemma int_of_str_minus_digits s :
  Py.forallb Py.is_digit s = true → s ≠ EmptyString →
  Py.int_of_str (String "-" s) = Z.opp <$> Py.limited_value s.
Proof.
  intros Hs Hne. unfold Py.int_of_str. cbv zeta.
  rewrite strip_none.
  - change (Ascii.eqb "-" "-") with true. cbv iota.
    by rewrite int_body_digits by (done || by left).
  - simpl. eapply forallb_impl; [|exact Hs].
    intros c Hc. by rewrite (is_digit_not_space c Hc).
Qed.

Lemma limited_value_short s :
  String.length s ≤ Py.MAX_STR_DIGITS →
  Py.limited_value s = Some (Py.digits_value 0 s).
Proof.
  intros Hlen. unfold Py.limited_value.
  by rewrite (proj2 (Nat.ltb_ge _ _) Hlen).
Qed.

Lemma zfill_int_round_trip (n : Z) (width : nat) :
  width ≤ String.length (Py.zfill width (Py.str_of_int n))
  ∧ (String.length (Py.zfill width (Py.str_of_int n)) ≤ Py.MAX_STR_DIGITS →
     Py.int_of_str (Py.zfill width (Py.str_of_int n)) = Some n).
Proof.
  pose proof (DecimalZ.of_to n) as Hn.
  unfold Py.str_of_int.
  destruct (Z.to_int n) as [d|d]; cbn [NilZero.string_of_int Z.of_int] in *;
    destruct (nilzero_string_of_uint_spec d) as (Hdigits & Hne & Hvalue);
    cbv zeta in Hdigits, Hne, Hvalue;
    unfold Z.of_uint in Hn; rewrite <- Hvalue in Hn.
  - destruct (NilZero.string_of_uint d) as [|c s] eqn:Hs; [done|].
    pose proof Hdigits as Hc. simpl in Hc. apply andb_true_iff in Hc as [Hc _].
    destruct (is_digit_not_sign c Hc) as (Hminus & Hplus & _).
    unfold Py.zfill. cbv zeta. rewrite Hminus, Hplus. cbn [orb].
    split.
    + rewrite str_length_app, length_repeat. lia.
    + intros Hlen. rewrite int_of_str_digits.
      * by rewrite limited_value_short, digits_value_zeros, Hn.
      * by rewrite forallb_app, repeat_digits, Hdigits.
      * destruct (Py.repeat _ _); done.
  - unfold Py.zfill. cbv zeta.
    change (Ascii.eqb "-" "+" || Ascii.eqb "-" "-") with true. cbv iota.
    split.
    + cbn [String.length]. rewrite str_length_app, length_repeat.
      cbn [String.length]. lia.
    + intros Hlen. rewrite int_of_str_minus_digits.
      * rewrite limited_value_short
          by (apply Nat.lt_le_incl; exact Hlen).
        cbn [fmap option_fmap option_map].
        by rewrite digits_value_zeros, Hn.
      * by rewrite forallb_app, repeat_digits, Hdigits.
      * destruct (Py.repeat _ _); [done|done].
Qed.

(** X13: padding a number with zeros and reading it back gives the
    number, for negative numbers as well, whenever the padded text has
    at most 4300 characters; [int] refuses a longer run of digits, and
    [str] prints every number that [int] has read.  The
    identifier that the ticker lookup returns is the number of the
    table, padded with zeros to at least ten characters, so that within
    the limit [int] reads the number of the table back from it: the
    catalogue and the orchestrator, which print [int(cik)] into the
    archive URLs, use the number of the table. *)
Theorem padded_identifier_reads_back :
  (∀ (n : Z) (width : nat),
     String.length (Py.zfill width (Py.str_of_int n)) ≤ Py.MAX_STR_DIGITS →
     Py.int_of_str (Py.zfill width (Py.str_of_int n)) = Some n)
  ∧ (∀ s,
       Py.forallb Py.is_digit s = true →
       Py.MAX_STR_DIGITS < String.length s →
       Py.int_of_str s = None)
  ∧ (∀ s n, Py.int_of_str s = Some n → Py.str n = Some (Py.str_of_int n))
  ∧ (∀ ticker table cik name,
       find_company (normalize_ticker ticker) table = Some (cik, name) →
       ∃ company,
         company ∈ table
         ∧ name = company_title company
         ∧ 10 ≤ String.length cik
         ∧ (String.length cik ≤ Py.MAX_STR_DIGITS →
            Py.int_of_str cik = Some (company_cik_str company))).
Proof.
  split_and!.
  - intros n width. apply zfill_int_round_trip.
  - intros s Hs Hlen. rewrite int_of_str_digits; [|done|].
    + unfold Py.limited_value.
      by rewrite (proj2 (Nat.ltb_lt _ _) Hlen).
    + intros ->. simpl in Hlen. lia.
  - apply int_of_str_str.
  - intros ticker table cik name Hfound.
    pose proof (find_company_spec ticker table) as Hspec.
    rewrite Hfound in Hspec.
    destruct Hspec as (before & company & after & -> & _ & _ & -> & ->).
    exists company. split_and!.
    + apply elem_of_app. right. by left.
    + done.
    + apply zfill_int_round_trip.
    + apply zfill_int_round_trip.
Qed.

End Identifiers.

Lemma padded_identifier_reads_back_witness :
  String.length (Py.zfill 10 (Py.str_of_int 320193)) ≤ Py.MAX_STR_DIGITS
  ∧ Py.int_of_str (Py.zfill 10 (Py.str_of_int 320193)) = Some 320193%Z.
Proof.
  assert (String.length (Py.zfill 10 (Py.str_of_int 320193))
          ≤ Py.MAX_STR_DIGITS) as Hlen by (vm_compute; lia).
  split; [exact Hlen|].
  exact (proj1 padded_identifier_reads_back 320193%Z 10 Hlen).
Defined.


(* ===================================================================== *)
(** * The counters of the download orchestrator *)
(* ===================================================================== *)

Section Counters.

Variable server : Server.
Variable host : Host.

Lemma get_annual_filings_html_result cik count include_amends include_20f st :
  let run :=
    get_annual_filings_html server cik count include_amends include_20f st in
  run.1 = []
  ∨ (is_Some (Py.int_of_str cik)
     ∧ ((0 ≤ count)%Z → length run.1 ≤ Z.to_nat count)).
Proof.
  cbv zeta. unfold get_annual_filings_html. unfold_M.
  destruct (get_json _ _ _) as [data st1]. cbn [snd] in *.
  destruct data as [[| recent | |]|]; try (by left).
  destruct (recent_candidates _ _ _ _) as [cs|] eqn:Hcs; [|by left].
  destruct (Py.int_of_str cik) as [n|]; [|by left].
  right. split; [by eexists|]. intros Hcount.
  apply recent_candidates_length in Hcs; [|done].
  pose proof (resolve_candidates_sublist server (Py.str_of_int n) cs st1)
    as Hsub.
  apply sublist_length in Hsub. rewrite !length_fmap in Hsub. lia.
Qed.

(** The loop over the filings of one company counts the annual reports
    it stored. *)
Lemma download_filings_count cik ticker_folder filings :
  ∀ downloaded st n,
    (download_filings server host cik ticker_folder filings downloaded st).1
    = Some n →
    (downloaded ≤ n ≤ downloaded + Z.of_nat (length filings))%Z.
Proof.
  induction filings as [|filing rest IH]; intros downloaded st n.
  { cbn. intros [= <-]. lia. }
  cbn [download_filings]. unfold_M. cbv beta zeta.
  destruct (path_mkdir host _ st) as [[] st0]; [|done].
  destruct (download_html _ _ _ _ _) as [ok st1].
  change DOWNLOAD_EXHIBITS with true. cbv iota.
  destruct (Py.int_of_str cik) as [m|]; [|done].
  destruct (_download_exhibits _ _ _ _ _ _) as [[count_dl|] st2]; [|done].
  unfold time_sleep. intros Hn%IH. cbn [length]. destruct ok; lia.
Qed.

Lemma download_companies_counts base_output_dir count include_amends
    include_20f items :
  ∀ success_count error_count total_files st s e t,
    (download_companies server host base_output_dir count include_amends
       include_20f items success_count error_count total_files st).1
    = Some (s, e, t) →
    (s + e = success_count + error_count + Z.of_nat (length items))%Z
    ∧ (success_count ≤ s)%Z
    ∧ (error_count ≤ e)%Z
    ∧ (s - success_count ≤ t - total_files)%Z
    ∧ ((0 ≤ count)%Z →
       (t - total_files ≤ (s - success_count) * count)%Z).
Proof.
  induction items as [|[ticker [cik company_name]] rest IH];
    intros success_count error_count total_files st s e t.
  { cbn. intros [= <- <- <-]. lia. }
  cbn [download_companies]. unfold_M. cbv beta zeta.
  destruct (path_mkdir host _ st) as [[] st0]; [|done].
  pose proof (get_annual_filings_html_result cik count include_amends
                include_20f st0) as Hfilings. cbv zeta in Hfilings.
  destruct (get_annual_filings_html _ _ _ _ _ _) as [filings st1].
  cbn [fst] in Hfilings.
  destruct filings as [|filing filings].
  { unfold time_sleep. intros Hrun%IH. cbn [length]. lia. }
  destruct Hfilings as [?|[_ Hlen]]; [done|].
  pose proof (download_filings_count cik (path_join base_output_dir ticker)
                (filing :: filings) 0 st1) as Hcount.
  destruct (download_filings _ _ _ _ _ _ _) as [downloaded st2].
  cbn [fst] in Hcount. unfold time_sleep.
  destruct downloaded as [n|].
  2: { intros Hrun%IH. cbn [length]. lia. }
  specialize (Hcount n eq_refl).
  destruct (Z.ltb_spec 0 n).
  - intros (H1 & H2 & H3 & H4 & H5)%IH. cbn [length].
    split_and!; [lia..|].
    intros Hpos. specialize (Hlen Hpos). specialize (H5 Hpos).
    assert (n ≤ count)%Z by lia. nia.
  - intros Hrun%IH. cbn [length]. lia.
Qed.

(** X14: when the orchestrator reaches its closing report (no [mkdir]
    outside the [try] has raised), every company is counted once in it,
    as successful or as failed; a successful company has stored at least
    one annual report, so the number of reports is at least the number
    of successful companies, and for a count N that is not negative it
    is at most N reports for each of them. *)
Theorem orchestrator_counts_every_company
    ticker_info base_output_dir count include_amends include_20f st
    success_count error_count total_files :
  (download_annual_html server host ticker_info base_output_dir count
     include_amends include_20f st).1
  = Some (success_count, error_count, total_files) →
  (success_count + error_count = Z.of_nat (length ticker_info))%Z
  ∧ (0 ≤ success_count ≤ total_files)%Z
  ∧ (0 ≤ error_count)%Z
  ∧ ((0 ≤ count)%Z → (total_files ≤ success_count * count)%Z).
Proof.
  unfold download_annual_html. unfold_M.
  destruct (os_makedirs host base_output_dir st) as [[] st0]; [|done].
  intros (H1 & H2 & H3 & H4 & H5)%download_companies_counts.
  split_and!; [lia..|]. intros Hpos. specialize (H5 Hpos). lia.
Qed.

End Counters.

Lemma orchestrator_counts_every_company_witness :
  let ticker_info :=
    [("AAPL", ("0000320193", "Apple Inc."));
     ("MSFT", ("0000789019", "MICROSOFT CORP"))] in
  let run :=
    download_annual_html declared_archive quiet_host ticker_info "out" 5 true
      true initial_state in
  run.1 = Some (1, 1, 2)%Z
  ∧ (1 + 1 = Z.of_nat (length ticker_info))%Z
  ∧ fs run.2
      !! "out/AAPL/10-K_2023-11-03_0000320193-23-000106/10-K_2023-11-03_0000320193-23-000106.html"
    = Some "<html>annual report</html>".
Proof.
  intros ticker_info run.
  assert (run.1 = Some (1, 1, 2)%Z) as Hrun by (by vm_compute).
  split_and!; [exact Hrun| |by vm_compute].
  exact (proj1 (orchestrator_counts_every_company declared_archive
                  quiet_host ticker_info "out" 5%Z true true initial_state
                  1%Z 1%Z 2%Z Hrun)).
Defined.

Lemma exhibit_fetcher_keeps_existing_files_witness :
  let run :=
    _download_exhibits served_archive quiet_host "320193"
      "000032019323000106" "out" example_folder in
  fs example_folder !! "out/a10-k.htm" = Some "<html>annual report</html>"
  ∧ fs run.2 !! "out/a10-k.htm" = Some "<html>annual report</html>".
Proof.
  intros run. split; [reflexivity|].
  apply (proj1 (exhibit_fetcher_keeps_existing_files served_archive
                  quiet_host "320193" "000032019323000106" "out"
                  example_folder));
    [reflexivity|by vm_compute].
Defined.

(* ===================================================================== *)
(** * Storing the annual report *)
(* ===================================================================== *)

Section Storing.

Variable server : Server.
Variable host : Host.

(** X15: [download_html] returns [True] only after it has written the
    output file, and what the file then holds is the body of the reply
    to the last request sent, a reply that is no error; this holds on the
    direct path and on the path through a bundle. *)
Theorem download_html_true_stores_a_reply url output_path st :
  let run := download_html server host url output_path st in
  run.1 = true →
  ∃ events url' status text json,
    log run.2 = events ++ [Request url']
    ∧ server events url' = Response status text json
    ∧ raises_for_status status = false
    ∧ fs run.2 !! output_path = Some text.
Proof.
  cbv zeta. unfold download_html, requests_get. unfold_M.
  cbv beta zeta.
  destruct (server (log st) url) as [|status text json] eqn:Hreply; [done|].
  destruct (status =? 404)%Z; [done|].
  destruct (raises_for_status status) eqn:Hstatus; [done|].
  destruct (is_sgml_master text).
  2: { unfold path_write. destruct (can_write host _ _); [|done].
       intros _. exists (log st), url, status, text, json.
       cbn [fst snd log fs].
       split_and!; [done|done|done|apply lookup_insert_eq]. }
  destruct (Re.search_edgar_path url) as [[cik_no_zeros accession_nodashes]|];
    [|done].
  destruct (_save_master_submission_txt _ _ _ _ _ _) as [[] st1].
  change DOWNLOAD_EXHIBITS with true. cbv iota beta.
  destruct (_download_exhibits _ _ _ _ _ _) as [[count|] st2];
    [|done].
  rewrite bool_decide_eq_true_2 by (by eexists).
  destruct (_extract_annual_html_from_sgml text) as [[|c fname]|]; [done| |done].
  destruct (server (log st2) _) as [|status2 text2 json2] eqn:Hreply2; [done|].
  destruct (status2 =? 404)%Z; [done|].
  destruct (raises_for_status status2) eqn:Hstatus2; [done|].
  unfold path_write. destruct (can_write host _ _); [|done].
  intros _. eexists (log st2), _, status2, text2, json2. cbn [fst snd log fs].
  split_and!; [done|exact Hreply2|done|apply lookup_insert_eq].
Qed.

End Storing.

Lemma download_html_true_stores_a_reply_witness :
  let url :=
    "https://www.sec.gov/Archives/edgar/data/320193/000032019323000106/000032019323000106.txt" in
  let run := download_html example_archive quiet_host url "out/report.html"
               empty_folder in
  run.1 = true
  ∧ ∃ events url' status text json,
      log run.2 = events ++ [Request url']
      ∧ example_archive events url' = Response status text json
      ∧ raises_for_status status = false
      ∧ fs run.2 !! "out/report.html" = Some text.
Proof.
  intros url run.
  assert (run.1 = true) as Hrun by (by vm_compute).
  split; [exact Hrun|].
  exact (download_html_true_stores_a_reply example_archive quiet_host url
           "out/report.html" empty_folder Hrun).
Defined.


(* ===================================================================== *)
(** * Bundles made of documents *)
(* ===================================================================== *)

Section BundleBlocks.

Lemma strip_prefix_ci_self p r : Re.strip_prefix_ci p (p +:+ r) = Some r.
Proof.
  induction p as [|c p IH]; [by destruct r|].
  rewrite str_app_cons. cbn [Re.strip_prefix_ci].
  by rewrite Ascii.eqb_refl.
Qed.

(** A match of [p] at the start of [a +:+ x] lies in [a], or ends in
    [x]. *)
Lemma strip_prefix_ci_app p :
  ∀ a x r,
    Re.strip_prefix_ci p (a +:+ x) = Some r →
    (∃ r', Re.strip_prefix_ci p a = Some r' ∧ r = r' +:+ x)
    ∨ (∃ p1 p2,
         p = p1 +:+ p2 ∧ p2 ≠ EmptyString
         ∧ String.length p1 = String.length a
         ∧ Re.strip_prefix_ci p2 x = Some r).
Proof.
  induction p as [|c p IH]; intros a x r.
  { destruct a; cbn; intros [= <-]; left; by eexists. }
  destruct a as [|d a].
  { intros Hx. right. by exists EmptyString, (String c p). }
  rewrite str_app_cons. cbn [Re.strip_prefix_ci].
  destruct (Ascii.eqb _ _); [|done].
  intros [(r' & Hr' & ->)|(p1 & p2 & -> & Hp2 & Hlen & Hx)]%IH.
  - left. by exists r'.
  - right. exists (String c p1), p2. cbn [String.length].
    by rewrite Hlen.
Qed.

(** A marker that starts with [<] and holds no other [<] cannot start
    in a text and end in a copy of itself that follows the text. *)
Lemma strip_prefix_ci_straddle p a x r :
  no_angle p = true → a ≠ EmptyString →
  Re.strip_prefix_ci (String "<" p) (a +:+ String "<" x) = Some r →
  is_Some (Re.strip_prefix_ci (String "<" p) a).
Proof.
  intros Hp Ha [(r' & Hr' & _)|(p1 & p2 & Hsplit & Hp2 & Hlen & Hx)]
    %strip_prefix_ci_app; [by eexists|].
  destruct a as [|d a]; [done|].
  destruct p1 as [|c1 p1]; [done|].
  rewrite str_app_cons in Hsplit. injection Hsplit as _ ->.
  unfold no_angle in Hp. rewrite forallb_app in Hp.
  apply andb_true_iff in Hp as [_ Hp].
  destruct p2 as [|q p2]; [done|].
  cbn [Py.forallb] in Hp. apply andb_true_iff in Hp as [Hq _].
  cbn [Re.strip_prefix_ci] in Hx.
  change (Py.lower_char "<") with "<"%char in Hx.
  apply negb_true_iff in Hq. by rewrite Hq in Hx.
Qed.

Lemma split_at_ci_unfold p s :
  Re.split_at_ci p s
  = match Re.strip_prefix_ci p s with
    | Some rest => Some (EmptyString, rest)
    | None =>
        match s with
        | EmptyString => None
        | String c s' =>
            match Re.split_at_ci p s' with
            | Some (before, after) => Some (String c before, after)
            | None => None
            end
        end
    end.
Proof. by destruct s. Qed.

Lemma split_at_ci_none_cons p c s :
  Re.split_at_ci p (String c s) = None →
  Re.strip_prefix_ci p (String c s) = None ∧ Re.split_at_ci p s = None.
Proof.
  rewrite split_at_ci_unfold.
  destruct (Re.strip_prefix_ci p (String c s)); [done|].
  by destruct (Re.split_at_ci p s) as [[]|].
Qed.

(** The leftmost copy of a marker in a text that holds none before it. *)
Lemma split_at_ci_marker p body rest :
  no_angle p = true →
  Re.split_at_ci (String "<" p) body = None →
  Re.split_at_ci (String "<" p) (body +:+ String "<" p +:+ rest)
  = Some (body, rest).
Proof.
  intros Hp. induction body as [|c body IH]; intros Hbody.
  { rewrite str_app_nil_l, split_at_ci_unfold.
    by rewrite strip_prefix_ci_self. }
  apply split_at_ci_none_cons in Hbody as [Hhere Hbody].
  rewrite split_at_ci_unfold.
  destruct (Re.strip_prefix_ci (String "<" p)
              (String c body +:+ String "<" p +:+ rest)) as [r|] eqn:Hr.
  { change (String c body +:+ String "<" p +:+ rest)
      with (String c body +:+ String "<" (p +:+ rest)) in Hr.
    apply strip_prefix_ci_straddle in Hr as [? Hr]; [congruence|done|done]. }
  rewrite str_app_cons. by rewrite (IH Hbody).
Qed.

Lemma findall_document_unfold s :
  Re.findall_document s
  = match s with
    | EmptyString => []
    | String _ s' =>
        match Re.strip_prefix_ci "<DOCUMENT>" s with
        | Some rest =>
            match Re.split_at_ci "</DOCUMENT>" rest with
            | Some (body, after) => body :: Re.findall_document after
            | None => Re.findall_document s'
            end
        | None => Re.findall_document s'
        end
    end.
Proof.
  destruct s as [|c s]; [done|].
  unfold Re.findall_document at 1.
  cbn [String.length Re.findall_document_fuel].
  destruct (Re.strip_prefix_ci "<DOCUMENT>" (String c s)) as [rest|] eqn:Hopen;
    [|by apply findall_document_fuel_total].
  destruct (Re.split_at_ci "</DOCUMENT>" rest) as [[body after]|] eqn:Hclose;
    [|by apply findall_document_fuel_total].
  apply strip_prefix_ci_length in Hopen.
  apply split_at_ci_length in Hclose.
  cbn [String.length] in Hopen, Hclose.
  f_equal. apply findall_document_fuel_total. lia.
Qed.

Lemma findall_document_no_opener s :
  Re.split_at_ci "<DOCUMENT>" s = None → Re.findall_document s = [].
Proof.
  induction s as [|c s IH]; [done|].
  intros [Hhere Hs]%split_at_ci_none_cons.
  rewrite findall_document_unfold, Hhere. by apply IH.
Qed.

Lemma findall_document_skip gap t :
  Re.split_at_ci "<DOCUMENT>" gap = None →
  Re.findall_document (gap +:+ "<DOCUMENT>" +:+ t)
  = Re.findall_document ("<DOCUMENT>" +:+ t).
Proof.
  induction gap as [|c gap IH]; [done|].
  intros [Hhere Hgap]%split_at_ci_none_cons.
  rewrite findall_document_unfold. rewrite str_app_cons.
  destruct (Re.strip_prefix_ci "<DOCUMENT>"
              (String c (gap +:+ "<DOCUMENT>" +:+ t))) as [r|] eqn:Hr;
    [|by apply IH].
  change (String c (gap +:+ "<DOCUMENT>" +:+ t))
    with (String c gap +:+ String "<" ("DOCUMENT>" +:+ t)) in Hr.
  apply (strip_prefix_ci_straddle "DOCUMENT>") in Hr as [? Hr];
    [congruence|done|done].
Qed.

Lemma findall_document_doc body t :
  Re.split_at_ci "</DOCUMENT>" body = None →
  Re.findall_document ("<DOCUMENT>" +:+ body +:+ "</DOCUMENT>" +:+ t)
  = body :: Re.findall_document t.
Proof.
  intros Hbody. rewrite findall_document_unfold.
  rewrite (str_app_cons "<" "DOCUMENT>").
  rewrite <- (str_app_cons "<" "DOCUMENT>").
  rewrite strip_prefix_ci_self.
  by rewrite (split_at_ci_marker "/DOCUMENT>" body t eq_refl Hbody).
Qed.

Lemma findall_document_gap gap docs :
  Re.split_at_ci "<DOCUMENT>" gap = None →
  Re.findall_document (gap +:+ sgml_documents docs)
  = Re.findall_document (sgml_documents docs).
Proof.
  intros Hgap. destruct docs as [|[body gap'] rest].
  - cbn [sgml_documents]. rewrite str_app_nil_r.
    by apply findall_document_no_opener.
  - cbn [sgml_documents]. by apply findall_document_skip.
Qed.

Lemma findall_document_documents docs :
  Forall well_delimited docs →
  Re.findall_document (sgml_documents docs) = docs.*1.
Proof.
  induction docs as [|[body gap] rest IH]; [done|].
  intros [[Hbody Hgap] Hrest]%Forall_cons. cbn [sgml_documents].
  rewrite findall_document_doc by done.
  rewrite findall_document_gap by done.
  by rewrite (IH Hrest).
Qed.

(** X16: a bundle that is a header without opening marker followed by
    documents, each a body without closing marker between the two
    markers and then a text without opening marker, is split into
    exactly the bodies, in order, whatever the letter case of the
    markers' occurrences elsewhere; the file name that the auto-recovery
    extracts from it is the one of the first body that qualifies. *)
Theorem bundle_splits_into_its_documents header docs :
  Re.split_at_ci "<DOCUMENT>" header = None →
  Forall well_delimited docs →
  Re.findall_document (header +:+ sgml_documents docs) = docs.*1
  ∧ _extract_annual_html_from_sgml (header +:+ sgml_documents docs)
    = scan_blocks_for_name docs.*1.
Proof.
  intros Hheader Hdocs.
  assert (Re.findall_document (header +:+ sgml_documents docs) = docs.*1)
    as Hblocks.
  { rewrite findall_document_gap by done.
    by apply findall_document_documents. }
  split; [done|]. unfold _extract_annual_html_from_sgml. by rewrite Hblocks.
Qed.

End BundleBlocks.

Lemma bundle_splits_into_its_documents_witness :
  let header := "<SEC-DOCUMENT>0000320193-23-000106.txt" +:+ newline in
  header +:+ sgml_documents example_documents = example_bundle
  ∧ Re.findall_document example_bundle = example_documents.*1
  ∧ _extract_annual_html_from_sgml example_bundle = Some "aapl-10k.htm".
Proof.
  intros header.
  assert (header +:+ sgml_documents example_documents = example_bundle)
    as Hbundle by reflexivity.
  split; [exact Hbundle|].
  rewrite <- Hbundle.
  destruct (bundle_splits_into_its_documents header example_documents)
    as [Hblocks Hname].
  - reflexivity.
  - repeat constructor.
  - split; [exact Hblocks|]. rewrite Hname. reflexivity.
Defined.


(* ===================================================================== *)
(** * The index page *)
(* ===================================================================== *)

Section IndexPage.

Lemma contains_app p a x b :
  Py.contains p x = true → Py.contains p (a +:+ x +:+ b) = true.
Proof.
  intros (a' & b' & ->)%contains_spec. apply contains_spec.
  exists (a +:+ a'), (b' +:+ b). by rewrite !str_app_assoc.
Qed.

Lemma contains_refl p : Py.contains p p = true.
Proof.
  apply contains_spec. exists EmptyString, EmptyString.
  by rewrite str_app_nil_l, str_app_nil_r.
Qed.

Lemma concat_elem sep x l :
  x ∈ l → ∃ a b, String.concat sep l = a +:+ x +:+ b.
Proof.
  induction l as [|h t IH]; [by intros ?%elem_of_nil|].
  intros [->|Hx]%elem_of_cons.
  - destruct t as [|h' t].
    + exists EmptyString, EmptyString.
      by rewrite str_app_nil_l, str_app_nil_r.
    + exists EmptyString, (sep +:+ String.concat sep (h' :: t)).
      by rewrite str_app_nil_l.
  - destruct (IH Hx) as (a & b & Hab).
    destruct t as [|h' t]; [by apply elem_of_nil in Hx|].
    exists (h +:+ sep +:+ a), b.
    change (String.concat sep (h :: h' :: t))
      with (h +:+ sep +:+ String.concat sep (h' :: t)).
    by rewrite Hab, !str_app_assoc.
Qed.

Lemma index_page_row cik_no_zeros accession_nodashes dest_dir present
    items it :
  it ∈ items →
  ∃ a b,
    index_page cik_no_zeros accession_nodashes dest_dir present items
    = a +:+ index_row_html
              (index_row cik_no_zeros accession_nodashes dest_dir present it)
        +:+ b.
Proof.
  intros Hit. unfold index_page, index_html. apply concat_elem.
  apply elem_of_app. right. apply elem_of_app. left.
  apply list_elem_of_fmap.
  exists (index_row cik_no_zeros accession_nodashes dest_dir present it).
  split; [done|]. by apply list_elem_of_fmap_2.
Qed.

(** X17: whatever the folder holds, the index page has for every entry
    of the listing a link to the file in the archive, built from the
    identifier, the accession id and the name of the entry; for an entry
    whose path exists in the folder it has a link to the local copy as
    well. *)
Theorem index_page_links_every_entry
    cik_no_zeros accession_nodashes dest_dir present items it :
  it ∈ items →
  let page :=
    index_page cik_no_zeros accession_nodashes dest_dir present items in
  let name := item_get_name it in
  Py.contains
    (remote_link (archive_url cik_no_zeros accession_nodashes name)) page
  = true
  ∧ (present (path_join dest_dir name) = true →
     Py.contains (local_link name) page = true).
Proof.
  intros Hit page name.
  destruct (index_page_row cik_no_zeros accession_nodashes dest_dir present
              items it Hit) as (a & b & Hpage).
  fold page in Hpage. rewrite Hpage. split.
  - apply contains_app. unfold index_row, index_row_html. fold name.
    set (local_col := if present _ then _ else _).
    apply contains_spec.
    exists ("<tr><td>" +:+ name +:+ "</td><td>" +:+ local_col +:+ "</td><td>"),
      "</td></tr>".
    unfold remote_link. rewrite !str_app_assoc. reflexivity.
  - intros Hlocal. apply contains_app.
    unfold index_row, index_row_html. fold name.
    rewrite Hlocal.
    apply contains_spec.
    exists ("<tr><td>" +:+ name +:+ "</td><td>"),
      ("</td><td><a href='"
         +:+ archive_url cik_no_zeros accession_nodashes name
         +:+ "' target='_blank'>"
         +:+ archive_url cik_no_zeros accession_nodashes name
         +:+ "</a></td></tr>").
    unfold local_link. rewrite !str_app_assoc. reflexivity.
Qed.

End IndexPage.

Lemma index_page_links_every_entry_witness :
  let page :=
    index_page "320193" "000032019323000106" "out"
      (exists_in quiet_host example_folder) example_listing in
  Py.contains
    (remote_link "https://www.sec.gov/Archives/edgar/data/320193/000032019323000106/ex99.pdf")
    page = true
  ∧ Py.contains (local_link "ex99.pdf") page = true.
Proof.
  intros page.
  destruct (index_page_links_every_entry "320193" "000032019323000106" "out"
              (exists_in quiet_host example_folder) example_listing
              {| item_name := Some "ex99.pdf" |}) as [Hremote Hlocal].
  - unfold example_listing. apply elem_of_cons. right. apply elem_of_cons.
    by left.
  - split; [exact Hremote|]. apply Hlocal. by vm_compute.
Defined.

(** The listing of [cover_archive] holds the HTML name
    "10-k/index.html", which carries a filing-type token and is not
    "index.html", and the listing tier picks it; its URL ends in
    "/index.html", so the resolver drops it, reads the bundle, and
    returns the cover page "index.html" of the folder. *)
Lemma resolver_returns_cover_page_from_bundle :
  let cik := "320193" in
  let acc := "000032019323000106" in
  "10-k/index.html" ∈ html_names cover_listing
  ∧ carries_token "10-k/index.html" = true
  ∧ is_index_html "10-k/index.html" = false
  ∧ (_index_json_items cover_archive cik acc initial_state).1 = cover_listing
  ∧ pick_html_from_items cover_listing = Some "10-k/index.html"
  ∧ (pick_best_annual_html cover_archive cik acc None initial_state).1
    = Some "https://www.sec.gov/Archives/edgar/data/320193/000032019323000106/index.html"
  ∧ is_index_html "index.html" = true.
Proof.
  split_and!; try reflexivity.
  vm_compute. apply list_elem_of_further, list_elem_of_here.
Qed.

Example path_examples :
  path_join "out" "ex10-1.htm" = "out/ex10-1.htm"
  ∧ path_join "out" EmptyString = "out"
  ∧ path_join "out" "./ex10-1.htm" = "out/ex10-1.htm"
  ∧ path_join "out" "sub/ex1.htm" = "out/sub/ex1.htm"
  ∧ path_join "out" "/tmp/ex1.htm" = "/tmp/ex1.htm"
  ∧ path_parent "out/sub/ex1.htm" = "out/sub"
  ∧ path_parent "report.html" = "."
  ∧ path_ancestors "out/AAPL/10-K" = ["out"; "out/AAPL"; "out/AAPL/10-K"].
Proof. split_and!; reflexivity. Qed.

(** The rows of the index page for [example_listing] in
    [example_folder]: the entry without a name is tested against the
    folder itself, which exists. *)
Example index_rows_example :
  index_row "320193" "000032019323000106" "out"
    (exists_in quiet_host example_folder) <$> example_listing
  = [ ("a10-k.htm",
       "https://www.sec.gov/Archives/edgar/data/320193/000032019323000106/a10-k.htm",
       true);
      ("ex99.pdf",
       "https://www.sec.gov/Archives/edgar/data/320193/000032019323000106/ex99.pdf",
       true);
      ("data.xml",
       "https://www.sec.gov/Archives/edgar/data/320193/000032019323000106/data.xml",
       false);
      (EmptyString,
       "https://www.sec.gov/Archives/edgar/data/320193/000032019323000106/",
       true) ].
Proof. reflexivity. Qed.
